(** * TFS, the in-memory file system of fs/operations.c

    A shallow embedding of the facade of TFS (tfs_init, tfs_open,
    tfs_close, tfs_read, tfs_write, tfs_link, tfs_sym_link, tfs_unlink,
    tfs_copy_from_external_fs) as functions on an explicit file-system
    state, and the properties of the specification, and further ones of
    the code, stated and proved on them.

    The facade is translated from fs/operations.c.  The state layer it
    calls (state.h: the pools, the inode engine, the directory store and
    the open-file table) and the constants of operations.h and config.h
    are not part of the sources at hand; they are modelled from the
    specification, and each such definition says so.

    Conventions of the model:
    - the global state of the C code is passed and returned explicitly; a
      pointer into a table is the index of its slot, and a write through
      it updates that slot;
    - [size_t] values are integers in [0, 2^64) and their sums and
      differences wrap around; inumbers, handles and link counts are C
      [int]s, kept as integers with [-1] for failure, and never grow near
      the bounds of [int];
    - a path is a string (no NULL pointer, no character after a NUL);
    - the data blocks lie one after the other in one array: tfs_read,
      which does not test its offset against the block, reads on into the
      blocks that follow;
    - a failed ALWAYS_ASSERT, a write outside its block or the caller's
      buffer, and a read outside the array of the blocks are results of
      their own, not return values;
    - tfs_open calls itself on symbolic links and takes fuel for that:
      what is proved of its result holds for every fuel above the length
      of the chain of links;
    - the host file system of tfs_copy_from_external_fs is a function from
      paths to the bytes of the files. *)

From Stdlib Require Import ZArith Lia.
From Stdlib Require Import Strings.String Strings.Ascii Init.Byte.
From stdpp Require Import base list strings.

Local Open Scope Z_scope.

(** ** Machine integers

    [size_t] is an unsigned 64-bit integer: sums and differences wrap
    around modulo [2^64].  [ssize_t] is its signed counterpart. *)

Definition SIZE_MODULUS : Z := 2 ^ 64.

Definition size_add (a b : Z) : Z := (a + b) mod SIZE_MODULUS.

Definition size_sub (a b : Z) : Z := (a - b) mod SIZE_MODULUS.

Definition to_ssize_t (a : Z) : Z :=
  if a <? 2 ^ 63 then a else a - SIZE_MODULUS.

(** ** Data model *)

Record tfs_params := mk_params {
  max_inode_count : Z;
  max_block_count : Z;
  max_open_files_count : Z;
  block_size : Z
}.

Definition tfs_default_params : tfs_params :=
  {| max_inode_count := 64;
     max_block_count := 1024;
     max_open_files_count := 16;
     block_size := 1024 |}.

Inductive inode_type := T_FILE | T_DIRECTORY | T_SYM_LINK.

Inductive allocation_state := FREE | TAKEN.

Record inode_t := mk_inode {
  i_node_type : inode_type;
  i_size : Z;
  i_data_block : Z;
  i_links : Z;
  i_target_d_name : string
}.

Record dir_entry_t := mk_dir_entry {
  d_name : string;
  d_inumber : Z
}.

Record open_file_entry_t := mk_open_file {
  of_inumber : Z;
  of_offset : Z
}.

(** A pool is an array of slots, each with its bit of the free bitmap.
    A freed slot keeps its last content. *)
Abbreviation pool A := (list (allocation_state * A)).

(** The global state.  TFS has one directory, the root; [root_dir] is the
    entry array that lives in the root's data block (the block itself is
    taken from [fs_data] like any other, its bytes are not modelled). *)
Record FsState := mk_state {
  fs_params : tfs_params;
  inode_table : pool inode_t;
  fs_data : pool (list byte);
  open_file_table : pool open_file_entry_t;
  root_dir : list dir_entry_t
}.

Definition with_inode_table (s : FsState) (t : pool inode_t) : FsState :=
  {| fs_params := fs_params s; inode_table := t; fs_data := fs_data s;
     open_file_table := open_file_table s; root_dir := root_dir s |}.

Definition with_fs_data (s : FsState) (d : pool (list byte)) : FsState :=
  {| fs_params := fs_params s; inode_table := inode_table s; fs_data := d;
     open_file_table := open_file_table s; root_dir := root_dir s |}.

Definition with_open_file_table (s : FsState)
    (t : pool open_file_entry_t) : FsState :=
  {| fs_params := fs_params s; inode_table := inode_table s;
     fs_data := fs_data s; open_file_table := t; root_dir := root_dir s |}.

Definition with_root_dir (s : FsState) (d : list dir_entry_t) : FsState :=
  {| fs_params := fs_params s; inode_table := inode_table s;
     fs_data := fs_data s; open_file_table := open_file_table s;
     root_dir := d |}.

(** What a call does: it returns a value and leaves a state, or it stops
    the process on a failed ALWAYS_ASSERT, or its behaviour is undefined
    (a NULL or out-of-bounds access), or the model ran out of fuel. *)
Inductive result (A : Type) : Type :=
| Done (v : A) (s : FsState)
| AssertFail (msg : string)
| Undefined
| OutOfFuel.

Arguments Done {A} v s.
Arguments AssertFail {A} msg.
Arguments Undefined {A}.
Arguments OutOfFuel {A}.

(** ** Pool allocator *)

Module Pool.

(** Modelled from the spec: the pool allocator of state.c, which is not
    among the sources.  "Allocation scans the bitmap for the first free
    slot"; [None] when the pool is full. *)
Fixpoint find_free {A : Type} (p : pool A) : option nat :=
  match p with
  | [] => None
  | (FREE, _) :: _ => Some 0%nat
  | (TAKEN, _) :: p' => S <$> find_free p'
  end.

(** Modelled from the spec: the pool accessor of state.c.  "It returns
    NONE for indices out of range or for slots that are not currently
    allocated." *)
Definition get {A : Type} (p : pool A) (i : Z) : option A :=
  if i <? 0 then None
  else match p !! Z.to_nat i with
       | Some (TAKEN, a) => Some a
       | _ => None
       end.

(** Writing through the pointer that [get] returned. *)
Definition put {A : Type} (p : pool A) (i : Z) (a : A) : pool A :=
  if i <? 0 then p else <[Z.to_nat i := (TAKEN, a)]> p.

(** Modelled from the spec: the pool release of state.c.  "free clears
    the bit"; the slot keeps its content.  An index out of range is left
    alone (the facade never passes one). *)
Definition free {A : Type} (p : pool A) (i : Z) : pool A :=
  if i <? 0 then p
  else match p !! Z.to_nat i with
       | Some (_, a) => <[Z.to_nat i := (FREE, a)]> p
       | None => p
       end.

End Pool.

(** ** Constants of the headers *)

(** Modelled from the spec: ROOT_DIR_INUM of config.h, "the inumber
    returned by the very first inode_create(DIRECTORY) after init", that
    is, the first slot of the inode pool. *)
Definition ROOT_DIR_INUM : Z := 0.

(** Modelled from the spec: the mode bit CREAT of operations.h; "CREAT,
    TRUNC, APPEND are independent bits". *)
Definition TFS_O_CREAT : Z := 1.

(** Modelled from the spec: the mode bit TRUNC of operations.h. *)
Definition TFS_O_TRUNC : Z := 2.

(** Modelled from the spec: the mode bit APPEND of operations.h. *)
Definition TFS_O_APPEND : Z := 4.

Definition mode_has (mode bit : Z) : bool := negb (Z.land mode bit =? 0).

(** The test of the directory scans: the entry bears this name. *)
Definition entry_named (name : string) (e : dir_entry_t) : Prop :=
  d_name e = name.

#[global] Instance entry_named_dec (name : string) (e : dir_entry_t)
    : Decision (entry_named name e) := String.eq_dec (d_name e) name.

Section TFS.

(** The bound on the length of a directory-entry name (a constant of
    config.h, which is not among the sources; the spec gives no value). *)
Variable MAX_NAME_LENGTH : nat.

(** ** Data blocks *)

(** Modelled from the spec: data_block_alloc of state.c, the pool
    allocation on the block pool; [-1] when no block is free.  The block
    keeps the bytes it held. *)
Definition data_block_alloc (s : FsState) : Z * FsState :=
  match Pool.find_free (fs_data s) with
  | None => (-1, s)
  | Some n =>
      match fs_data s !! n with
      | Some (_, bytes) =>
          (Z.of_nat n, with_fs_data s (<[n := (TAKEN, bytes)]> (fs_data s)))
      | None => (-1, s)
      end
  end.

(** Modelled from the spec: data_block_free of state.c. *)
Definition data_block_free (s : FsState) (b : Z) : FsState :=
  with_fs_data s (Pool.free (fs_data s) b).

(** Modelled from the spec: data_block_get of state.c; [None] is the
    NULL pointer. *)
Definition data_block_get (s : FsState) (b : Z) : option (list byte) :=
  Pool.get (fs_data s) b.

(** Modelled from the spec: state_block_size of state.c, the configured
    block size. *)
Definition state_block_size (s : FsState) : Z := block_size (fs_params s).

(** ** Inode engine *)

(** Modelled from the spec: inode_get of state.c, the "bounds- and
    allocation-checked accessor"; [None] is the NULL pointer.  The pointer
    it returns is the slot itself: the facade's writes through it are
    [inode_put] at the same inumber. *)
Definition inode_get (s : FsState) (inum : Z) : option inode_t :=
  Pool.get (inode_table s) inum.

Definition inode_put (s : FsState) (inum : Z) (ino : inode_t) : FsState :=
  with_inode_table s (Pool.put (inode_table s) inum ino).

Definition free_dir_entry : dir_entry_t :=
  {| d_name := EmptyString; d_inumber := -1 |}.

(** Modelled from the spec: inode_create of state.c.  It "allocates an
    inode slot.  For DIRECTORY, allocates a data block and initializes it
    to all-free entries; if block allocation fails, rolls back the inode
    allocation.  Sets size = 0, link_count = 1, kind-specific fields.  For
    SYMLINK, target_name is left empty."  The directory has
    [max_inode_count] entries. *)
Definition inode_create (s : FsState) (ty : inode_type) : Z * FsState :=
  match Pool.find_free (inode_table s) with
  | None => (-1, s)
  | Some n =>
      match ty with
      | T_DIRECTORY =>
          let (b, s1) := data_block_alloc s in
          if b =? -1 then (-1, s)
          else
            let ino := mk_inode T_DIRECTORY 0 b 1 EmptyString in
            (Z.of_nat n,
             with_root_dir
               (with_inode_table s1 (<[n := (TAKEN, ino)]> (inode_table s1)))
               (replicate (Z.to_nat (max_inode_count (fs_params s)))
                          free_dir_entry))
      | _ =>
          let ino := mk_inode ty 0 (-1) 1 EmptyString in
          (Z.of_nat n,
           with_inode_table s (<[n := (TAKEN, ino)]> (inode_table s)))
      end
  end.

Definition owns_block (ino : inode_t) : bool :=
  match i_node_type ino with
  | T_FILE => 0 <? i_size ino
  | T_DIRECTORY => true
  | T_SYM_LINK => false
  end.

(** Modelled from the spec: inode_delete of state.c.  It "frees the
    inode's data block if the inode is a FILE with size > 0 or a
    DIRECTORY; returns the inode slot to the pool."  An inumber that is
    not allocated is left alone (the facade never passes one). *)
Definition inode_delete (s : FsState) (inum : Z) : FsState :=
  match inode_get s inum with
  | None => s
  | Some ino =>
      let s1 := if owns_block ino then data_block_free s (i_data_block ino)
                else s in
      with_inode_table s1 (Pool.free (inode_table s1) inum)
  end.

(** ** Directory store *)

Definition is_directory (s : FsState) (d : Z) : bool :=
  match inode_get s d with
  | Some ino =>
      match i_node_type ino with T_DIRECTORY => true | _ => false end
  | None => false
  end.

(** Modelled from the spec: find_in_dir of state.c, a "linear scan for
    exact name match" over the entries of the directory inode [d] (given
    by its inumber, the slot the pointer points to); [-1] when there is no
    match or [d] is no directory.  "Empty string means the slot is free",
    and a free slot holds the invalid inumber [-1]. *)
Definition find_in_dir (s : FsState) (d : Z) (sub_name : string) : Z :=
  if is_directory s d then
    match list_find (entry_named sub_name) (root_dir s) with
    | Some (_, e) => d_inumber e
    | None => -1
    end
  else -1.

(** Modelled from the spec: add_dir_entry of state.c.  It "fails if name
    length exceeds the bound, if an entry with name already exists, or if
    no free slot exists.  Names are duplicated into the slot; the slot
    stores inum."  The first free slot is taken. *)
Definition add_dir_entry (s : FsState) (d : Z) (sub_name : string)
    (sub_inumber : Z) : Z * FsState :=
  if negb (is_directory s d) then (-1, s)
  else if (MAX_NAME_LENGTH <? String.length sub_name)%nat then (-1, s)
  else
    match list_find (entry_named sub_name) (root_dir s) with
    | Some _ => (-1, s)
    | None =>
        match list_find (entry_named EmptyString) (root_dir s) with
        | None => (-1, s)
        | Some (k, _) =>
            (0, with_root_dir s
                  (<[k := mk_dir_entry sub_name sub_inumber]> (root_dir s)))
        end
    end.

(** Modelled from the spec: clear_dir_entry of state.c.  It "empties the
    matching slot (sets sentinel name and invalid inumber); fails if
    absent." *)
Definition clear_dir_entry (s : FsState) (d : Z) (sub_name : string)
    : Z * FsState :=
  if negb (is_directory s d) then (-1, s)
  else
    match list_find (entry_named sub_name) (root_dir s) with
    | None => (-1, s)
    | Some (k, _) =>
        (0, with_root_dir s (<[k := free_dir_entry]> (root_dir s)))
    end.

(** ** Open-file table *)

(** Modelled from the spec: add_to_open_file_table of state.c; it
    "allocates an entry; fails when full". *)
Definition add_to_open_file_table (s : FsState) (inum offset : Z)
    : Z * FsState :=
  match Pool.find_free (open_file_table s) with
  | None => (-1, s)
  | Some n =>
      (Z.of_nat n,
       with_open_file_table s
         (<[n := (TAKEN, mk_open_file inum offset)]> (open_file_table s)))
  end.

(** Modelled from the spec: remove_from_open_file_table of state.c; it
    "frees the entry". *)
Definition remove_from_open_file_table (s : FsState) (fhandle : Z)
    : FsState :=
  with_open_file_table s (Pool.free (open_file_table s) fhandle).

(** Modelled from the spec: get_open_file_entry of state.c, "bounds- and
    liveness-checked"; [None] is the NULL pointer.  Writes through the
    pointer are [open_file_put] at the same handle. *)
Definition get_open_file_entry (s : FsState) (fhandle : Z)
    : option open_file_entry_t :=
  Pool.get (open_file_table s) fhandle.

Definition open_file_put (s : FsState) (fhandle : Z)
    (f : open_file_entry_t) : FsState :=
  with_open_file_table s (Pool.put (open_file_table s) fhandle f).

(** Modelled from the spec: state_init of state.c; it "constructs the
    FsState with the given parameters": every slot of every pool free.
    The spec names no way for it to fail, and none is modelled. *)
Definition state_init (params : tfs_params) : FsState :=
  {| fs_params := params;
     inode_table :=
       replicate (Z.to_nat (max_inode_count params))
                 (FREE, mk_inode T_FILE 0 (-1) 0 EmptyString);
     fs_data :=
       replicate (Z.to_nat (max_block_count params))
                 (FREE, replicate (Z.to_nat (block_size params)) x00%byte);
     open_file_table :=
       replicate (Z.to_nat (max_open_files_count params))
                 (FREE, mk_open_file (-1) 0);
     root_dir := [] |}.

(** ** The facade (fs/operations.c) *)

(** [params_ptr] is [None] for the NULL pointer.  state_init is taken to
    succeed (see [state_init]). *)
Definition tfs_init (params_ptr : option tfs_params) : result Z :=
  let params :=
    match params_ptr with
    | Some params => params
    | None => tfs_default_params
    end in
  let (root, s) := inode_create (state_init params) T_DIRECTORY in
  if root =? ROOT_DIR_INUM then Done 0 s else Done (-1) s.

(** [strlen(name) > 1 && name[0] == '/'], for a name that is not NULL. *)
Definition valid_pathname (name : string) : bool :=
  (1 <? String.length name)%nat &&
  match name with
  | String c _ => Ascii.eqb c "/"
  | EmptyString => false
  end.

(** [name + 1]: the name without its first character. *)
Definition skip_first (name : string) : string :=
  match name with
  | String _ rest => rest
  | EmptyString => EmptyString
  end.

Definition tfs_lookup (s : FsState) (name : string) (root_inode : Z) : Z :=
  if negb (valid_pathname name) then -1
  else find_in_dir s root_inode (skip_first name).

Definition set_i_size (ino : inode_t) (sz : Z) : inode_t :=
  mk_inode (i_node_type ino) sz (i_data_block ino) (i_links ino)
           (i_target_d_name ino).

Definition set_i_data_block (ino : inode_t) (b : Z) : inode_t :=
  mk_inode (i_node_type ino) (i_size ino) b (i_links ino)
           (i_target_d_name ino).

Definition set_i_links (ino : inode_t) (n : Z) : inode_t :=
  mk_inode (i_node_type ino) (i_size ino) (i_data_block ino) n
           (i_target_d_name ino).

Definition set_i_target_d_name (ino : inode_t) (t : string) : inode_t :=
  mk_inode (i_node_type ino) (i_size ino) (i_data_block ino) (i_links ino) t.

Definition is_sym_link (ino : inode_t) : bool :=
  match i_node_type ino with T_SYM_LINK => true | _ => false end.

(** tfs_open calls itself on the target of a symbolic link, with nothing
    to bound the depth: each call takes one unit of [fuel]. *)
Fixpoint tfs_open (fuel : nat) (name : string) (mode : Z) (s : FsState)
    : result Z :=
  match fuel with
  | O => OutOfFuel
  | S fuel' =>
      if negb (valid_pathname name) then Done (-1) s
      else
        match inode_get s ROOT_DIR_INUM with
        | None => AssertFail "tfs_open: root dir inode must exist"
        | Some _ =>
            let inum := tfs_lookup s name ROOT_DIR_INUM in
            if 0 <=? inum then
              match inode_get s inum with
              | None =>
                  AssertFail "tfs_open: directory files must have an inode"
              | Some inode =>
                  if is_sym_link inode then
                    if String.eqb (i_target_d_name inode) name
                    then Done (-1) s
                    else tfs_open fuel' (i_target_d_name inode) mode s
                  else
                    let truncate :=
                      mode_has mode TFS_O_TRUNC && (0 <? i_size inode) in
                    let inode1 :=
                      if truncate then set_i_size inode 0 else inode in
                    let s1 :=
                      if truncate
                      then inode_put
                             (data_block_free s (i_data_block inode))
                             inum inode1
                      else s in
                    let offset :=
                      if mode_has mode TFS_O_APPEND then i_size inode1
                      else 0 in
                    let (h, s2) := add_to_open_file_table s1 inum offset in
                    Done h s2
              end
            else if mode_has mode TFS_O_CREAT then
              let (inum1, s1) := inode_create s T_FILE in
              if inum1 =? -1 then Done (-1) s1
              else
                let (r, s2) :=
                  add_dir_entry s1 ROOT_DIR_INUM (skip_first name) inum1 in
                if r =? -1 then Done (-1) (inode_delete s2 inum1)
                else
                  let (h, s3) := add_to_open_file_table s2 inum1 0 in
                  Done h s3
            else Done (-1) s
        end
  end.

Definition tfs_sym_link (target link_name : string) (s : FsState)
    : result Z :=
  if negb (valid_pathname link_name) || negb (valid_pathname target)
  then Done (-1) s
  else
    match inode_get s ROOT_DIR_INUM with
    | None => AssertFail "tfs_sym_link: failed to find root dir inode"
    | Some _ =>
        let i_target_num := tfs_lookup s target ROOT_DIR_INUM in
        if i_target_num =? -1 then Done (-1) s
        else
          let (i_link_number, s1) := inode_create s T_SYM_LINK in
          if i_link_number =? -1 then Done (-1) s1
          else
            match inode_get s1 i_link_number with
            | None => Done (-1) s1
            | Some i_link =>
                let s2 :=
                  inode_put s1 i_link_number
                            (set_i_target_d_name i_link target) in
                let link_sub := skip_first link_name in
                match inode_get s2 ROOT_DIR_INUM with
                | None => Undefined
                | Some _ =>
                    let (r, s3) :=
                      add_dir_entry s2 ROOT_DIR_INUM link_sub
                                    i_link_number in
                    if r =? -1 then Done (-1) s3 else Done 0 s3
                end
            end
    end.

Definition tfs_link (target link_name : string) (s : FsState) : result Z :=
  if negb (valid_pathname target) || negb (valid_pathname link_name)
  then Done (-1) s
  else
    let link_sub := skip_first link_name in
    match inode_get s ROOT_DIR_INUM with
    | None => AssertFail "tfs_link: failed to find root dir inode"
    | Some _ =>
        let target_inumber := tfs_lookup s target ROOT_DIR_INUM in
        if target_inumber =? -1 then Done (-1) s
        else
          match inode_get s target_inumber with
          | None => Done (-1) s
          | Some itarget =>
              if is_sym_link itarget then Done (-1) s
              else
                let (r, s1) :=
                  add_dir_entry s ROOT_DIR_INUM link_sub target_inumber in
                if r =? -1 then Done (-1) s1
                else
                  Done 0 (inode_put s1 target_inumber
                            (set_i_links itarget (i_links itarget + 1)))
          end
    end.

Definition tfs_close (fhandle : Z) (s : FsState) : result Z :=
  match get_open_file_entry s fhandle with
  | None => Done (-1) s
  | Some _ => Done 0 (remove_from_open_file_table s fhandle)
  end.

(** [memcpy(block + offset, buffer, n)] for [n > 0]: defined only inside
    the block and inside the buffer. *)
Definition block_store (block : list byte) (offset : Z) (buffer : list byte)
    (n : Z) : option (list byte) :=
  if (0 <=? offset)
     && (offset + n <=? Z.of_nat (length block))
     && (n <=? Z.of_nat (length buffer))
  then Some (take (Z.to_nat offset) block
             ++ take (Z.to_nat n) buffer
             ++ drop (Z.to_nat (offset + n)) block)
  else None.

(** The [n] bytes of a block from [offset] on, when they lie inside the
    block: what [arena_load] below gives there. *)
Definition block_load (block : list byte) (offset n : Z)
    : option (list byte) :=
  if (0 <=? offset) && (offset + n <=? Z.of_nat (length block))
  then Some (take (Z.to_nat n) (drop (Z.to_nat offset) block))
  else None.

(** Modelled from the spec: the memory of the block pool of state.c, "a
    fixed-capacity arena": the blocks lie one after the other, so that
    the bytes after the end of a block are those of the next block. *)
Definition arena (data : pool (list byte)) : list byte :=
  mjoin (data.*2).

(** The place of block [b] in the arena ([b * block_size], the blocks
    having [block_size] bytes each). *)
Definition block_address (data : pool (list byte)) (b : Z) : nat :=
  length (arena (take (Z.to_nat b) data)).

(** [memcpy(buffer, block + offset, n)] for [n > 0], [block] being the
    pointer to block [b]: the bytes that reach the buffer.  tfs_read does
    not test [offset + n] against the size of the block: the copy runs on
    into the blocks that follow, and is undefined only from the end of
    the arena on. *)
Definition arena_load (data : pool (list byte)) (b offset n : Z)
    : option (list byte) :=
  let from := drop (block_address data b + Z.to_nat offset) (arena data) in
  if (0 <=? offset) && (n <=? Z.of_nat (length from))
  then Some (take (Z.to_nat n) from)
  else None.

Definition tfs_write (fhandle : Z) (buffer : list byte) (to_write : Z)
    (s : FsState) : result Z :=
  match get_open_file_entry s fhandle with
  | None => Done (-1) s
  | Some file =>
      match inode_get s (of_inumber file) with
      | None => AssertFail "tfs_write: inode of open file deleted"
      | Some inode =>
          let block_size := state_block_size s in
          let to_write :=
            if block_size <? size_add to_write (of_offset file)
            then size_sub block_size (of_offset file)
            else to_write in
          if 0 <? to_write then
            let allocated :=
              if i_size inode =? 0 then
                let (bnum, s1) := data_block_alloc s in
                if bnum =? -1 then None
                else Some (set_i_data_block inode bnum, s1)
              else Some (inode, s) in
            match allocated with
            | None => Done (-1) s
            | Some (inode1, s1) =>
                match data_block_get s1 (i_data_block inode1) with
                | None =>
                    AssertFail "tfs_write: data block deleted mid-write"
                | Some block =>
                    match
                      block_store block (of_offset file) buffer to_write
                    with
                    | None => Undefined
                    | Some block1 =>
                        let offset1 := size_add (of_offset file) to_write in
                        let inode2 :=
                          if i_size inode1 <? offset1
                          then set_i_size inode1 offset1 else inode1 in
                        Done (to_ssize_t to_write)
                          (inode_put
                             (open_file_put
                                (with_fs_data s1
                                   (Pool.put (fs_data s1)
                                      (i_data_block inode1) block1))
                                fhandle
                                (mk_open_file (of_inumber file) offset1))
                             (of_inumber file) inode2)
                    end
                end
            end
          else Done (to_ssize_t to_write) s
      end
  end.

(** tfs_read returns the count and the bytes copied into the buffer. *)
Definition tfs_read (fhandle : Z) (len : Z) (s : FsState)
    : result (Z * list byte) :=
  match get_open_file_entry s fhandle with
  | None => Done (-1, []) s
  | Some file =>
      match inode_get s (of_inumber file) with
      | None => AssertFail "tfs_read: inode of open file deleted"
      | Some inode =>
          let to_read := size_sub (i_size inode) (of_offset file) in
          let to_read := if len <? to_read then len else to_read in
          if 0 <? to_read then
            match data_block_get s (i_data_block inode) with
            | None => AssertFail "tfs_read: data block deleted mid-read"
            | Some _ =>
                match
                  arena_load (fs_data s) (i_data_block inode)
                             (of_offset file) to_read
                with
                | None => Undefined
                | Some bytes =>
                    Done (to_ssize_t to_read, bytes)
                      (open_file_put s fhandle
                         (mk_open_file (of_inumber file)
                            (size_add (of_offset file) to_read)))
                end
            end
          else Done (to_ssize_t to_read, []) s
      end
  end.

Definition tfs_unlink (target : string) (s : FsState) : result Z :=
  if negb (valid_pathname target) then Done (-1) s
  else
    let target_sub := skip_first target in
    match inode_get s ROOT_DIR_INUM with
    | None => AssertFail "tfs_unlink: failed to find root dir inode"
    | Some _ =>
        let i_target_num := tfs_lookup s target ROOT_DIR_INUM in
        if i_target_num =? -1 then Done (-1) s
        else
          match inode_get s i_target_num with
          | None => Done (-1) s
          | Some i_target =>
              let s1 :=
                if i_links i_target - 1 <=? 0
                then inode_delete s i_target_num
                else inode_put s i_target_num
                       (set_i_links i_target (i_links i_target - 1)) in
              match inode_get s1 ROOT_DIR_INUM with
              | None => Undefined
              | Some _ =>
                  let (_, s2) :=
                    clear_dir_entry s1 ROOT_DIR_INUM target_sub in
                  Done 0 s2
              end
          end
    end.

End TFS.

(** ** Runs of the facade

    A state is reachable when calls of the facade lead to it from a
    successful tfs_init. *)

Inductive call : Type :=
| DoOpen (name : string) (mode : Z)
| DoClose (fhandle : Z)
| DoRead (fhandle : Z) (len : Z)
| DoWrite (fhandle : Z) (buffer : list byte) (to_write : Z)
| DoLink (target link_name : string)
| DoSymLink (target link_name : string)
| DoUnlink (target : string).

Definition forget_bytes (r : result (Z * list byte)) : result Z :=
  match r with
  | Done (n, _) s => Done n s
  | AssertFail msg => AssertFail msg
  | Undefined => Undefined
  | OutOfFuel => OutOfFuel
  end.

Definition run_call (M fuel : nat) (c : call) (s : FsState) : result Z :=
  match c with
  | DoOpen name mode => tfs_open M fuel name mode s
  | DoClose fhandle => tfs_close fhandle s
  | DoRead fhandle len => forget_bytes (tfs_read fhandle len s)
  | DoWrite fhandle buffer to_write => tfs_write fhandle buffer to_write s
  | DoLink target link_name => tfs_link M target link_name s
  | DoSymLink target link_name => tfs_sym_link M target link_name s
  | DoUnlink target => tfs_unlink target s
  end.

Inductive reachable (M : nat) : FsState -> Prop :=
| reachable_init (params_ptr : option tfs_params) (s : FsState) :
    tfs_init params_ptr = Done 0 s -> reachable M s
| reachable_call (s s' : FsState) (fuel : nat) (c : call) (v : Z) :
    reachable M s -> run_call M fuel c s = Done v s' -> reachable M s'.

(** The state a list of calls leads to, when every call returns. *)
Fixpoint run_calls (M fuel : nat) (cs : list call) (s : FsState)
    : option FsState :=
  match cs with
  | [] => Some s
  | c :: cs' =>
      match run_call M fuel c s with
      | Done _ s' => run_calls M fuel cs' s'
      | _ => None
      end
  end.

(** ** Well-formed states *)

(** Every block of the pool has [block_size] bytes. *)
Definition blocks_sized (s : FsState) : Prop :=
  forall (i : nat) (st : allocation_state) (bytes : list byte),
    fs_data s !! i = Some (st, bytes) ->
    length bytes = Z.to_nat (state_block_size s).

(** ** The invariant of reachable states

    The invariant reads the inode pool through [meta]: which inumbers are
    allocated, and the kind and link count of each. *)

Definition meta (s : FsState) (i : Z) : option (inode_type * Z) :=
  match inode_get s i with
  | Some ino => Some (i_node_type ino, i_links ino)
  | None => None
  end.

(** The number of directory entries that hold inumber [i]. *)
Fixpoint refs (i : Z) (d : list dir_entry_t) : nat :=
  match d with
  | [] => 0%nat
  | e :: d' =>
      ((if (d_inumber e =? i)%Z then 1 else 0) + refs i d')%nat
  end.

Definition link_bound (m : Z -> option (inode_type * Z)) (i : Z) : Z :=
  match m i with
  | Some (_, l) => l
  | None => 0
  end.

Record Inv (m : Z -> option (inode_type * Z)) (d : list dir_entry_t)
    : Prop := mk_Inv {
  (* the root directory exists *)
  Inv_root : exists l : Z, m ROOT_DIR_INUM = Some (T_DIRECTORY, l);
  (* an inode has no more entries than links, a free slot has none *)
  Inv_refs : forall i : Z, 0 <= i -> Z.of_nat (refs i d) <= link_bound m i;
  (* the root is in no entry *)
  Inv_no_root : refs ROOT_DIR_INUM d = 0%nat;
  (* a symbolic link has one link *)
  Inv_sym : forall (i l : Z), m i = Some (T_SYM_LINK, l) -> l = 1;
  (* names are unique *)
  Inv_unique :
    forall (j k : nat) (e e' : dir_entry_t),
      d !! j = Some e -> d !! k = Some e' ->
      d_name e = d_name e' -> d_name e <> EmptyString -> j = k
}.

Definition fs_inv (s : FsState) : Prop := Inv (meta s) (root_dir s).

(** [m] with the inode at [i] changed to [x]. *)
Definition meta_set (m : Z -> option (inode_type * Z)) (i : Z)
    (x : option (inode_type * Z)) (j : Z) : option (inode_type * Z) :=
  if j =? i then x else m j.

(** ** Scenarios

    A small file system (4 inodes, 3 blocks of 8 bytes, 2 open files,
    names of up to 40 characters) and the state a list of calls leaves. *)

Definition small_params : tfs_params := mk_params 4 3 2 8.

Definition scenario (cs : list call) : option FsState :=
  match tfs_init (Some small_params) with
  | Done 0 s => run_calls 40 8 cs s
  | _ => None
  end.

(** Two states with the same directory and the same view of the inodes. *)
Definition same_meta (s s' : FsState) : Prop :=
  (forall i : Z, meta s' i = meta s i) /\ root_dir s' = root_dir s.

Definition state_after (cs : list call) : FsState :=
  match scenario cs with
  | Some s => s
  | None => state_init small_params
  end.

(** In every open-file entry, the inumber of an inode that exists. *)
Definition open_files_live (s : FsState) : Prop :=
  forall (fhandle : Z) (file : open_file_entry_t),
    get_open_file_entry s fhandle = Some file ->
    is_Some (inode_get s (of_inumber file)).

(** The freshly initialised small file system. *)
Definition fs_fresh : FsState := Eval vm_compute in state_after [].

(** "/f" created and still open (handle 0, inode 1, offset 0). *)
Definition fs_f_open : FsState :=
  Eval vm_compute in state_after [DoOpen "/f" TFS_O_CREAT].

(** "/a" created and closed. *)
Definition fs_a : FsState :=
  Eval vm_compute in state_after [DoOpen "/a" TFS_O_CREAT; DoClose 0].

(** "/a" and "/b" created, both still open: the open-file table is full. *)
Definition fs_two_open : FsState :=
  Eval vm_compute in
    state_after [DoOpen "/a" TFS_O_CREAT; DoOpen "/b" TFS_O_CREAT].

(** "/t" a file, "/s" a symbolic link to it. *)
Definition fs_sym : FsState :=
  Eval vm_compute in
    state_after [DoOpen "/t" TFS_O_CREAT; DoClose 0; DoSymLink "/t" "/s"].

(** "/a" a file with a second name "/b", and "/s" a symbolic link to it. *)
Definition fs_links : FsState :=
  Eval vm_compute in
    state_after [DoOpen "/a" TFS_O_CREAT; DoClose 0; DoLink "/a" "/b";
                 DoSymLink "/a" "/s"].

(** "/f" opened, two bytes written through handle 0, then truncated by a
    second open (handle 1) and one byte written through that: the file has
    size 1 and handle 0 is at offset 2. *)
Definition fs_past_end : FsState :=
  Eval vm_compute in
    state_after [DoOpen "/f" TFS_O_CREAT; DoWrite 0 ["a"; "b"]%byte 2;
                 DoOpen "/f" TFS_O_TRUNC; DoWrite 1 ["c"]%byte 1].

(** "/f" opened and then unlinked. *)
Definition fs_unlinked_open : FsState :=
  Eval vm_compute in state_after [DoOpen "/f" TFS_O_CREAT; DoUnlink "/f"].

(** A name of 41 characters, one more than the bound of the scenarios. *)
Definition long_name : string :=
  "/aaaaaaaaaaaaaaaaaaaaaaaaaaaaaaaaaaaaaaaaa".

(** A file system with a single data block, which the root takes. *)
Definition one_block_params : tfs_params := mk_params 4 1 2 8.

(** ** The invariant of the data blocks

    It reads the inode pool through [bmeta]: kind, size and data block of
    each allocated inode. *)

Definition bmeta (s : FsState) (i : Z) : option (inode_type * Z * Z) :=
  match inode_get s i with
  | Some ino => Some (i_node_type ino, i_size ino, i_data_block ino)
  | None => None
  end.

Definition bmeta_set (m : Z -> option (inode_type * Z * Z)) (i : Z)
    (x : option (inode_type * Z * Z)) (j : Z)
    : option (inode_type * Z * Z) :=
  if j =? i then x else m j.

Record BInv (bs : Z) (data : pool (list byte))
    (m : Z -> option (inode_type * Z * Z)) : Prop := mk_BInv {
  (* every block has [bs] bytes *)
  BInv_sized :
    forall (k : nat) (st : allocation_state) (bytes : list byte),
      data !! k = Some (st, bytes) -> length bytes = Z.to_nat bs;
  (* an inode that is not empty has its block allocated *)
  BInv_owned :
    forall (i : Z) (ty : inode_type) (sz b : Z),
      m i = Some (ty, sz, b) -> sz <> 0 -> is_Some (Pool.get data b);
  (* and shares it with no other *)
  BInv_unshared :
    forall (i j : Z) (ty ty' : inode_type) (sz sz' b : Z),
      m i = Some (ty, sz, b) -> m j = Some (ty', sz', b) ->
      sz <> 0 -> sz' <> 0 -> i = j;
  (* the root is the only directory *)
  BInv_one_dir :
    forall (i sz b : Z), m i = Some (T_DIRECTORY, sz, b) -> i = ROOT_DIR_INUM
}.

Definition block_inv (s : FsState) : Prop :=
  BInv (state_block_size s) (fs_data s) (bmeta s).

(** [fs_sym] with the link "/s" made to point to itself (no call of the
    facade builds such a link). *)
Definition fs_self_loop : FsState :=
  Eval vm_compute in
    inode_put fs_sym 2 (mk_inode T_SYM_LINK 0 (-1) 1 "/s").

(** ** Copying a file of the host (tfs_copy_from_external_fs)

    The host file system is seen through fopen and fread only: a path
    names the bytes of a file, or nothing (fopen returns NULL), and an open
    stream is the bytes not read yet.  EXT_BUFFER, the size of the copy
    buffer, is a constant of config.h, which is not among the sources; it
    is a parameter of the model. *)

(** Sequencing of calls: the next call runs on the state the first one
    left. *)
Definition and_then {A B : Type} (r : result A)
    (k : A -> FsState -> result B) : result B :=
  match r with
  | Done v s => k v s
  | AssertFail msg => AssertFail msg
  | Undefined => Undefined
  | OutOfFuel => OutOfFuel
  end.

(** [fread(buffer, 1, EXT_BUFFER, source)]: the bytes that reach the
    buffer, at most EXT_BUFFER of them, and the stream after them. *)
Definition host_fread (EXT_BUFFER : nat) (source : list byte)
    : list byte * list byte :=
  (take EXT_BUFFER source, drop EXT_BUFFER source).

(** The loop of tfs_copy_from_external_fs, entered with the bytes of the
    last fread in [buffer] ([bytes_read] is their number).  The value of
    tfs_write is dropped.  Each turn takes one unit of [fuel]. *)
Fixpoint copy_loop (fuel EXT_BUFFER : nat) (dest : Z)
    (buffer source : list byte) (s : FsState) : result unit :=
  match fuel with
  | O => OutOfFuel
  | S fuel' =>
      let bytes_read := Z.of_nat (length buffer) in
      if 0 <? bytes_read then
        and_then (tfs_write dest buffer bytes_read s) (fun _ s1 =>
          let (buffer1, source1) := host_fread EXT_BUFFER source in
          copy_loop fuel' EXT_BUFFER dest buffer1 source1 s1)
      else Done tt s
  end.

(** [host] is the host file system.  The loop is given one turn per byte
    of the source and one more, which is all it can take
    ([copy_loop_fuel]). *)
Definition tfs_copy_from_external_fs (M fuel EXT_BUFFER : nat)
    (host : string -> option (list byte)) (source_path dest_path : string)
    (s : FsState) : result Z :=
  match host source_path with
  | None => Done (-1) s
  | Some source =>
      let open_mode := Z.lor TFS_O_CREAT TFS_O_TRUNC in
      and_then (tfs_open M fuel dest_path open_mode s) (fun dest s1 =>
        if dest =? -1 then Done (-1) s1
        else
          let (buffer, source1) := host_fread EXT_BUFFER source in
          and_then
            (copy_loop (S (length source)) EXT_BUFFER dest buffer source1 s1)
            (fun _ s2 =>
               and_then (tfs_close dest s2) (fun _ s3 => Done 0 s3)))
  end.

(** The state a copy is in: the handle [h] is at the end of the file [n],
    which holds [content]. *)
Definition at_end (s : FsState) (h n : Z) (ino : inode_t)
    (content : list byte) : Prop :=
  get_open_file_entry s h
  = Some (mk_open_file n (Z.of_nat (length content))) /\
  inode_get s n = Some ino /\
  i_size ino = Z.of_nat (length content) /\
  (content <> [] ->
   exists block : list byte,
     data_block_get s (i_data_block ino) = Some block /\
     take (length content) block = content).

(** ** The bounds of sizes and offsets

    No file is longer than a block ([block_size] is a [size_t]; were the
    parameter negative the bound would be 0).  The offset of a handle is a
    [size_t] with no such bound: tfs_read moves a handle that is past the
    end of its file further, by the count it was asked for. *)
Definition sizes_bounded (s : FsState) : Prop :=
  let top := Z.max 0 (state_block_size s) in
  (forall (i : Z) (ino : inode_t),
     inode_get s i = Some ino -> 0 <= i_size ino <= top) /\
  (forall (fhandle : Z) (file : open_file_entry_t),
     get_open_file_entry s fhandle = Some file -> 0 <= of_offset file).

(** ** More scenarios *)

(** "/f" created, "ab" written through handle 0, which stays open. *)
Definition fs_f_written : FsState :=
  Eval vm_compute in
    state_after [DoOpen "/f" TFS_O_CREAT; DoWrite 0 ["a"; "b"]%byte 2].

(** The same, closed: "/f" holds "ab" and no handle is open. *)
Definition fs_f_closed : FsState :=
  Eval vm_compute in
    state_after [DoOpen "/f" TFS_O_CREAT; DoWrite 0 ["a"; "b"]%byte 2;
                 DoClose 0].

(** "/f" holds "ab"; handle 0 is at its end and handle 1 at its start. *)
Definition fs_shared : FsState :=
  Eval vm_compute in
    state_after [DoOpen "/f" TFS_O_CREAT; DoWrite 0 ["a"; "b"]%byte 2;
                 DoOpen "/f" 0].

(** The same after a read of the whole file through handle 1. *)
Definition fs_shared_read : FsState :=
  Eval vm_compute in
    state_after [DoOpen "/f" TFS_O_CREAT; DoWrite 0 ["a"; "b"]%byte 2;
                 DoOpen "/f" 0; DoRead 1 8].

(** "/a" a file with a second name "/b". *)
Definition fs_a_b : FsState :=
  Eval vm_compute in
    state_after [DoOpen "/a" TFS_O_CREAT; DoClose 0; DoLink "/a" "/b"].

(** "/a" a file and "/s" a symbolic link to it. *)
Definition fs_a_s : FsState :=
  Eval vm_compute in
    state_after [DoOpen "/a" TFS_O_CREAT; DoClose 0; DoSymLink "/a" "/s"].

(** The same after "/a" is unlinked: "/s" dangles. *)
Definition fs_dangling : FsState :=
  Eval vm_compute in
    state_after [DoOpen "/a" TFS_O_CREAT; DoClose 0; DoSymLink "/a" "/s";
                 DoUnlink "/a"].

(** The calls that make "/a" a symbolic link to "/b" and "/b" one to
    "/a": the file "/b" is linked to, unlinked, and its name reused. *)
Definition cycle_calls : list call :=
  [DoOpen "/b" TFS_O_CREAT; DoClose 0; DoSymLink "/b" "/a"; DoUnlink "/b";
   DoSymLink "/a" "/b"].

Definition fs_cycle : FsState := Eval vm_compute in state_after cycle_calls.

(** A host file system with one file, "notes", of ten bytes. *)
Definition host_notes (path : string) : option (list byte) :=
  if String.eqb path "notes"
  then Some ["0"; "1"; "2"; "3"; "4"; "5"; "6"; "7"; "8"; "9"]%byte
  else None.

(** "/f" opened and unlinked, then "/g" created: handles 0 and 1. *)
Definition fs_stale : FsState :=
  Eval vm_compute in
    state_after [DoOpen "/f" TFS_O_CREAT; DoUnlink "/f";
                 DoOpen "/g" TFS_O_CREAT].

(** The calls that leave a handle past the end of its block: handle 0
    writes the 8 bytes of a block, "/f" is truncated through handle 1 and
    gets one byte, and handle 0 reads one byte. *)
Definition past_block_calls : list call :=
  [DoOpen "/f" TFS_O_CREAT;
   DoWrite 0 ["0"; "1"; "2"; "3"; "4"; "5"; "6"; "7"]%byte 8;
   DoOpen "/f" TFS_O_TRUNC; DoWrite 1 ["c"]%byte 1; DoRead 0 1].

Definition fs_past_block : FsState :=
  Eval vm_compute in state_after past_block_calls.

(** ** The chain of symbolic links at a path *)

(** The path on which tfs_open calls itself for [name] (operations.c,
    lines 94 to 99): the target of the symbolic link that [name] resolves
    to, unless it is [name] itself; [None] when tfs_open does not call
    itself. *)
Definition sym_link_target (s : FsState) (name : string) : option string :=
  if negb (valid_pathname name) then None
  else
    match inode_get s ROOT_DIR_INUM with
    | None => None
    | Some _ =>
        let inum := tfs_lookup s name ROOT_DIR_INUM in
        if 0 <=? inum then
          match inode_get s inum with
          | None => None
          | Some inode =>
              if is_sym_link inode then
                if String.eqb (i_target_d_name inode) name then None
                else Some (i_target_d_name inode)
              else None
          end
        else None
    end.

(** The calls of tfs_open on itself that start at [name] end after at
    most [depth] of them. *)
Fixpoint chain_ends (depth : nat) (s : FsState) (name : string) : bool :=
  match sym_link_target s name with
  | None => true
  | Some target =>
      match depth with
      | O => false
      | S depth' => chain_ends depth' s target
      end
  end.

(* ================================================================== *)
(** * Properties *)

(** ** Pools *)

Lemma find_free_Some {A : Type} (p : pool A) (n : nat) :
  Pool.find_free p = Some n ->
  exists a, p !! n = Some (FREE, a).
Proof.
  revert n. induction p as [|[[] a] p IH]; intros n H; simpl in H.
  - discriminate.
  - injection H as <-. eauto.
  - destruct (Pool.find_free p) as [m|] eqn:E; simpl in H; [|discriminate].
    injection H as <-. destruct (IH m eq_refl) as [a' Ha']. eauto.
Qed.

Lemma find_free_None {A : Type} (p : pool A) (i : Z) :
  Pool.find_free p = None -> 0 <= i < Z.of_nat (length p) ->
  is_Some (Pool.get p i).
Proof.
  intros H Hi. unfold Pool.get.
  destruct (Z.ltb_spec i 0); [lia|].
  assert (Hn : (Z.to_nat i < length p)%nat) by lia.
  revert H Hn. generalize (Z.to_nat i). clear.
  induction p as [|[[] a] p IH]; intros n H Hn; simpl in *.
  - lia.
  - discriminate.
  - destruct (Pool.find_free p) eqn:E; simpl in H; [discriminate|].
    destruct n; simpl; [eauto|]. apply IH; [done|lia].
Qed.

Lemma pool_get_Some {A : Type} (p : pool A) (i : Z) (a : A) :
  Pool.get p i = Some a <-> 0 <= i /\ p !! Z.to_nat i = Some (TAKEN, a).
Proof.
  unfold Pool.get. destruct (Z.ltb_spec i 0).
  - split; [discriminate|lia].
  - destruct (p !! Z.to_nat i) as [[[] b]|]; split;
      intros; destruct_and?; simplify_eq; auto.
Qed.

Lemma pool_get_insert_eq {A : Type} (p : pool A) (n : nat) (a : A) :
  (n < length p)%nat ->
  Pool.get (<[n := (TAKEN, a)]> p) (Z.of_nat n) = Some a.
Proof.
  intros Hn. apply pool_get_Some. split; [lia|].
  rewrite Nat2Z.id. by apply list_lookup_insert_eq.
Qed.

Lemma pool_get_insert_ne {A : Type} (p : pool A) (n : nat) (i : Z)
    (x : allocation_state * A) :
  i <> Z.of_nat n -> Pool.get (<[n := x]> p) i = Pool.get p i.
Proof.
  intros Hne. unfold Pool.get. destruct (Z.ltb_spec i 0); [done|].
  rewrite list_lookup_insert_ne by lia. done.
Qed.

Lemma pool_get_put_eq {A : Type} (p : pool A) (i : Z) (a b : A) :
  Pool.get p i = Some a -> Pool.get (Pool.put p i b) i = Some b.
Proof.
  intros [Hi Hl]%pool_get_Some. unfold Pool.put.
  destruct (Z.ltb_spec i 0); [lia|].
  rewrite <- (Z2Nat.id i) at 2 by lia.
  apply pool_get_insert_eq. by eapply lookup_lt_Some.
Qed.

Lemma pool_get_put_ne {A : Type} (p : pool A) (i j : Z) (b : A) :
  i <> j -> Pool.get (Pool.put p i b) j = Pool.get p j.
Proof.
  intros Hne. unfold Pool.put. destruct (Z.ltb_spec i 0); [done|].
  apply pool_get_insert_ne. lia.
Qed.

Lemma pool_get_free_eq {A : Type} (p : pool A) (i : Z) :
  Pool.get (Pool.free p i) i = None.
Proof.
  unfold Pool.free, Pool.get. destruct (Z.ltb_spec i 0); [done|].
  destruct (p !! Z.to_nat i) as [[st a]|] eqn:E.
  - rewrite list_lookup_insert_eq; [done|]. by eapply lookup_lt_Some.
  - by rewrite E.
Qed.

Lemma pool_get_free_ne {A : Type} (p : pool A) (i j : Z) :
  i <> j -> Pool.get (Pool.free p i) j = Pool.get p j.
Proof.
  intros Hne. unfold Pool.free. destruct (Z.ltb_spec i 0); [done|].
  destruct (p !! Z.to_nat i) as [[st a]|] eqn:E; [|done].
  destruct (Z.ltb_spec j 0).
  - unfold Pool.get. by destruct (Z.ltb_spec j 0); [|lia].
  - apply pool_get_insert_ne. lia.
Qed.

(** ** Reading and writing a block *)

Lemma block_store_spec (block buffer new : list byte) (offset n : Z) :
  0 <= n ->
  block_store block offset buffer n = Some new ->
  0 <= offset /\
  length new = length block /\
  forall i : nat,
    new !! i =
    if decide (offset <= Z.of_nat i < offset + n)
    then buffer !! Z.to_nat (Z.of_nat i - offset)
    else block !! i.
Proof.
  intros Hn H. unfold block_store in H.
  destruct (Z.leb_spec 0 offset) as [Hoff|]; [|done].
  destruct (Z.leb_spec (offset + n) (Z.of_nat (length block))); [|done].
  destruct (Z.leb_spec n (Z.of_nat (length buffer))); [|done].
  simpl in H. injection H as <-. split; [done|]. split.
  - rewrite !length_app, !length_take, length_drop. lia.
  - intros i. case_decide as Hi.
    + rewrite lookup_app_r by (rewrite length_take; lia).
      rewrite length_take, lookup_app_l by (rewrite length_take; lia).
      rewrite lookup_take_lt by lia. f_equal. lia.
    + destruct (decide (Z.of_nat i < offset)).
      * rewrite lookup_app_l by (rewrite length_take; lia).
        apply lookup_take_lt. lia.
      * rewrite lookup_app_r by (rewrite length_take; lia).
        rewrite lookup_app_r by (rewrite !length_take; lia).
        rewrite lookup_drop, !length_take. f_equal. lia.
Qed.

Lemma block_load_spec (block bytes : list byte) (offset n : Z) :
  0 <= n ->
  block_load block offset n = Some bytes ->
  Z.of_nat (length bytes) = n /\
  forall i : nat,
    Z.of_nat i < n -> bytes !! i = block !! (Z.to_nat offset + i)%nat.
Proof.
  intros Hn H. unfold block_load in H.
  destruct (Z.leb_spec 0 offset) as [Hoff|]; [|done].
  destruct (Z.leb_spec (offset + n) (Z.of_nat (length block))); [|done].
  injection H as <-. split.
  - rewrite length_take, length_drop. lia.
  - intros i Hi. rewrite lookup_take_lt by lia. apply lookup_drop.
Qed.

(** The count tfs_write settles on, when the sum does not wrap. *)
Lemma write_count (bs offset n : Z) :
  0 <= offset <= bs -> bs < 2 ^ 63 -> 0 <= n < 2 ^ 63 ->
  (if bs <? size_add n offset then size_sub bs offset else n)
  = Z.min n (bs - offset).
Proof.
  intros Hoff Hbs Hn. unfold size_add, size_sub, SIZE_MODULUS.
  rewrite (Z.mod_small (n + offset)) by lia.
  rewrite (Z.mod_small (bs - offset)) by lia.
  destruct (Z.ltb_spec bs (n + offset)); lia.
Qed.

Lemma to_ssize_t_small (a : Z) : a < 2 ^ 63 -> to_ssize_t a = a.
Proof. intros H. unfold to_ssize_t. destruct (Z.ltb_spec a (2 ^ 63)); lia. Qed.

(** ** Reading from the arena *)

Lemma arena_app (data data' : pool (list byte)) :
  arena (data ++ data') = arena data ++ arena data'.
Proof. unfold arena. by rewrite fmap_app, join_app. Qed.

Lemma arena_split (data : pool (list byte)) (k : nat)
    (st : allocation_state) (block : list byte) :
  data !! k = Some (st, block) ->
  arena data = arena (take k data) ++ block ++ arena (drop (S k) data).
Proof.
  intros Hk. rewrite <- (take_drop_middle data k (st, block) Hk) at 1.
  rewrite arena_app. f_equal.
Qed.

(** A read that stays inside the block reads the block. *)
Lemma arena_load_inside (data : pool (list byte)) (b offset n : Z)
    (block bytes : list byte) :
  Pool.get data b = Some block -> 0 <= n ->
  block_load block offset n = Some bytes ->
  arena_load data b offset n = Some bytes.
Proof.
  intros [Hb Hk]%pool_get_Some Hn Hload. unfold block_load in Hload.
  destruct (Z.leb_spec 0 offset) as [Ho|]; [|done].
  destruct (Z.leb_spec (offset + n) (Z.of_nat (length block))) as [Hin|];
    [|done].
  injection Hload as <-.
  unfold arena_load, block_address.
  assert (Hfrom : drop (length (arena (take (Z.to_nat b) data))
                        + Z.to_nat offset) (arena data)
                  = drop (Z.to_nat offset) block
                    ++ arena (drop (S (Z.to_nat b)) data)).
  { rewrite (arena_split data _ _ _ Hk) at 1.
    by rewrite drop_app_add, drop_app_le by lia. }
  rewrite Hfrom.
  destruct (Z.leb_spec 0 offset); [|lia].
  rewrite length_app, length_drop.
  destruct (Z.leb_spec n
              (Z.of_nat (length block - Z.to_nat offset
                         + length (arena (drop (S (Z.to_nat b)) data)))));
    [|lia].
  simpl. f_equal. apply take_app_le. rewrite length_drop. lia.
Qed.

Lemma arena_load_length (data : pool (list byte)) (b offset n : Z)
    (bytes : list byte) :
  0 <= n -> arena_load data b offset n = Some bytes ->
  0 <= offset /\ Z.of_nat (length bytes) = n.
Proof.
  intros Hn H. unfold arena_load in H.
  destruct (Z.leb_spec 0 offset); [|done].
  match type of H with
  | (if _ && (n <=? Z.of_nat (length ?l)) then _ else _) = _ =>
      destruct (Z.leb_spec n (Z.of_nat (length l))); [|done]
  end.
  injection H as <-. rewrite length_take. lia.
Qed.

(** ** Allocating a data block *)

Lemma data_block_alloc_None (s : FsState) :
  Pool.find_free (fs_data s) = None -> data_block_alloc s = (-1, s).
Proof. intros H. unfold data_block_alloc. by rewrite H. Qed.

Lemma data_block_alloc_Some (s : FsState) (n : nat) :
  Pool.find_free (fs_data s) = Some n ->
  exists bytes,
    fs_data s !! n = Some (FREE, bytes) /\
    data_block_alloc s
    = (Z.of_nat n, with_fs_data s (<[n := (TAKEN, bytes)]> (fs_data s))).
Proof.
  intros H. destruct (find_free_Some _ _ H) as [bytes Hb].
  exists bytes. split; [done|]. unfold data_block_alloc. by rewrite H, Hb.
Qed.

(** ** The directory store *)

Lemma list_find_insert_neither {A : Type} (P : A -> Prop)
    `{!forall x, Decision (P x)} (l : list A) (k : nat) (x y : A) :
  l !! k = Some x -> ~ P x -> ~ P y ->
  list_find P (<[k := y]> l) = list_find P l.
Proof.
  revert k. induction l as [|z l IH]; intros k Hk Hx Hy; [done|].
  destruct k as [|k]; simpl in *.
  - injection Hk as ->. rewrite !decide_False by done. done.
  - case_decide; [done|]. by rewrite (IH k).
Qed.

Lemma list_find_insert_first {A : Type} (P : A -> Prop)
    `{!forall x, Decision (P x)} (l : list A) (k : nat) (y : A) :
  (k < length l)%nat -> list_find P l = None -> P y ->
  list_find P (<[k := y]> l) = Some (k, y).
Proof.
  intros Hk Hnone Hy. apply list_find_Some. split; [|split].
  - by apply list_lookup_insert_eq.
  - done.
  - intros j z Hj Hlt. rewrite list_lookup_insert_ne in Hj by lia.
    rewrite list_find_None, Forall_forall in Hnone.
    apply Hnone. by eapply list_elem_of_lookup_2.
Qed.

Lemma valid_pathname_sub (name : string) :
  valid_pathname name = true -> skip_first name <> EmptyString.
Proof.
  unfold valid_pathname. by destruct name as [|c [|c' rest]].
Qed.

Lemma valid_pathname_slash (sub : string) :
  sub <> EmptyString -> valid_pathname (String "/" sub) = true.
Proof. destruct sub; [done|]. reflexivity. Qed.

Lemma add_dir_entry_cases (M : nat) (s s' : FsState) (d inum r : Z)
    (name : string) :
  add_dir_entry M s d name inum = (r, s') ->
  (r = -1 /\ s' = s) \/
  (r = 0 /\ is_directory s d = true /\
   (String.length name <= M)%nat /\
   list_find (entry_named name) (root_dir s) = None /\
   exists (k : nat) (e : dir_entry_t),
     list_find (entry_named EmptyString) (root_dir s) = Some (k, e) /\
     s' = with_root_dir s
            (<[k := mk_dir_entry name inum]> (root_dir s))).
Proof.
  unfold add_dir_entry. intros H.
  destruct (is_directory s d); simpl in H; [|left; by simplify_eq].
  destruct (Nat.ltb_spec M (String.length name));
    [left; by simplify_eq|].
  destruct (list_find (entry_named name) (root_dir s)) as [[j e]|] eqn:Hdup;
    [left; by simplify_eq|].
  destruct (list_find (entry_named EmptyString) (root_dir s))
    as [[k e]|] eqn:Hfree;
    [|left; by simplify_eq].
  right. simplify_eq. repeat split; eauto.
Qed.

Lemma add_dir_entry_inode_table (M : nat) (s s' : FsState) (d inum r : Z)
    (name : string) :
  add_dir_entry M s d name inum = (r, s') ->
  inode_table s' = inode_table s /\ fs_data s' = fs_data s /\
  open_file_table s' = open_file_table s /\ fs_params s' = fs_params s.
Proof.
  intros [[_ ->]|(_ & _ & _ & _ & k & e & _ & ->)]%add_dir_entry_cases;
    done.
Qed.

(** The name just added resolves to the inumber it was added with. *)
Lemma find_in_dir_added (M : nat) (s s' : FsState) (d inum : Z)
    (name : string) :
  add_dir_entry M s d name inum = (0, s') ->
  find_in_dir s' d name = inum.
Proof.
  intros [[? _]|(_ & Hd & _ & Hnone & k & e & Hfree & ->)]%add_dir_entry_cases;
    [done|].
  unfold find_in_dir. change (is_directory _ d) with (is_directory s d).
  rewrite Hd. simpl.
  apply list_find_Some in Hfree as (Hk & _ & _).
  rewrite (list_find_insert_first (entry_named name) _ k
             (mk_dir_entry name inum)); [done| |done|done].
  by eapply lookup_lt_Some.
Qed.

(** Every other name resolves as before. *)
Lemma find_in_dir_add_other (M : nat) (s s' : FsState) (d inum r : Z)
    (name other : string) :
  add_dir_entry M s d name inum = (r, s') ->
  other <> name -> other <> EmptyString ->
  find_in_dir s' d other = find_in_dir s d other.
Proof.
  intros [[_ ->]|(_ & Hd & _ & Hnone & k & e & Hfree & ->)]%add_dir_entry_cases
    Hne Hne'; [done|].
  unfold find_in_dir. change (is_directory _ d) with (is_directory s d).
  simpl. apply list_find_Some in Hfree as (Hk & He & _).
  rewrite (list_find_insert_neither (entry_named other) _ k e); try done.
  - unfold entry_named in *. congruence.
  - unfold entry_named. simpl. congruence.
Qed.

Lemma clear_dir_entry_cases (s s' : FsState) (d r : Z) (name : string) :
  clear_dir_entry s d name = (r, s') ->
  (r = -1 /\ s' = s /\
   (is_directory s d = false \/
    list_find (entry_named name) (root_dir s) = None)) \/
  (r = 0 /\ is_directory s d = true /\
   exists (k : nat) (e : dir_entry_t),
     list_find (entry_named name) (root_dir s) = Some (k, e) /\
     s' = with_root_dir s (<[k := free_dir_entry]> (root_dir s))).
Proof.
  unfold clear_dir_entry. intros H.
  destruct (is_directory s d); simpl in H; [|left; simplify_eq; auto].
  destruct (list_find (entry_named name) (root_dir s)) as [[k e]|] eqn:Hf;
    [|left; simplify_eq; auto].
  right. simplify_eq. eauto 6.
Qed.

Lemma find_in_dir_clear_other (s s' : FsState) (d r : Z)
    (name other : string) :
  clear_dir_entry s d name = (r, s') ->
  other <> name -> other <> EmptyString ->
  find_in_dir s' d other = find_in_dir s d other.
Proof.
  intros [(_ & -> & _)|(_ & Hd & k & e & Hf & ->)]%clear_dir_entry_cases
    Hne Hne'; [done|].
  unfold find_in_dir. change (is_directory _ d) with (is_directory s d).
  simpl. apply list_find_Some in Hf as (Hk & He & _).
  rewrite (list_find_insert_neither (entry_named other) _ k e); try done.
  - unfold entry_named in *. congruence.
  - unfold entry_named. simpl. congruence.
Qed.

(** ** Writing an inode leaves the directory readable *)

Lemma inode_get_put_eq (s : FsState) (i : Z) (ino ino' : inode_t) :
  inode_get s i = Some ino -> inode_get (inode_put s i ino') i = Some ino'.
Proof. apply pool_get_put_eq. Qed.

Lemma inode_get_put_ne (s : FsState) (i j : Z) (ino' : inode_t) :
  i <> j -> inode_get (inode_put s i ino') j = inode_get s j.
Proof. apply pool_get_put_ne. Qed.

Lemma is_directory_put (s : FsState) (i d : Z) (ino ino' : inode_t) :
  inode_get s i = Some ino ->
  i_node_type ino' = i_node_type ino ->
  is_directory (inode_put s i ino') d = is_directory s d.
Proof.
  intros Hi Hty. unfold is_directory. destruct (decide (i = d)) as [->|Hne].
  - by rewrite (inode_get_put_eq _ _ _ _ Hi), Hi, Hty.
  - by rewrite inode_get_put_ne.
Qed.

Lemma find_in_dir_put (s : FsState) (i d : Z) (ino ino' : inode_t)
    (name : string) :
  inode_get s i = Some ino ->
  i_node_type ino' = i_node_type ino ->
  find_in_dir (inode_put s i ino') d name = find_in_dir s d name.
Proof.
  intros Hi Hty. unfold find_in_dir.
  by rewrite (is_directory_put _ _ _ _ _ Hi Hty).
Qed.

Lemma add_dir_entry_inode_get (M : nat) (s s' : FsState) (d inum r j : Z)
    (name : string) :
  add_dir_entry M s d name inum = (r, s') ->
  inode_get s' j = inode_get s j.
Proof.
  intros (Ht & _)%add_dir_entry_inode_table. unfold inode_get. by rewrite Ht.
Qed.

Lemma add_dir_entry_result (M : nat) (s : FsState) (d inum : Z)
    (name : string) :
  fst (add_dir_entry M s d name inum) = -1 \/
  fst (add_dir_entry M s d name inum) = 0.
Proof.
  destruct (add_dir_entry M s d name inum) as [r s'] eqn:E.
  apply add_dir_entry_cases in E as [[-> _]|[-> _]]; auto.
Qed.

(** ** tfs_link *)

(** C8: for valid paths whose target resolves in the root directory,
    tfs_link returns -1 and changes nothing (so no link count) when the
    target is a symbolic link or the directory entry cannot be added;
    otherwise it returns 0, [link_name] resolves to the target's inumber
    and the target's link count has grown by exactly one. *)
Theorem C8_tfs_link (M : nat) (s : FsState) (target link_name : string)
    (inum : Z) :
  valid_pathname target = true ->
  valid_pathname link_name = true ->
  is_Some (inode_get s ROOT_DIR_INUM) ->
  tfs_lookup s target ROOT_DIR_INUM = inum ->
  inum <> -1 ->
  exists (v : Z) (s' : FsState),
    tfs_link M target link_name s = Done v s' /\
    (forall itarget : inode_t,
       inode_get s inum = Some itarget ->
       i_node_type itarget = T_SYM_LINK -> v = -1) /\
    (fst (add_dir_entry M s ROOT_DIR_INUM (skip_first link_name) inum) = -1 ->
     v = -1) /\
    (v = -1 -> s' = s) /\
    (forall itarget : inode_t,
       inode_get s inum = Some itarget ->
       i_node_type itarget <> T_SYM_LINK ->
       fst (add_dir_entry M s ROOT_DIR_INUM (skip_first link_name) inum) = 0 ->
       v = 0 /\
       tfs_lookup s' link_name ROOT_DIR_INUM = inum /\
       inode_get s' inum
       = Some (set_i_links itarget (i_links itarget + 1)) /\
       (forall j : Z, j <> inum -> inode_get s' j = inode_get s j)).
Proof.
  intros Hvt Hvl [root Hroot] Hlook Hne.
  unfold tfs_link. rewrite Hvt, Hvl, Hroot, Hlook. simpl.
  destruct (Z.eqb_spec inum (-1)); [done|].
  destruct (inode_get s inum) as [itarget|] eqn:Hit.
  2:{ exists (-1), s. split; [done|]. split; [done|]. repeat split; done. }
  destruct (add_dir_entry M s ROOT_DIR_INUM (skip_first link_name) inum)
    as [r s1] eqn:Hadd.
  destruct (is_sym_link itarget) eqn:Hsym.
  { exists (-1), s. split; [done|]. split; [done|]. split; [done|].
    split; [done|]. intros it [= <-] Hns _. exfalso. apply Hns.
    unfold is_sym_link in Hsym. by destruct (i_node_type itarget). }
  assert (Hnot : i_node_type itarget <> T_SYM_LINK).
  { unfold is_sym_link in Hsym. by destruct (i_node_type itarget). }
  destruct (add_dir_entry_cases _ _ _ _ _ _ _ Hadd)
    as [[-> ->]|(-> & Hd & Hrest)]; simpl.
  { exists (-1), s. split; [done|]. split; [done|]. split; [done|].
    split; [done|]. by intros it _ _ [=]. }
  eexists 0, _. split; [reflexivity|].
  split; [by intros it [= <-] Hs|].
  split; [by intros [=]|]. split; [by intros [=]|].
  intros it [= <-] _ _.
  assert (Hit1 : inode_get s1 inum = Some itarget)
    by (by rewrite (add_dir_entry_inode_get _ _ _ _ _ _ _ _ Hadd)).
  split; [done|]. split; [|split].
  - unfold tfs_lookup. rewrite Hvl. simpl.
    rewrite (find_in_dir_put _ _ _ _ _ _ Hit1) by done.
    by eapply find_in_dir_added.
  - by eapply inode_get_put_eq.
  - intros j Hj. rewrite inode_get_put_ne by done.
    by eapply add_dir_entry_inode_get.
Qed.

(** ** Creating and deleting inodes *)

Lemma find_free_get_None {A : Type} (p : pool A) (n : nat) :
  Pool.find_free p = Some n -> Pool.get p (Z.of_nat n) = None.
Proof.
  intros [a Ha]%find_free_Some. unfold Pool.get.
  destruct (Z.ltb_spec (Z.of_nat n) 0); [done|]. by rewrite Nat2Z.id, Ha.
Qed.

Lemma find_free_lt {A : Type} (p : pool A) (n : nat) :
  Pool.find_free p = Some n -> (n < length p)%nat.
Proof. intros [a Ha]%find_free_Some. by eapply lookup_lt_Some. Qed.

Lemma inode_create_full (s : FsState) (ty : inode_type) :
  Pool.find_free (inode_table s) = None -> inode_create s ty = (-1, s).
Proof. intros H. unfold inode_create. by rewrite H. Qed.

Lemma inode_create_plain (s : FsState) (ty : inode_type) (n : nat) :
  ty <> T_DIRECTORY ->
  Pool.find_free (inode_table s) = Some n ->
  inode_create s ty
  = (Z.of_nat n,
     with_inode_table s
       (<[n := (TAKEN, mk_inode ty 0 (-1) 1 EmptyString)]> (inode_table s))).
Proof. intros Hty H. unfold inode_create. rewrite H. by destruct ty. Qed.

(** A fresh slot is never the one of an inode that exists. *)
Lemma fresh_ne (s : FsState) (n : nat) (i : Z) :
  Pool.find_free (inode_table s) = Some n ->
  is_Some (inode_get s i) -> i <> Z.of_nat n.
Proof.
  intros Hn [ino Hi] ->. unfold inode_get in Hi.
  by rewrite (find_free_get_None _ _ Hn) in Hi.
Qed.

Lemma is_directory_agree (s s' : FsState) (d : Z) :
  inode_get s' d = inode_get s d -> is_directory s' d = is_directory s d.
Proof. intros H. unfold is_directory. by rewrite H. Qed.

(** add_dir_entry reads the directory inode and the entry array only. *)
Lemma add_dir_entry_agree (M : nat) (s s' : FsState) (d inum : Z)
    (name : string) :
  inode_get s' d = inode_get s d -> root_dir s' = root_dir s ->
  fst (add_dir_entry M s' d name inum) = fst (add_dir_entry M s d name inum).
Proof.
  intros Hd Hr. unfold add_dir_entry.
  rewrite (is_directory_agree _ _ _ Hd), Hr.
  destruct (is_directory s d); [|done]. simpl.
  destruct (M <? String.length name)%nat; [done|].
  destruct (list_find (entry_named name) (root_dir s)); [done|].
  by destruct (list_find (entry_named EmptyString) (root_dir s)) as [[??]|].
Qed.

(** ** tfs_sym_link *)

(** The state in which tfs_sym_link adds the directory entry: the inode
    at the fresh slot [n] is a symbolic link to [target]. *)
Lemma tfs_sym_link_run (M : nat) (s : FsState) (target link_name : string)
    (n : nat) :
  valid_pathname target = true ->
  valid_pathname link_name = true ->
  is_Some (inode_get s ROOT_DIR_INUM) ->
  tfs_lookup s target ROOT_DIR_INUM <> -1 ->
  Pool.find_free (inode_table s) = Some n ->
  exists s2 : FsState,
    inode_get s2 (Z.of_nat n) = Some (mk_inode T_SYM_LINK 0 (-1) 1 target) /\
    (forall j : Z, j <> Z.of_nat n -> inode_get s2 j = inode_get s j) /\
    root_dir s2 = root_dir s /\
    tfs_sym_link M target link_name s
    = (let (r, s3) :=
         add_dir_entry M s2 ROOT_DIR_INUM (skip_first link_name)
                       (Z.of_nat n) in
       if r =? -1 then Done (-1) s3 else Done 0 s3).
Proof.
  intros Hvt Hvl Hroot Hlook Hn.
  pose proof (fresh_ne _ _ _ Hn Hroot) as Hrn.
  destruct Hroot as [root Hroot].
  pose proof (find_free_lt _ _ Hn) as Hlt.
  set (s1 := with_inode_table s
       (<[n := (TAKEN, mk_inode T_SYM_LINK 0 (-1) 1 EmptyString)]>
          (inode_table s))).
  assert (H1 : inode_get s1 (Z.of_nat n)
               = Some (mk_inode T_SYM_LINK 0 (-1) 1 EmptyString))
    by (by apply pool_get_insert_eq).
  exists (inode_put s1 (Z.of_nat n) (mk_inode T_SYM_LINK 0 (-1) 1 target)).
  split; [by eapply inode_get_put_eq|].
  assert (Hother : forall j : Z, j <> Z.of_nat n ->
            inode_get (inode_put s1 (Z.of_nat n)
                         (mk_inode T_SYM_LINK 0 (-1) 1 target)) j
            = inode_get s j).
  { intros j Hj. rewrite inode_get_put_ne by done.
    by apply pool_get_insert_ne. }
  split; [done|]. split; [done|].
  unfold tfs_sym_link. rewrite Hvt, Hvl, Hroot. simpl.
  destruct (Z.eqb_spec (tfs_lookup s target ROOT_DIR_INUM) (-1)); [done|].
  rewrite (inode_create_plain s T_SYM_LINK n) by done. fold s1.
  destruct (Z.eqb_spec (Z.of_nat n) (-1)); [lia|].
  rewrite H1. unfold set_i_target_d_name. simpl.
  by rewrite (Hother ROOT_DIR_INUM Hrn), Hroot.
Qed.

(** C9: for valid paths, tfs_sym_link returns -1 whenever the target does
    not resolve in the root directory, leaving the state as it was; when
    it returns 0 the target did resolve, a new SYMLINK inode holds the
    target path, and [link_name] resolves to that inode. *)
Theorem C9_tfs_sym_link (M : nat) (s : FsState)
    (target link_name : string) :
  valid_pathname target = true ->
  valid_pathname link_name = true ->
  is_Some (inode_get s ROOT_DIR_INUM) ->
  (tfs_lookup s target ROOT_DIR_INUM = -1 ->
   tfs_sym_link M target link_name s = Done (-1) s) /\
  (forall s' : FsState,
     tfs_sym_link M target link_name s = Done 0 s' ->
     tfs_lookup s target ROOT_DIR_INUM <> -1 /\
     exists (inum : Z) (ino : inode_t),
       inode_get s inum = None /\
       inode_get s' inum = Some ino /\
       i_node_type ino = T_SYM_LINK /\
       i_target_d_name ino = target /\
       tfs_lookup s' link_name ROOT_DIR_INUM = inum) /\
  (forall n : nat,
     tfs_lookup s target ROOT_DIR_INUM <> -1 ->
     Pool.find_free (inode_table s) = Some n ->
     fst (add_dir_entry M s ROOT_DIR_INUM (skip_first link_name)
                        (Z.of_nat n)) = 0 ->
     exists s' : FsState, tfs_sym_link M target link_name s = Done 0 s').
Proof.
  intros Hvt Hvl Hroot. split; [|split].
  - intros Hlook. destruct Hroot as [root Hroot].
    unfold tfs_sym_link. by rewrite Hvt, Hvl, Hroot, Hlook.
  - intros s' Hrun.
    destruct (decide (tfs_lookup s target ROOT_DIR_INUM = -1)) as [Hl|Hl].
    { destruct Hroot as [root Hroot]. unfold tfs_sym_link in Hrun.
      by rewrite Hvt, Hvl, Hroot, Hl in Hrun. }
    split; [done|].
    destruct (Pool.find_free (inode_table s)) as [n|] eqn:Hn.
    2:{ destruct Hroot as [root Hroot]. unfold tfs_sym_link in Hrun.
        rewrite Hvt, Hvl, Hroot in Hrun. simpl in Hrun.
        destruct (Z.eqb_spec (tfs_lookup s target ROOT_DIR_INUM) (-1));
          [done|].
        by rewrite (inode_create_full _ _ Hn) in Hrun. }
    destruct (tfs_sym_link_run M s target link_name n Hvt Hvl Hroot Hl Hn)
      as (s2 & Hnew & Hother & Hdir & Heq).
    rewrite Heq in Hrun.
    destruct (add_dir_entry M s2 ROOT_DIR_INUM (skip_first link_name)
                (Z.of_nat n)) as [r s3] eqn:Hadd.
    destruct (add_dir_entry_cases _ _ _ _ _ _ _ Hadd)
      as [[-> ->]|(-> & _)]; [done|].
    simpl in Hrun. injection Hrun as <-.
    exists (Z.of_nat n), (mk_inode T_SYM_LINK 0 (-1) 1 target).
    split; [apply (find_free_get_None _ _ Hn)|].
    split; [by rewrite (add_dir_entry_inode_get _ _ _ _ _ _ _ _ Hadd)|].
    split; [done|]. split; [done|].
    unfold tfs_lookup. rewrite Hvl. simpl. by eapply find_in_dir_added.
  - intros n Hl Hn Hadd.
    destruct (tfs_sym_link_run M s target link_name n Hvt Hvl Hroot Hl Hn)
      as (s2 & Hnew & Hother & Hdir & ->).
    pose proof (fresh_ne _ _ _ Hn Hroot) as Hrn.
    rewrite <- (add_dir_entry_agree M s s2) in Hadd
      by (try apply Hother; done).
    destruct (add_dir_entry M s2 ROOT_DIR_INUM (skip_first link_name)
                (Z.of_nat n)) as [r s3].
    simpl in Hadd. subst r. simpl. eauto.
Qed.

(** ** tfs_open *)

Lemma pool_free_insert {A : Type} (p : pool A) (n : nat) (a : A) :
  (n < length p)%nat ->
  Pool.free (<[n := (TAKEN, a)]> p) (Z.of_nat n) = <[n := (FREE, a)]> p.
Proof.
  intros Hn. unfold Pool.free.
  destruct (Z.ltb_spec (Z.of_nat n) 0); [lia|].
  rewrite Nat2Z.id, list_lookup_insert_eq by done.
  by rewrite list_insert_insert_eq.
Qed.

Lemma add_to_open_file_table_full (s : FsState) (inum offset : Z) :
  Pool.find_free (open_file_table s) = None ->
  add_to_open_file_table s inum offset = (-1, s).
Proof. intros H. unfold add_to_open_file_table. by rewrite H. Qed.

(** C6: opening with CREAT a valid path that the root directory does not
    hold.  If the FILE inode is created but its directory entry cannot be
    added, tfs_open deletes the inode again (the inode pool, and the rest
    of the state, is as before) and returns -1; if the entry is added but
    no open-file entry is free, tfs_open returns -1 and the new file stays
    in the directory. *)
Theorem C6_tfs_open_create_failures (M fuel : nat) (s : FsState)
    (name : string) (mode : Z) (n : nat) :
  valid_pathname name = true ->
  is_Some (inode_get s ROOT_DIR_INUM) ->
  tfs_lookup s name ROOT_DIR_INUM = -1 ->
  mode_has mode TFS_O_CREAT = true ->
  Pool.find_free (inode_table s) = Some n ->
  (fst (add_dir_entry M s ROOT_DIR_INUM (skip_first name) (Z.of_nat n)) = -1 ->
   exists s' : FsState,
     tfs_open M (S fuel) name mode s = Done (-1) s' /\
     (forall i : Z, inode_get s' i = inode_get s i) /\
     (inode_table s').*1 = (inode_table s).*1 /\
     root_dir s' = root_dir s /\
     fs_data s' = fs_data s /\
     open_file_table s' = open_file_table s) /\
  (fst (add_dir_entry M s ROOT_DIR_INUM (skip_first name) (Z.of_nat n)) = 0 ->
   Pool.find_free (open_file_table s) = None ->
   exists s' : FsState,
     tfs_open M (S fuel) name mode s = Done (-1) s' /\
     tfs_lookup s' name ROOT_DIR_INUM = Z.of_nat n /\
     inode_get s' (Z.of_nat n) = Some (mk_inode T_FILE 0 (-1) 1 EmptyString)).
Proof.
  intros Hv Hroot Hlook Hcreat Hn.
  pose proof (fresh_ne _ _ _ Hn Hroot) as Hrn.
  pose proof (find_free_lt _ _ Hn) as Hlt.
  destruct (find_free_Some _ _ Hn) as [stale Hstale].
  destruct Hroot as [root Hroot].
  set (s1 := with_inode_table s
       (<[n := (TAKEN, mk_inode T_FILE 0 (-1) 1 EmptyString)]>
          (inode_table s))).
  assert (H1 : inode_get s1 (Z.of_nat n)
               = Some (mk_inode T_FILE 0 (-1) 1 EmptyString))
    by (by apply pool_get_insert_eq).
  assert (Hother : forall j : Z, j <> Z.of_nat n ->
            inode_get s1 j = inode_get s j)
    by (intros j Hj; by apply pool_get_insert_ne).
  assert (Hagree :
    fst (add_dir_entry M s1 ROOT_DIR_INUM (skip_first name) (Z.of_nat n))
    = fst (add_dir_entry M s ROOT_DIR_INUM (skip_first name) (Z.of_nat n)))
    by (apply add_dir_entry_agree; [by apply Hother|done]).
  assert (Hrun :
    tfs_open M (S fuel) name mode s
    = (let (r, s2) :=
         add_dir_entry M s1 ROOT_DIR_INUM (skip_first name) (Z.of_nat n) in
       if r =? -1 then Done (-1) (inode_delete s2 (Z.of_nat n))
       else let (h, s3) := add_to_open_file_table s2 (Z.of_nat n) 0 in
            Done h s3)).
  { simpl. rewrite Hv, Hroot, Hlook, Hcreat. simpl.
    rewrite (inode_create_plain s T_FILE n) by done. fold s1.
    by destruct (Z.eqb_spec (Z.of_nat n) (-1)); [lia|]. }
  rewrite Hrun. clear Hrun. rewrite <- Hagree.
  destruct (add_dir_entry M s1 ROOT_DIR_INUM (skip_first name) (Z.of_nat n))
    as [r s2] eqn:Hadd.
  simpl. split.
  - intros ->.
    destruct (add_dir_entry_cases _ _ _ _ _ _ _ Hadd)
      as [[_ ->]|[? _]]; [|done].
    simpl. eexists. split; [reflexivity|].
    unfold inode_delete. rewrite H1. simpl.
    rewrite pool_free_insert by done.
    split; [|split; [|done]].
    + intros i. destruct (decide (i = Z.of_nat n)) as [->|Hi].
      * unfold inode_get at 2. rewrite (find_free_get_None _ _ Hn).
        unfold inode_get, Pool.get. simpl.
        destruct (Z.ltb_spec (Z.of_nat n) 0); [done|].
        by rewrite Nat2Z.id, list_lookup_insert_eq.
      * unfold inode_get. simpl. by apply pool_get_insert_ne.
    + simpl. rewrite list_fmap_insert. simpl.
      apply list_insert_id. by rewrite list_lookup_fmap, Hstale.
  - intros -> Hfull.
    destruct (add_dir_entry_inode_table _ _ _ _ _ _ _ Hadd)
      as (Ht & _ & Hof & _).
    rewrite add_to_open_file_table_full by (by rewrite Hof).
    eexists. split; [reflexivity|]. split.
    + unfold tfs_lookup. rewrite Hv. simpl. by eapply find_in_dir_added.
    + by rewrite (add_dir_entry_inode_get _ _ _ _ _ _ _ _ Hadd).
Qed.

(** What tfs_open does on a path that resolves to a symbolic link: -1 on
    a link to itself, otherwise the same call on the link's target. *)
Lemma tfs_open_sym_link (M fuel : nat) (s : FsState) (name : string)
    (mode inum : Z) (inode : inode_t) :
  valid_pathname name = true ->
  is_Some (inode_get s ROOT_DIR_INUM) ->
  tfs_lookup s name ROOT_DIR_INUM = inum ->
  0 <= inum ->
  inode_get s inum = Some inode ->
  i_node_type inode = T_SYM_LINK ->
  (i_target_d_name inode = name ->
   tfs_open M (S fuel) name mode s = Done (-1) s) /\
  (i_target_d_name inode <> name ->
   tfs_open M (S fuel) name mode s
   = tfs_open M fuel (i_target_d_name inode) mode s).
Proof.
  intros Hv [root Hroot] Hlook Hpos Hino Hty.
  simpl. rewrite Hv, Hroot, Hlook. simpl.
  destruct (Z.leb_spec 0 inum); [|lia].
  rewrite Hino. unfold is_sym_link. rewrite Hty.
  destruct (String.eqb_spec (i_target_d_name inode) name); split; done.
Qed.

(** tfs_sym_link of a path to itself never succeeds: the path must be in
    the directory to be a target, and then its entry cannot be added. *)
Lemma tfs_sym_link_self (M : nat) (s s' : FsState) (name : string) (v : Z) :
  tfs_sym_link M name name s = Done v s' -> v = -1.
Proof.
  unfold tfs_sym_link. intros H.
  destruct (valid_pathname name) eqn:Hv; simpl in H; [|by simplify_eq].
  destruct (inode_get s ROOT_DIR_INUM) as [root|] eqn:Hroot; [|done].
  destruct (Z.eqb_spec (tfs_lookup s name ROOT_DIR_INUM) (-1)) as [|Hl];
    [by simplify_eq|].
  destruct (Pool.find_free (inode_table s)) as [n|] eqn:Hn.
  2:{ rewrite (inode_create_full _ _ Hn) in H. simpl in H. by simplify_eq. }
  rewrite (inode_create_plain s T_SYM_LINK n) in H by done.
  destruct (Z.eqb_spec (Z.of_nat n) (-1)); [lia|].
  match type of H with
  | match inode_get ?s1 _ with _ => _ end = _ =>
      destruct (inode_get s1 (Z.of_nat n)) as [i_link|]; [|by simplify_eq]
  end.
  match type of H with
  | match inode_get ?s2 _ with _ => _ end = _ =>
      destruct (inode_get s2 ROOT_DIR_INUM); [|done]
  end.
  match type of H with
  | (let (_, _) := add_dir_entry _ ?s2 _ _ _ in _) = _ =>
      destruct (add_dir_entry M s2 ROOT_DIR_INUM (skip_first name)
                  (Z.of_nat n)) as [r s3] eqn:Hadd
  end.
  destruct (add_dir_entry_cases _ _ _ _ _ _ _ Hadd)
    as [[-> ->]|(-> & _ & _ & Hnone & _)]; [simpl in H; by simplify_eq|].
  exfalso. apply Hl. unfold tfs_lookup, find_in_dir. rewrite Hv. simpl.
  simpl in Hnone. rewrite Hnone. by destruct (is_directory s ROOT_DIR_INUM).
Qed.

(** ** The invariant, on the abstract view *)

Lemma refs_insert_le (i : Z) (d : list dir_entry_t) (k : nat)
    (new : dir_entry_t) :
  (refs i (<[k := new]> d)
   <= refs i d + (if (d_inumber new =? i)%Z then 1 else 0))%nat.
Proof.
  revert k. induction d as [|e d IH]; intros k; simpl; [lia|].
  destruct k as [|k]; simpl.
  - destruct (d_inumber e =? i), (d_inumber new =? i); lia.
  - specialize (IH k). lia.
Qed.

Lemma refs_insert_drop (i : Z) (d : list dir_entry_t) (k : nat)
    (e new : dir_entry_t) :
  d !! k = Some e -> d_inumber e = i -> d_inumber new <> i ->
  S (refs i (<[k := new]> d)) = refs i d.
Proof.
  revert k. induction d as [|e' d IH]; intros k Hk He Hnew; [done|].
  destruct k as [|k]; simpl in *.
  - injection Hk as ->. destruct (Z.eqb_spec (d_inumber e) i); [|done].
    destruct (Z.eqb_spec (d_inumber new) i); [done|]. lia.
  - rewrite <- (IH k Hk He Hnew). lia.
Qed.

Lemma refs_pos (i : Z) (d : list dir_entry_t) (k : nat) (e : dir_entry_t) :
  d !! k = Some e -> d_inumber e = i -> (0 < refs i d)%nat.
Proof.
  revert k. induction d as [|e' d IH]; intros k Hk He; [done|].
  destruct k as [|k]; simpl in *.
  - injection Hk as ->. destruct (Z.eqb_spec (d_inumber e) i); [lia|done].
  - specialize (IH k Hk He). lia.
Qed.

Lemma refs_zero (i : Z) (d : list dir_entry_t) (e : dir_entry_t) :
  refs i d = 0%nat -> e ∈ d -> d_inumber e <> i.
Proof.
  intros Hz [k Hk]%list_elem_of_lookup Hi.
  pose proof (refs_pos i d k e Hk Hi). lia.
Qed.

Lemma Inv_ext (m m' : Z -> option (inode_type * Z)) (d : list dir_entry_t) :
  (forall i : Z, m' i = m i) -> Inv m d -> Inv m' d.
Proof.
  intros Hext [Hroot Hrefs Hnr Hsym Huniq]. split; try done.
  - destruct Hroot as [l Hl]. exists l. by rewrite Hext.
  - intros i Hi. unfold link_bound. rewrite Hext. by apply Hrefs.
  - intros i l. rewrite Hext. apply Hsym.
Qed.

(** A free slot becomes an inode with one link. *)
Lemma Inv_create (m : Z -> option (inode_type * Z)) (d : list dir_entry_t)
    (n : Z) (ty : inode_type) :
  0 <= n -> m n = None -> Inv m d ->
  Inv (meta_set m n (Some (ty, 1))) d.
Proof.
  intros Hn Hfree [Hroot Hrefs Hnr Hsym Huniq]. split; try done.
  - destruct Hroot as [l Hl]. exists l. unfold meta_set.
    destruct (Z.eqb_spec ROOT_DIR_INUM n) as [E|]; [|done]. congruence.
  - intros i Hi. specialize (Hrefs i Hi). unfold link_bound, meta_set in *.
    destruct (Z.eqb_spec i n) as [->|]; [|done]. rewrite Hfree in Hrefs. lia.
  - intros i l. unfold meta_set. destruct (Z.eqb_spec i n); [|apply Hsym].
    congruence.
Qed.

(** An inode that is no symbolic link gains a link. *)
Lemma Inv_bump (m : Z -> option (inode_type * Z)) (d : list dir_entry_t)
    (i : Z) (ty : inode_type) (l : Z) :
  m i = Some (ty, l) -> ty <> T_SYM_LINK -> Inv m d ->
  Inv (meta_set m i (Some (ty, l + 1))) d.
Proof.
  intros Hi Hty [Hroot Hrefs Hnr Hsym Huniq]. split; try done.
  - destruct Hroot as [l' Hl']. unfold meta_set.
    destruct (Z.eqb_spec ROOT_DIR_INUM i) as [<-|]; [|eauto].
    rewrite Hl' in Hi. injection Hi as <- <-. eauto.
  - intros j Hj. specialize (Hrefs j Hj). unfold link_bound, meta_set in *.
    destruct (Z.eqb_spec j i) as [->|]; [|done]. rewrite Hi in Hrefs. lia.
  - intros j l'. unfold meta_set. destruct (Z.eqb_spec j i); [|apply Hsym].
    congruence.
Qed.

(** An entry for an inode that has a link to spare. *)
Lemma Inv_add_entry (m : Z -> option (inode_type * Z))
    (d : list dir_entry_t) (k : nat) (name : string) (i : Z) :
  0 <= i -> i <> ROOT_DIR_INUM ->
  Z.of_nat (refs i d) + 1 <= link_bound m i ->
  list_find (entry_named name) d = None ->
  Inv m d ->
  Inv m (<[k := mk_dir_entry name i]> d).
Proof.
  intros Hi Hroot' Hspare Hnone [Hroot Hrefs Hnr Hsym Huniq].
  rewrite list_find_None, Forall_forall in Hnone.
  split; try done.
  - intros j Hj. specialize (Hrefs j Hj).
    pose proof (refs_insert_le j d k (mk_dir_entry name i)) as Hle.
    simpl in Hle. destruct (Z.eqb_spec i j) as [->|]; lia.
  - pose proof (refs_insert_le ROOT_DIR_INUM d k (mk_dir_entry name i))
      as Hle.
    simpl in Hle. destruct (Z.eqb_spec i ROOT_DIR_INUM); [done|]. lia.
  - intros j1 j2 e1 e2 H1 H2 Hname Hne.
    destruct (decide (j1 = k)) as [->|Hk1], (decide (j2 = k)) as [->|Hk2];
      [done| | |].
    + apply list_lookup_insert_Some in H1 as [(_ & <- & _)|[? _]]; [|done].
      rewrite list_lookup_insert_ne in H2 by done.
      apply list_elem_of_lookup_2, Hnone in H2. by destruct H2.
    + apply list_lookup_insert_Some in H2 as [(_ & <- & _)|[? _]]; [|done].
      rewrite list_lookup_insert_ne in H1 by done.
      apply list_elem_of_lookup_2, Hnone in H1. by destruct H1.
    + rewrite list_lookup_insert_ne in H1, H2 by done. eauto.
Qed.

(** An entry is cleared. *)
Lemma Inv_clear_entry (m : Z -> option (inode_type * Z))
    (d : list dir_entry_t) (k : nat) :
  Inv m d -> Inv m (<[k := free_dir_entry]> d).
Proof.
  intros [Hroot Hrefs Hnr Hsym Huniq]. split; try done.
  - intros j Hj. specialize (Hrefs j Hj).
    pose proof (refs_insert_le j d k free_dir_entry) as Hle.
    change (d_inumber free_dir_entry) with (-1) in Hle.
    destruct (Z.eqb_spec (-1) j); lia.
  - pose proof (refs_insert_le ROOT_DIR_INUM d k free_dir_entry) as Hle.
    simpl in Hle. lia.
  - intros j1 j2 e1 e2 H1 H2 Hname Hne.
    destruct (decide (j1 = k)) as [->|Hk1].
    { apply list_lookup_insert_Some in H1 as [(_ & <- & _)|[? _]]; done. }
    destruct (decide (j2 = k)) as [->|Hk2].
    { apply list_lookup_insert_Some in H2 as [(_ & <- & _)|[? _]];
        [|done]. simpl in Hname. congruence. }
    rewrite list_lookup_insert_ne in H1, H2 by done. eauto.
Qed.

(** The last entry of an inode is cleared and the inode deleted. *)
Lemma Inv_unlink_delete (m : Z -> option (inode_type * Z))
    (d : list dir_entry_t) (k : nat) (e : dir_entry_t) (i : Z) :
  0 <= i -> d !! k = Some e -> d_inumber e = i -> link_bound m i <= 1 ->
  Inv m d ->
  Inv (meta_set m i None) (<[k := free_dir_entry]> d).
Proof.
  intros Hi Hk He Hl HI.
  pose proof (Inv_clear_entry m d k HI) as [Hroot Hrefs Hnr Hsym Huniq].
  assert (Hir : i <> ROOT_DIR_INUM).
  { intros ->. pose proof (refs_pos _ _ _ _ Hk He).
    pose proof (Inv_no_root _ _ HI). lia. }
  split; try done.
  - destruct Hroot as [l' Hl']. exists l'. unfold meta_set.
    by destruct (Z.eqb_spec ROOT_DIR_INUM i).
  - intros j Hj. specialize (Hrefs j Hj). unfold link_bound, meta_set in *.
    destruct (Z.eqb_spec j i) as [->|]; [|done].
    pose proof (refs_insert_drop i d k e free_dir_entry Hk He) as Hdrop.
    simpl in Hdrop. pose proof (Inv_refs _ _ HI i Hi) as Hb.
    unfold link_bound in Hb. lia.
  - intros j l. unfold meta_set. destruct (Z.eqb_spec j i); [done|].
    apply Hsym.
Qed.

(** One of several entries of an inode is cleared. *)
Lemma Inv_unlink_decr (m : Z -> option (inode_type * Z))
    (d : list dir_entry_t) (k : nat) (e : dir_entry_t) (i : Z)
    (ty : inode_type) (l : Z) :
  0 <= i -> d !! k = Some e -> d_inumber e = i ->
  m i = Some (ty, l) -> 1 < l ->
  Inv m d ->
  Inv (meta_set m i (Some (ty, l - 1))) (<[k := free_dir_entry]> d).
Proof.
  intros Hi Hk He Hm Hl HI.
  pose proof (Inv_clear_entry m d k HI) as [Hroot Hrefs Hnr Hsym Huniq].
  split; try done.
  - destruct Hroot as [l' Hl']. unfold meta_set.
    destruct (Z.eqb_spec ROOT_DIR_INUM i) as [<-|]; [|eauto].
    rewrite Hl' in Hm. injection Hm as <- <-. eauto.
  - intros j Hj. specialize (Hrefs j Hj). unfold link_bound, meta_set in *.
    destruct (Z.eqb_spec j i) as [->|]; [|done].
    pose proof (refs_insert_drop i d k e free_dir_entry Hk He) as Hdrop.
    simpl in Hdrop. pose proof (Inv_refs _ _ HI i Hi) as Hb.
    unfold link_bound in Hb. rewrite Hm in Hb. lia.
  - intros j l'. unfold meta_set. destruct (Z.eqb_spec j i) as [->|];
      [|apply Hsym].
    intros [= -> <-]. pose proof (Inv_sym _ _ HI i l Hm). lia.
Qed.

(** ** The invariant, on states *)

Lemma same_meta_refl (s : FsState) : same_meta s s.
Proof. by split. Qed.

Lemma same_meta_trans (s1 s2 s3 : FsState) :
  same_meta s1 s2 -> same_meta s2 s3 -> same_meta s1 s3.
Proof.
  intros [H1 H1'] [H2 H2']. split; [|congruence].
  intros i. by rewrite H2, H1.
Qed.

Lemma fs_inv_same_meta (s s' : FsState) :
  same_meta s s' -> fs_inv s -> fs_inv s'.
Proof.
  intros [Hm Hd] HI. unfold fs_inv. rewrite Hd. by eapply Inv_ext.
Qed.

(** A state that differs outside the inode table and the directory. *)
Lemma same_meta_frame (s s' : FsState) :
  inode_table s' = inode_table s -> root_dir s' = root_dir s ->
  same_meta s s'.
Proof.
  intros Ht Hd. split; [|done]. intros i. unfold meta, inode_get.
  by rewrite Ht.
Qed.

Lemma meta_put (s0 s : FsState) (i j : Z) (ino ino' : inode_t) :
  inode_table s0 = inode_table s ->
  inode_get s i = Some ino ->
  meta (inode_put s0 i ino') j
  = meta_set (meta s) i (Some (i_node_type ino', i_links ino')) j.
Proof.
  intros Ht Hi. unfold meta, meta_set, inode_get, inode_put. simpl.
  rewrite Ht. destruct (Z.eqb_spec j i) as [->|Hne].
  - by rewrite (pool_get_put_eq _ _ _ _ Hi).
  - by rewrite pool_get_put_ne.
Qed.

(** Writing size or block of an inode keeps the view. *)
Lemma same_meta_put (s0 s : FsState) (i : Z) (ino ino' : inode_t) :
  inode_table s0 = inode_table s -> root_dir s0 = root_dir s ->
  inode_get s i = Some ino ->
  i_node_type ino' = i_node_type ino -> i_links ino' = i_links ino ->
  same_meta s (inode_put s0 i ino').
Proof.
  intros Ht Hd Hi Hty Hl. split; [|done]. intros j.
  rewrite (meta_put s0 s i j ino ino' Ht Hi). unfold meta_set.
  destruct (Z.eqb_spec j i) as [->|]; [|done].
  unfold meta. by rewrite Hi, Hty, Hl.
Qed.

Lemma data_block_alloc_frame (s s1 : FsState) (b : Z) :
  data_block_alloc s = (b, s1) ->
  inode_table s1 = inode_table s /\ root_dir s1 = root_dir s /\
  open_file_table s1 = open_file_table s.
Proof.
  unfold data_block_alloc. intros H.
  repeat case_match; by simplify_eq.
Qed.

Lemma add_to_open_file_table_frame (s s1 : FsState) (inum offset h : Z) :
  add_to_open_file_table s inum offset = (h, s1) ->
  inode_table s1 = inode_table s /\ root_dir s1 = root_dir s /\
  fs_data s1 = fs_data s.
Proof.
  unfold add_to_open_file_table. intros H.
  repeat case_match; by simplify_eq.
Qed.

Lemma tfs_close_same_meta (s s' : FsState) (fhandle v : Z) :
  tfs_close fhandle s = Done v s' -> same_meta s s'.
Proof.
  unfold tfs_close. intros H.
  destruct (get_open_file_entry s fhandle); simplify_eq;
    by apply same_meta_frame.
Qed.

Lemma tfs_read_same_meta (s s' : FsState) (fhandle len : Z)
    (v : Z * list byte) :
  tfs_read fhandle len s = Done v s' -> same_meta s s'.
Proof.
  unfold tfs_read. intros H.
  repeat case_match; simplify_eq; by apply same_meta_frame.
Qed.

Lemma tfs_write_same_meta (s s' : FsState) (fhandle to_write v : Z)
    (buffer : list byte) :
  tfs_write fhandle buffer to_write s = Done v s' -> same_meta s s'.
Proof.
  unfold tfs_write. intros H.
  destruct (get_open_file_entry s fhandle) as [file|];
    [|simplify_eq; apply same_meta_refl].
  destruct (inode_get s (of_inumber file)) as [inode|] eqn:Hino; [|done].
  destruct (0 <? _); [|simplify_eq; apply same_meta_refl].
  destruct (i_size inode =? 0).
  - destruct (data_block_alloc s) as [bnum s1] eqn:Halloc.
    destruct (data_block_alloc_frame _ _ _ Halloc) as (Ht & Hd & _).
    destruct (bnum =? -1); [simplify_eq; apply same_meta_refl|].
    repeat case_match; simplify_eq.
    all: by eapply same_meta_put.
  - repeat case_match; simplify_eq.
    all: by eapply same_meta_put.
Qed.

Lemma fs_inv_by (s' : FsState) (m' : Z -> option (inode_type * Z))
    (d' : list dir_entry_t) :
  (forall j : Z, meta s' j = m' j) -> root_dir s' = d' ->
  Inv m' d' -> fs_inv s'.
Proof. intros Hm <- HI. unfold fs_inv. by eapply Inv_ext. Qed.

Lemma Inv_create_add (m : Z -> option (inode_type * Z))
    (d : list dir_entry_t) (n : Z) (ty : inode_type) (k : nat)
    (name : string) :
  0 <= n -> m n = None ->
  list_find (entry_named name) d = None ->
  Inv m d ->
  Inv (meta_set m n (Some (ty, 1))) (<[k := mk_dir_entry name n]> d).
Proof.
  intros Hn Hfree Hnone HI.
  apply Inv_add_entry; [done| | |done|by apply Inv_create].
  - intros ->. destruct (Inv_root _ _ HI) as [l Hl]. congruence.
  - pose proof (Inv_refs _ _ HI n Hn) as Hb. unfold link_bound in *.
    rewrite Hfree in Hb. unfold meta_set. rewrite Z.eqb_refl. lia.
Qed.

Lemma meta_create (s : FsState) (n : nat) (ty : inode_type) (j : Z) :
  Pool.find_free (inode_table s) = Some n ->
  meta (with_inode_table s
          (<[n := (TAKEN, mk_inode ty 0 (-1) 1 EmptyString)]>
             (inode_table s))) j
  = meta_set (meta s) (Z.of_nat n) (Some (ty, 1)) j.
Proof.
  intros Hn. unfold meta, meta_set, inode_get. simpl.
  destruct (Z.eqb_spec j (Z.of_nat n)) as [->|Hne].
  - rewrite pool_get_insert_eq; [done|]. by eapply find_free_lt.
  - by rewrite pool_get_insert_ne.
Qed.

Lemma meta_fresh (s : FsState) (n : nat) :
  Pool.find_free (inode_table s) = Some n -> meta s (Z.of_nat n) = None.
Proof.
  intros Hn. unfold meta, inode_get. by rewrite (find_free_get_None _ _ Hn).
Qed.

(** Creating an inode and deleting it at once gives back the view. *)
Lemma create_delete_same_meta (s : FsState) (n : nat) (ty : inode_type) :
  ty <> T_DIRECTORY ->
  Pool.find_free (inode_table s) = Some n ->
  same_meta s
    (inode_delete
       (with_inode_table s
          (<[n := (TAKEN, mk_inode ty 0 (-1) 1 EmptyString)]> (inode_table s)))
       (Z.of_nat n)).
Proof.
  intros Hty Hn. pose proof (find_free_lt _ _ Hn) as Hlt.
  unfold inode_delete, inode_get. simpl.
  rewrite pool_get_insert_eq by done.
  assert (Hown : owns_block (mk_inode ty 0 (-1) 1 EmptyString) = false)
    by (by destruct ty).
  rewrite Hown. simpl. rewrite pool_free_insert by done.
  split; [|done]. intros i. unfold meta, inode_get. simpl.
  destruct (decide (i = Z.of_nat n)) as [->|Hi].
  - rewrite (find_free_get_None _ _ Hn). unfold Pool.get.
    destruct (Z.ltb_spec (Z.of_nat n) 0); [done|].
    by rewrite Nat2Z.id, list_lookup_insert_eq.
  - by rewrite pool_get_insert_ne.
Qed.

Lemma tfs_open_inv (M fuel : nat) (s s' : FsState) (name : string)
    (mode v : Z) :
  tfs_open M fuel name mode s = Done v s' -> fs_inv s -> fs_inv s'.
Proof.
  revert name. induction fuel as [|fuel IH]; intros name H HI; [done|].
  simpl in H.
  destruct (valid_pathname name); simpl in H; [|by simplify_eq].
  destruct (inode_get s ROOT_DIR_INUM) as [root|] eqn:Hroot; [|done].
  destruct (0 <=? tfs_lookup s name ROOT_DIR_INUM).
  - destruct (inode_get s (tfs_lookup s name ROOT_DIR_INUM))
      as [inode|] eqn:Hino; [|done].
    destruct (is_sym_link inode).
    { destruct (String.eqb _ _); [by simplify_eq|]. by eapply IH. }
    match type of H with
    | (let (_, _) := add_to_open_file_table ?s1 _ _ in _) = _ =>
        destruct (add_to_open_file_table s1 (tfs_lookup s name ROOT_DIR_INUM)
                    (if mode_has mode TFS_O_APPEND
                     then i_size
                            (if mode_has mode TFS_O_TRUNC && (0 <? i_size inode)
                             then set_i_size inode 0 else inode)
                     else 0))
          as [h s2] eqn:Hadd
    end.
    injection H as <- <-.
    destruct (add_to_open_file_table_frame _ _ _ _ _ Hadd) as (Ht & Hd & _).
    eapply fs_inv_same_meta; [|exact HI].
    eapply same_meta_trans; [|by apply same_meta_frame].
    destruct (mode_has mode TFS_O_TRUNC && (0 <? i_size inode));
      [|apply same_meta_refl].
    by eapply same_meta_put.
  - destruct (mode_has mode TFS_O_CREAT); [|by simplify_eq].
    destruct (Pool.find_free (inode_table s)) as [n|] eqn:Hn.
    2:{ rewrite (inode_create_full _ _ Hn) in H. simpl in H.
        by simplify_eq. }
    rewrite (inode_create_plain s T_FILE n) in H by done.
    destruct (Z.eqb_spec (Z.of_nat n) (-1)); [lia|].
    match type of H with
    | (let (_, _) := add_dir_entry _ ?s1 _ _ _ in _) = _ =>
        destruct (add_dir_entry M s1 ROOT_DIR_INUM (skip_first name)
                    (Z.of_nat n)) as [r s2] eqn:Hadd
    end.
    destruct (add_dir_entry_cases _ _ _ _ _ _ _ Hadd)
      as [[-> ->]|(-> & _ & _ & Hnone & k & e & _ & ->)]; simpl in H.
    + injection H as <- <-.
      eapply fs_inv_same_meta; [|exact HI].
      by apply create_delete_same_meta.
    + match type of H with
      | (let (_, _) := add_to_open_file_table ?s2 _ _ in _) = _ =>
          destruct (add_to_open_file_table s2 (Z.of_nat n) 0)
            as [h s3] eqn:Hopen
      end.
      injection H as <- <-.
      destruct (add_to_open_file_table_frame _ _ _ _ _ Hopen)
        as (Ht & Hd & _).
      eapply fs_inv_same_meta; [by apply same_meta_frame|].
      eapply fs_inv_by;
        [intros j; by apply meta_create|reflexivity|].
      apply Inv_create_add; [lia|by apply meta_fresh|done|done].
Qed.

(** A path that resolves is the name of an entry of the directory. *)
Lemma tfs_lookup_entry (s : FsState) (name : string) (inum : Z) :
  tfs_lookup s name ROOT_DIR_INUM = inum -> inum <> -1 ->
  valid_pathname name = true /\
  is_directory s ROOT_DIR_INUM = true /\
  exists (k : nat) (e : dir_entry_t),
    list_find (entry_named (skip_first name)) (root_dir s) = Some (k, e) /\
    d_inumber e = inum.
Proof.
  unfold tfs_lookup, find_in_dir. intros H Hne.
  destruct (valid_pathname name); simpl in H; [|congruence].
  destruct (is_directory s ROOT_DIR_INUM); [|congruence].
  destruct (list_find _ _) as [[k e]|] eqn:Hf; [|congruence].
  eauto 6.
Qed.

Lemma tfs_sym_link_inv (M : nat) (s s' : FsState)
    (target link_name : string) (v : Z) :
  tfs_sym_link M target link_name s = Done v s' -> fs_inv s -> fs_inv s'.
Proof.
  intros H HI.
  destruct (valid_pathname target) eqn:Hvt;
    [|unfold tfs_sym_link in H; rewrite Hvt, orb_true_r in H;
      (simpl in H; by simplify_eq)].
  destruct (valid_pathname link_name) eqn:Hvl;
    [|unfold tfs_sym_link in H; rewrite Hvl in H; (simpl in H; by simplify_eq)].
  destruct (inode_get s ROOT_DIR_INUM) as [root|] eqn:Hroot;
    [|unfold tfs_sym_link in H; by rewrite Hvt, Hvl, Hroot in H].
  destruct (decide (tfs_lookup s target ROOT_DIR_INUM = -1)) as [Hl|Hl].
  { unfold tfs_sym_link in H. rewrite Hvt, Hvl, Hroot, Hl in H.
    (simpl in H; by simplify_eq). }
  destruct (Pool.find_free (inode_table s)) as [n|] eqn:Hn.
  2:{ unfold tfs_sym_link in H. rewrite Hvt, Hvl, Hroot in H. simpl in H.
      destruct (Z.eqb_spec (tfs_lookup s target ROOT_DIR_INUM) (-1));
        [done|].
      rewrite (inode_create_full _ _ Hn) in H. (simpl in H; by simplify_eq). }
  destruct (tfs_sym_link_run M s target link_name n Hvt Hvl
              ltac:(eauto) Hl Hn) as (s2 & Hnew & Hother & Hdir & Heq).
  rewrite Heq in H. clear Heq.
  assert (Hmeta : forall j : Z,
            meta s2 j
            = meta_set (meta s) (Z.of_nat n) (Some (T_SYM_LINK, 1)) j).
  { intros j. unfold meta, meta_set.
    destruct (Z.eqb_spec j (Z.of_nat n)) as [->|Hj].
    - by rewrite Hnew.
    - by rewrite Hother. }
  destruct (add_dir_entry M s2 ROOT_DIR_INUM (skip_first link_name)
              (Z.of_nat n)) as [r s3] eqn:Hadd.
  destruct (add_dir_entry_cases _ _ _ _ _ _ _ Hadd)
    as [[-> ->]|(-> & _ & _ & Hnone & k & e & _ & ->)]; simpl in H;
    injection H as <- <-.
  - eapply fs_inv_by; [exact Hmeta|exact Hdir|].
    apply Inv_create; [lia|by apply meta_fresh|done].
  - eapply fs_inv_by; [exact Hmeta|simpl; by rewrite Hdir|].
    rewrite Hdir in Hnone.
    apply Inv_create_add; [lia|by apply meta_fresh|done|done].
Qed.

Lemma tfs_link_inv (M : nat) (s s' : FsState) (target link_name : string)
    (v : Z) :
  tfs_link M target link_name s = Done v s' -> fs_inv s -> fs_inv s'.
Proof.
  unfold tfs_link. intros H HI.
  destruct (negb (valid_pathname target) || negb (valid_pathname link_name));
    [simpl in H; by simplify_eq|].
  destruct (inode_get s ROOT_DIR_INUM) as [root|] eqn:Hroot; [|done].
  destruct (Z.eqb_spec (tfs_lookup s target ROOT_DIR_INUM) (-1)) as [|Hl];
    [simpl in H; by simplify_eq|].
  destruct (tfs_lookup_entry s target _ eq_refl Hl)
    as (_ & _ & kt & et & Hfind & Het).
  set (inum := tfs_lookup s target ROOT_DIR_INUM) in *.
  destruct (inode_get s inum) as [itarget|] eqn:Hit; 
    [|(simpl in H; by simplify_eq)].
  destruct (is_sym_link itarget) eqn:Hsym; [simpl in H; by simplify_eq|].
  destruct (add_dir_entry M s ROOT_DIR_INUM (skip_first link_name) inum)
    as [r s1] eqn:Hadd.
  destruct (add_dir_entry_cases _ _ _ _ _ _ _ Hadd)
    as [[-> ->]|(-> & _ & _ & Hnone & k & e & _ & ->)]; simpl in H;
    injection H as <- <-; [done|].
  apply list_find_Some in Hfind as (Hkt & _ & _).
  pose proof (refs_pos inum _ _ _ Hkt Het) as Hpos.
  apply pool_get_Some in Hit as Hit'. destruct Hit' as [Hi0 _].
  eapply fs_inv_by;
    [intros j; by apply (meta_put _ s inum j itarget)|reflexivity|].
  simpl.
  apply Inv_add_entry; [done| | |done|].
  - intros E. pose proof (Inv_no_root _ _ HI). rewrite E in Hpos. lia.
  - pose proof (Inv_refs _ _ HI inum Hi0) as Hb.
    unfold link_bound, meta_set, meta in *. rewrite Z.eqb_refl.
    rewrite Hit in Hb. lia.
  - apply Inv_bump;
      [|unfold is_sym_link in Hsym; by destruct (i_node_type itarget)|done].
    unfold meta. by rewrite Hit.
Qed.

Lemma meta_delete (s : FsState) (i j : Z) :
  meta (inode_delete s i) j = meta_set (meta s) i None j.
Proof.
  unfold inode_delete, meta, meta_set.
  destruct (inode_get s i) as [ino|] eqn:Hi.
  - unfold inode_get in *.
    replace (inode_table (if owns_block ino
                          then data_block_free s (i_data_block ino) else s))
      with (inode_table s) by (by destruct (owns_block ino)).
    simpl. destruct (Z.eqb_spec j i) as [->|].
    + by rewrite pool_get_free_eq.
    + by rewrite pool_get_free_ne.
  - destruct (Z.eqb_spec j i) as [->|]; [by rewrite Hi|done].
Qed.

Lemma root_dir_delete (s : FsState) (i : Z) :
  root_dir (inode_delete s i) = root_dir s.
Proof.
  unfold inode_delete. destruct (inode_get s i) as [ino|]; [|done].
  simpl. by destruct (owns_block ino).
Qed.

Lemma is_directory_meta (s : FsState) (d : Z) :
  is_directory s d = true <-> exists l, meta s d = Some (T_DIRECTORY, l).
Proof.
  unfold is_directory, meta. destruct (inode_get s d) as [ino|].
  - destruct (i_node_type ino) eqn:E; split; try done.
    + by intros [l [=]].
    + eauto.
    + by intros [l [=]].
  - split; [done|]. by intros [l ?].
Qed.

Lemma tfs_unlink_inv (s s' : FsState) (target : string) (v : Z) :
  tfs_unlink target s = Done v s' -> fs_inv s -> fs_inv s'.
Proof.
  unfold tfs_unlink. intros H HI.
  destruct (valid_pathname target) eqn:Hv; simpl in H; 
    [|(simpl in H; by simplify_eq)].
  destruct (inode_get s ROOT_DIR_INUM) as [root|] eqn:Hroot; [|done].
  destruct (Z.eqb_spec (tfs_lookup s target ROOT_DIR_INUM) (-1)) as [|Hl];
    [simpl in H; by simplify_eq|].
  destruct (tfs_lookup_entry s target _ eq_refl Hl)
    as (_ & _ & k & e & Hfind & He).
  set (inum := tfs_lookup s target ROOT_DIR_INUM) in *.
  destruct (inode_get s inum) as [i_target|] eqn:Hit; 
    [|(simpl in H; by simplify_eq)].
  apply list_find_Some in Hfind as Hfind'. destruct Hfind' as (Hk & _ & _).
  apply pool_get_Some in Hit as Hit'. destruct Hit' as [Hi0 _].
  set (s1 := if i_links i_target - 1 <=? 0 then inode_delete s inum
             else inode_put s inum
                    (set_i_links i_target (i_links i_target - 1))) in *.
  destruct (inode_get s1 ROOT_DIR_INUM) as [root1|] eqn:Hroot1; [|done].
  destruct (clear_dir_entry s1 ROOT_DIR_INUM (skip_first target))
    as [r s2] eqn:Hclear.
  injection H as <- <-.
  assert (Hd1 : root_dir s1 = root_dir s).
  { unfold s1. destruct (_ <=? _); [apply root_dir_delete|done]. }
  assert (Hm1 : forall j : Z,
            meta s1 j
            = meta_set (meta s) inum
                (if i_links i_target - 1 <=? 0 then None
                 else Some (i_node_type i_target, i_links i_target - 1)) j).
  { intros j. unfold s1. destruct (_ <=? _); [apply meta_delete|].
    by apply (meta_put s s inum j i_target). }
  assert (Hir : inum <> ROOT_DIR_INUM).
  { intros E. pose proof (refs_pos inum _ _ _ Hk He) as Hpos.
    pose proof (Inv_no_root _ _ HI). rewrite E in Hpos. lia. }
  assert (Hdir1 : is_directory s1 ROOT_DIR_INUM = true).
  { apply is_directory_meta. rewrite Hm1. unfold meta_set.
    destruct (Z.eqb_spec ROOT_DIR_INUM inum); [done|].
    apply (Inv_root _ _ HI). }
  destruct (clear_dir_entry_cases _ _ _ _ _ Hclear)
    as [(_ & _ & [Hd|Hnone])|(_ & _ & k' & e' & Hf' & ->)].
  { congruence. }
  { rewrite Hd1 in Hnone. congruence. }
  rewrite Hd1 in Hf'. rewrite Hfind in Hf'. injection Hf' as <- <-.
  eapply fs_inv_by; [exact Hm1|simpl; by rewrite Hd1|].
  destruct (Z.leb_spec (i_links i_target - 1) 0).
  - eapply Inv_unlink_delete; try done.
    unfold link_bound, meta. rewrite Hit. lia.
  - eapply Inv_unlink_decr; try done; [|lia].
    unfold meta. by rewrite Hit.
Qed.

Lemma refs_replicate_free (i : Z) (n : nat) :
  i <> -1 -> refs i (replicate n free_dir_entry) = 0%nat.
Proof.
  intros Hi. induction n as [|n IH]; [done|].
  change (refs i (replicate (S n) free_dir_entry))
    with ((if (-1 =? i)%Z then 1 else 0)
          + refs i (replicate n free_dir_entry))%nat.
  rewrite IH. by destruct (Z.eqb_spec (-1) i).
Qed.

Lemma pool_get_replicate_free {A : Type} (n : nat) (a : A) (j : Z) :
  Pool.get (replicate n (FREE, a)) j = None.
Proof.
  unfold Pool.get. destruct (j <? 0); [done|].
  destruct (replicate n (FREE, a) !! Z.to_nat j) as [[st b]|] eqn:E;
    [|done].
  apply lookup_replicate in E as [[= -> ->] _]. done.
Qed.

Lemma tfs_init_inv (params_ptr : option tfs_params) (s : FsState) :
  tfs_init params_ptr = Done 0 s -> fs_inv s.
Proof.
  unfold tfs_init. intros H.
  set (params := match params_ptr with
                 | Some params => params
                 | None => tfs_default_params
                 end) in *.
  clearbody params. unfold inode_create in H.
  destruct (Pool.find_free (inode_table (state_init params)))
    as [n|] eqn:Hn; [|by simplify_eq].
  destruct (data_block_alloc (state_init params)) as [b s1] eqn:Hb.
  destruct (data_block_alloc_frame _ _ _ Hb) as (Ht & _ & _).
  destruct (b =? -1); [by simplify_eq|].
  destruct (Z.eqb_spec (Z.of_nat n) ROOT_DIR_INUM) as [Hn0|];
    [|by simplify_eq].
  injection H as <-.
  assert (n = 0%nat) as -> by (unfold ROOT_DIR_INUM in Hn0; lia).
  pose proof (find_free_lt _ _ Hn) as Hlt.
  eapply (fs_inv_by _
            (fun j => if j =? ROOT_DIR_INUM then Some (T_DIRECTORY, 1)
                      else None));
    [|reflexivity|].
  - intros j. unfold meta, inode_get. simpl. rewrite Ht.
    destruct (Z.eqb_spec j ROOT_DIR_INUM) as [->|Hj].
    + change ROOT_DIR_INUM with (Z.of_nat 0).
      by rewrite pool_get_insert_eq.
    + rewrite pool_get_insert_ne by (unfold ROOT_DIR_INUM in Hj; lia).
      simpl. by rewrite pool_get_replicate_free.
  - cbn [root_dir with_root_dir fs_params state_init]. split.
    + by exists 1.
    + intros i Hi. rewrite refs_replicate_free by lia.
      unfold link_bound. destruct (i =? ROOT_DIR_INUM); lia.
    + by apply refs_replicate_free.
    + intros i l. by destruct (i =? ROOT_DIR_INUM).
    + intros j k e e' [-> _]%lookup_replicate. done.
Qed.

(** Every reachable state satisfies the invariant. *)
Lemma reachable_inv (M : nat) (s : FsState) : reachable M s -> fs_inv s.
Proof.
  induction 1 as [params_ptr s Hinit|s s' fuel c v _ IH Hrun].
  - by eapply tfs_init_inv.
  - destruct c; simpl in Hrun.
    + by eapply tfs_open_inv.
    + eapply fs_inv_same_meta; [|exact IH]. by eapply tfs_close_same_meta.
    + destruct (tfs_read fhandle len s) as [[n bytes] s1| | |] eqn:Hr;
        try done.
      injection Hrun as <- <-.
      eapply fs_inv_same_meta; [|exact IH]. by eapply tfs_read_same_meta.
    + eapply fs_inv_same_meta; [|exact IH]. by eapply tfs_write_same_meta.
    + by eapply tfs_link_inv.
    + by eapply tfs_sym_link_inv.
    + by eapply tfs_unlink_inv.
Qed.

Lemma run_calls_reachable (M fuel : nat) (cs : list call) (s s' : FsState) :
  reachable M s -> run_calls M fuel cs s = Some s' -> reachable M s'.
Proof.
  revert s. induction cs as [|c cs IH]; intros s Hs H; simpl in H.
  - by injection H as <-.
  - destruct (run_call M fuel c s) as [v s1| | |] eqn:Hc; try done.
    eapply IH; [|done]. by eapply reachable_call.
Qed.

Lemma scenario_reachable (cs : list call) (s : FsState) :
  scenario cs = Some s -> reachable 40 s.
Proof.
  unfold scenario. intros H.
  destruct (tfs_init (Some small_params)) as [v s0| | |] eqn:Hinit;
    try done.
  destruct v as [| |]; try done.
  eapply run_calls_reachable; [|done]. by eapply reachable_init.
Qed.

(** ** tfs_unlink *)

Lemma list_find_cleared (d : list dir_entry_t) (k : nat) (e : dir_entry_t)
    (name : string) :
  (forall (j k : nat) (e e' : dir_entry_t),
     d !! j = Some e -> d !! k = Some e' ->
     d_name e = d_name e' -> d_name e <> EmptyString -> j = k) ->
  list_find (entry_named name) d = Some (k, e) -> name <> EmptyString ->
  list_find (entry_named name) (<[k := free_dir_entry]> d) = None.
Proof.
  intros Huniq (Hk & He & _)%list_find_Some Hne.
  apply list_find_None, Forall_forall. intros x [j Hj]%list_elem_of_lookup.
  unfold entry_named in *. intros Hx.
  destruct (decide (j = k)) as [->|Hjk].
  - rewrite list_lookup_insert_eq in Hj by (by eapply lookup_lt_Some).
    injection Hj as <-. simpl in Hx. congruence.
  - rewrite list_lookup_insert_ne in Hj by done.
    apply Hjk. eapply (Huniq j k x e); congruence.
Qed.

(** The state tfs_unlink leaves, in a state that satisfies the
    invariant, for a path that resolves to an inode. *)
Lemma tfs_unlink_run (s : FsState) (target : string) (inum : Z)
    (ino : inode_t) :
  fs_inv s ->
  tfs_lookup s target ROOT_DIR_INUM = inum -> inum <> -1 ->
  inode_get s inum = Some ino ->
  exists (k : nat) (e : dir_entry_t),
    list_find (entry_named (skip_first target)) (root_dir s) = Some (k, e) /\
    inum <> ROOT_DIR_INUM /\
    tfs_unlink target s
    = Done 0
        (with_root_dir
           (if i_links ino - 1 <=? 0 then inode_delete s inum
            else inode_put s inum (set_i_links ino (i_links ino - 1)))
           (<[k := free_dir_entry]> (root_dir s))).
Proof.
  intros HI Hlook Hl Hit.
  destruct (tfs_lookup_entry s target _ Hlook Hl)
    as (Hv & Hdir & k & e & Hfind & He).
  apply list_find_Some in Hfind as Hfind'. destruct Hfind' as (Hk & _ & _).
  assert (Hir : inum <> ROOT_DIR_INUM).
  { intros E. pose proof (refs_pos inum _ _ _ Hk He) as Hpos.
    pose proof (Inv_no_root _ _ HI). rewrite E in Hpos. lia. }
  exists k, e. split; [done|]. split; [done|].
  unfold tfs_unlink. rewrite Hv. simpl.
  destruct (Inv_root _ _ HI) as [lr Hroot]. unfold meta in Hroot.
  destruct (inode_get s ROOT_DIR_INUM) as [root|] eqn:Hroot'; [|done].
  rewrite Hlook. destruct (Z.eqb_spec inum (-1)); [done|]. rewrite Hit.
  set (s1 := if i_links ino - 1 <=? 0 then inode_delete s inum
             else inode_put s inum (set_i_links ino (i_links ino - 1))).
  assert (Hd1 : root_dir s1 = root_dir s).
  { unfold s1. destruct (_ <=? _); [apply root_dir_delete|done]. }
  assert (Hr1 : inode_get s1 ROOT_DIR_INUM = Some root).
  { unfold s1. destruct (_ <=? _).
    - pose proof (meta_delete s inum ROOT_DIR_INUM) as Hm.
      unfold meta, meta_set in Hm.
      destruct (Z.eqb_spec ROOT_DIR_INUM inum); [congruence|].
      rewrite Hroot' in Hm. unfold inode_delete in *. rewrite Hit in *.
      unfold inode_get. simpl. rewrite pool_get_free_ne by done.
      by destruct (owns_block ino).
    - by rewrite inode_get_put_ne. }
  rewrite Hr1. unfold clear_dir_entry.
  rewrite (is_directory_agree s s1) by congruence.
  rewrite Hdir, Hd1, Hfind. reflexivity.
Qed.

(** C5: in a reachable state, tfs_unlink of a valid path that resolves
    to an inode with one link, or to a symbolic link whatever its count,
    deletes the inode, clears the entry and returns 0; with more than one
    link it only takes one from the count, clears the entry and returns 0;
    it returns -1, changing nothing, when the path is invalid or absent. *)
Theorem C5_tfs_unlink (M : nat) (s : FsState) (target : string) :
  reachable M s ->
  (valid_pathname target = false \/ tfs_lookup s target ROOT_DIR_INUM = -1 ->
   tfs_unlink target s = Done (-1) s) /\
  (forall (inum : Z) (ino : inode_t),
     valid_pathname target = true ->
     tfs_lookup s target ROOT_DIR_INUM = inum -> inum <> -1 ->
     inode_get s inum = Some ino ->
     exists s' : FsState,
       tfs_unlink target s = Done 0 s' /\
       tfs_lookup s' target ROOT_DIR_INUM = -1 /\
       (forall other : string,
          valid_pathname other = true -> other <> target ->
          tfs_lookup s' other ROOT_DIR_INUM
          = tfs_lookup s other ROOT_DIR_INUM) /\
       (forall j : Z, j <> inum -> inode_get s' j = inode_get s j) /\
       (i_links ino = 1 \/ i_node_type ino = T_SYM_LINK ->
        inode_get s' inum = None /\
        (owns_block ino = true ->
         data_block_get s' (i_data_block ino) = None)) /\
       (1 < i_links ino ->
        inode_get s' inum = Some (set_i_links ino (i_links ino - 1)) /\
        fs_data s' = fs_data s)).
Proof.
  intros Hreach. pose proof (reachable_inv M s Hreach) as HI.
  split.
  - intros Hbad. unfold tfs_unlink.
    destruct (valid_pathname target) eqn:Hv; [|done]. simpl.
    destruct Hbad as [|Hl]; [done|].
    destruct (Inv_root _ _ HI) as [lr Hroot]. unfold meta in Hroot.
    destruct (inode_get s ROOT_DIR_INUM); [|done]. by rewrite Hl.
  - intros inum ino Hv Hlook Hl Hit.
    destruct (tfs_unlink_run s target inum ino HI Hlook Hl Hit)
      as (k & e & Hfind & Hir & ->).
    eexists. split; [reflexivity|].
    set (s1 := if i_links ino - 1 <=? 0 then inode_delete s inum
               else inode_put s inum (set_i_links ino (i_links ino - 1))).
    assert (Hsame : forall j : Z, j <> inum ->
              inode_get s1 j = inode_get s j).
    { intros j Hj. unfold s1. destruct (_ <=? _).
      - unfold inode_delete. rewrite Hit. unfold inode_get. simpl.
        rewrite pool_get_free_ne by done. by destruct (owns_block ino).
      - by rewrite inode_get_put_ne. }
    assert (Hd1 : root_dir s1 = root_dir s).
    { unfold s1. destruct (_ <=? _); [apply root_dir_delete|done]. }
    assert (Hsub := valid_pathname_sub _ Hv).
    split; [|split; [|split; [|split]]].
    + unfold tfs_lookup, find_in_dir. rewrite Hv. simpl.
      rewrite (list_find_cleared _ _ _ _ (Inv_unique _ _ HI) Hfind Hsub).
      by destruct (is_directory _ _).
    + intros other Hvo Hne. unfold tfs_lookup. rewrite Hvo. simpl.
      unfold find_in_dir.
      change (is_directory (with_root_dir s1 _) ROOT_DIR_INUM)
        with (is_directory s1 ROOT_DIR_INUM).
      rewrite (is_directory_agree s s1) by (by apply Hsame).
      simpl. apply list_find_Some in Hfind as (Hk & He & _).
      rewrite (list_find_insert_neither (entry_named (skip_first other))
                 _ k e); try done.
      * unfold entry_named in *. intros E. apply Hne.
        destruct other as [|c o], target as [|c' t]; try done.
        unfold valid_pathname in Hv, Hvo. simpl in *.
        apply andb_true_iff in Hv as [_ Hc'].
        apply andb_true_iff in Hvo as [_ Hc].
        apply Ascii.eqb_eq in Hc, Hc'. congruence.
      * unfold entry_named. simpl. apply valid_pathname_sub in Hvo.
        congruence.
    + intros j Hj. by apply Hsame.
    + intros Hone.
      assert (Hle : i_links ino - 1 <= 0).
      { destruct Hone as [->|Hsym]; [lia|].
        assert (Hm : meta s inum = Some (T_SYM_LINK, i_links ino))
          by (unfold meta; by rewrite Hit, Hsym).
        pose proof (Inv_sym _ _ HI _ _ Hm). lia. }
      unfold s1. destruct (Z.leb_spec (i_links ino - 1) 0); [|lia].
      unfold inode_delete. rewrite Hit. split.
      * unfold inode_get. simpl. apply pool_get_free_eq.
      * intros Hown. rewrite Hown. unfold data_block_get. simpl.
        apply pool_get_free_eq.
    + intros Hmany. unfold s1.
      destruct (Z.leb_spec (i_links ino - 1) 0); [lia|].
      split; [by eapply inode_get_put_eq|done].
Qed.

(** C10: when tfs_sym_link has allocated the SYMLINK inode and the
    directory entry for [link_name] cannot be added, it returns -1 and
    does not delete the inode: the inode stays allocated in the pool, and
    no entry of the root directory leads to it. *)
Theorem C10_tfs_sym_link_leaks_inode (M : nat) (s : FsState)
    (target link_name : string) (n : nat) :
  reachable M s ->
  valid_pathname target = true ->
  valid_pathname link_name = true ->
  tfs_lookup s target ROOT_DIR_INUM <> -1 ->
  Pool.find_free (inode_table s) = Some n ->
  fst (add_dir_entry M s ROOT_DIR_INUM (skip_first link_name) (Z.of_nat n))
  = -1 ->
  exists s' : FsState,
    tfs_sym_link M target link_name s = Done (-1) s' /\
    inode_get s (Z.of_nat n) = None /\
    inode_get s' (Z.of_nat n) = Some (mk_inode T_SYM_LINK 0 (-1) 1 target) /\
    root_dir s' = root_dir s /\
    (forall e : dir_entry_t, e ∈ root_dir s' -> d_inumber e <> Z.of_nat n) /\
    (forall name : string, tfs_lookup s' name ROOT_DIR_INUM <> Z.of_nat n).
Proof.
  intros Hreach Hvt Hvl Hl Hn Hfail.
  pose proof (reachable_inv M s Hreach) as HI.
  assert (Hroot : is_Some (inode_get s ROOT_DIR_INUM)).
  { destruct (Inv_root _ _ HI) as [l Hm]. unfold meta in Hm.
    destruct (inode_get s ROOT_DIR_INUM); [eauto|done]. }
  destruct (tfs_sym_link_run M s target link_name n Hvt Hvl Hroot Hl Hn)
    as (s2 & Hnew & Hother & Hdir & ->).
  pose proof (fresh_ne _ _ _ Hn Hroot) as Hrn.
  rewrite <- (add_dir_entry_agree M s s2) in Hfail
    by (try apply Hother; done).
  destruct (add_dir_entry M s2 ROOT_DIR_INUM (skip_first link_name)
              (Z.of_nat n)) as [r s3] eqn:Hadd.
  simpl in Hfail. subst r.
  destruct (add_dir_entry_cases _ _ _ _ _ _ _ Hadd) as [[_ ->]|[? _]];
    [|done].
  simpl. exists s2. split; [done|].
  split; [apply (find_free_get_None _ _ Hn)|].
  split; [done|]. split; [done|].
  assert (Hnone : forall e : dir_entry_t,
            e ∈ root_dir s2 -> d_inumber e <> Z.of_nat n).
  { intros e He. rewrite Hdir in He. eapply refs_zero; [|done].
    pose proof (Inv_refs _ _ HI (Z.of_nat n) ltac:(lia)) as Hb.
    unfold link_bound in Hb. rewrite (meta_fresh _ _ Hn) in Hb. lia. }
  split; [done|].
  intros name. unfold tfs_lookup, find_in_dir.
  destruct (valid_pathname name); simpl; [|lia].
  destruct (is_directory s2 ROOT_DIR_INUM); [|lia].
  destruct (list_find _ _) as [[k e]|] eqn:Hf; [|lia].
  apply list_find_Some in Hf as (Hk & _ & _).
  apply Hnone. by eapply list_elem_of_lookup_2.
Qed.

(** ** The steps of the round trip *)

Lemma find_free_after_free {A : Type} (p : pool A) (i : Z) :
  is_Some (Pool.get p i) -> is_Some (Pool.find_free (Pool.free p i)).
Proof.
  intros [a [Hi Ha]%pool_get_Some]. unfold Pool.free.
  destruct (Z.ltb_spec i 0); [lia|]. rewrite Ha.
  revert Ha. generalize (Z.to_nat i). clear.
  induction p as [|[st b] p IH]; intros n Hn; [done|].
  destruct n as [|n]; simpl in *; [by eexists|].
  destruct st; [by eexists|].
  destruct (IH n Hn) as [m Hm]. rewrite Hm. by eexists.
Qed.

(** A successful tfs_open of a path that the directory does not hold has
    created an empty file and opened it at offset 0. *)
Lemma tfs_open_created (M fuel : nat) (s s1 : FsState) (name : string)
    (mode h : Z) :
  tfs_lookup s name ROOT_DIR_INUM = -1 ->
  tfs_open M fuel name mode s = Done h s1 -> 0 <= h ->
  exists n : Z,
    valid_pathname name = true /\
    n <> ROOT_DIR_INUM /\
    get_open_file_entry s1 h = Some (mk_open_file n 0) /\
    inode_get s1 n = Some (mk_inode T_FILE 0 (-1) 1 EmptyString) /\
    tfs_lookup s1 name ROOT_DIR_INUM = n /\
    is_Some (inode_get s1 ROOT_DIR_INUM) /\
    fs_data s1 = fs_data s /\ fs_params s1 = fs_params s.
Proof.
  intros Hlook H Hh. destruct fuel as [|fuel]; [done|]. simpl in H.
  destruct (valid_pathname name) eqn:Hv; simpl in H;
    [|simplify_eq; lia].
  destruct (inode_get s ROOT_DIR_INUM) as [root|] eqn:Hroot; [|done].
  rewrite Hlook in H. simpl in H.
  destruct (mode_has mode TFS_O_CREAT); [|simplify_eq; lia].
  destruct (Pool.find_free (inode_table s)) as [n|] eqn:Hn.
  2:{ rewrite (inode_create_full _ _ Hn) in H. simpl in H.
      simplify_eq; lia. }
  rewrite (inode_create_plain s T_FILE n) in H by done.
  destruct (Z.eqb_spec (Z.of_nat n) (-1)); [lia|].
  pose proof (fresh_ne _ _ ROOT_DIR_INUM Hn ltac:(eauto)) as Hrn.
  pose proof (find_free_lt _ _ Hn) as Hlt.
  set (s0 := with_inode_table s
       (<[n := (TAKEN, mk_inode T_FILE 0 (-1) 1 EmptyString)]>
          (inode_table s))) in *.
  destruct (add_dir_entry M s0 ROOT_DIR_INUM (skip_first name) (Z.of_nat n))
    as [r s2] eqn:Hadd.
  destruct (add_dir_entry_inode_table _ _ _ _ _ _ _ Hadd)
    as (Ht & Hd & Ho & Hp).
  destruct (add_dir_entry_cases _ _ _ _ _ _ _ Hadd)
    as [[-> ->]|(-> & _)]; simpl in H; [simplify_eq; lia|].
  unfold add_to_open_file_table in H.
  destruct (Pool.find_free (open_file_table s2)) as [m|] eqn:Hm;
    [|simplify_eq; lia].
  injection H as <- <-.
  exists (Z.of_nat n). split; [done|]. split; [done|].
  split; [|split; [|split; [|split]]].
  - apply pool_get_insert_eq. by eapply find_free_lt.
  - unfold inode_get. simpl. rewrite Ht. by apply pool_get_insert_eq.
  - unfold tfs_lookup. rewrite Hv. simpl.
    rewrite <- (find_in_dir_added M s0 s2 ROOT_DIR_INUM (Z.of_nat n)
                  (skip_first name) Hadd).
    reflexivity.
  - unfold inode_get. simpl. rewrite Ht. simpl.
    rewrite pool_get_insert_ne by done. eauto.
  - done.
Qed.

(** Writing [buffer] at offset 0 into an empty file. *)
Lemma tfs_write_fresh (s : FsState) (h n : Z) (ino : inode_t)
    (buffer : list byte) :
  get_open_file_entry s h = Some (mk_open_file n 0) ->
  inode_get s n = Some ino -> i_size ino = 0 ->
  Z.of_nat (length buffer) <= state_block_size s ->
  state_block_size s < 2 ^ 63 ->
  blocks_sized s ->
  (buffer = [] \/ Pool.find_free (fs_data s) <> None) ->
  exists (s' : FsState) (ino' : inode_t),
    tfs_write h buffer (Z.of_nat (length buffer)) s
    = Done (Z.of_nat (length buffer)) s' /\
    is_Some (get_open_file_entry s' h) /\
    inode_get s' n = Some ino' /\
    i_node_type ino' = i_node_type ino /\
    i_size ino' = Z.of_nat (length buffer) /\
    (buffer <> [] ->
     exists block : list byte,
       data_block_get s' (i_data_block ino') = Some block /\
       take (length buffer) block = buffer) /\
    (forall j : Z, j <> n -> inode_get s' j = inode_get s j) /\
    root_dir s' = root_dir s /\ fs_params s' = fs_params s.
Proof.
  intros Hfile Hino Hsz Hlen Hbs Hsized Hfree.
  set (len := Z.of_nat (length buffer)) in *.
  unfold tfs_write. rewrite Hfile. cbn [of_inumber of_offset].
  rewrite Hino.
  assert (Hadd : size_add len 0 = len).
  { unfold size_add, SIZE_MODULUS. rewrite Z.add_0_r.
    apply Z.mod_small. lia. }
  assert (Hadd' : size_add 0 len = len).
  { unfold size_add, SIZE_MODULUS. apply Z.mod_small. lia. }
  rewrite Hadd. destruct (Z.ltb_spec (state_block_size s) len); [lia|].
  destruct (Z.ltb_spec 0 len) as [Hpos|Hzero].
  2:{ assert (buffer = []) as -> by (destruct buffer; [done|simpl in *; lia]).
      exists s, ino. rewrite to_ssize_t_small by (unfold len; simpl; lia).
      repeat split; try done; eauto. }
  assert (Hne : buffer <> []) by (intros ->; simpl in *; lia).
  destruct Hfree as [|Hfree]; [done|].
  rewrite Hsz. simpl.
  destruct (Pool.find_free (fs_data s)) as [m|] eqn:Hm; [|done].
  destruct (data_block_alloc_Some _ _ Hm) as (old & Hold & ->).
  destruct (Z.eqb_spec (Z.of_nat m) (-1)); [lia|]. simpl.
  unfold data_block_get. simpl.
  pose proof (find_free_lt _ _ Hm) as Hmlt.
  rewrite pool_get_insert_eq by done.
  pose proof (Hsized _ _ _ Hold) as Hol.
  unfold block_store. rewrite Z.add_0_l. simpl.
  destruct (Z.leb_spec len (Z.of_nat (length old))); [|lia].
  destruct (Z.leb_spec len (Z.of_nat (length buffer))); [|lia].
  simpl. rewrite Hadd', Hsz. rewrite to_ssize_t_small by lia.
  destruct (Z.ltb_spec 0 len); [|lia].
  eexists _, (set_i_size (set_i_data_block ino (Z.of_nat m)) len).
  split; [reflexivity|].
  split; [|split; [|split; [done|split; [done|split; [|split]]]]].
  - unfold get_open_file_entry, inode_put, open_file_put. simpl.
    rewrite (pool_get_put_eq _ _ _ _ Hfile). eauto.
  - by eapply inode_get_put_eq.
  - intros _. eexists. split.
    + unfold inode_put. simpl. eapply pool_get_put_eq.
      by apply pool_get_insert_eq.
    + unfold len. rewrite Nat2Z.id. rewrite (take_ge buffer) by lia.
      by rewrite take_app_length.
  - intros j Hj. by rewrite inode_get_put_ne.
  - done.
Qed.

(** Opening an existing file with no mode bit set. *)
Lemma tfs_open_plain (M fuel : nat) (s : FsState) (name : string) (n : Z)
    (ino : inode_t) :
  valid_pathname name = true ->
  is_Some (inode_get s ROOT_DIR_INUM) ->
  tfs_lookup s name ROOT_DIR_INUM = n -> 0 <= n ->
  inode_get s n = Some ino -> i_node_type ino = T_FILE ->
  is_Some (Pool.find_free (open_file_table s)) ->
  exists (h : Z) (s' : FsState),
    tfs_open M (S fuel) name 0 s = Done h s' /\ 0 <= h /\
    get_open_file_entry s' h = Some (mk_open_file n 0) /\
    inode_table s' = inode_table s /\ fs_data s' = fs_data s /\
    fs_params s' = fs_params s.
Proof.
  intros Hv [root Hroot] Hlook Hn Hino Hty [m Hm].
  simpl. rewrite Hv, Hroot, Hlook. simpl.
  destruct (Z.leb_spec 0 n); [|lia]. rewrite Hino.
  unfold is_sym_link. rewrite Hty.
  change (mode_has 0 TFS_O_TRUNC) with false.
  change (mode_has 0 TFS_O_APPEND) with false. simpl.
  unfold add_to_open_file_table. rewrite Hm.
  eexists _, _. split; [reflexivity|]. split; [lia|].
  split; [|done].
  apply pool_get_insert_eq. by eapply find_free_lt.
Qed.

(** Reading a whole file from offset 0. *)
Lemma tfs_read_whole (s : FsState) (h n : Z) (ino : inode_t)
    (content : list byte) :
  get_open_file_entry s h = Some (mk_open_file n 0) ->
  inode_get s n = Some ino ->
  i_size ino = Z.of_nat (length content) ->
  Z.of_nat (length content) <= state_block_size s ->
  state_block_size s < 2 ^ 63 ->
  (content <> [] ->
   exists block : list byte,
     data_block_get s (i_data_block ino) = Some block /\
     take (length content) block = content) ->
  exists s' : FsState,
    tfs_read h (state_block_size s) s
    = Done (Z.of_nat (length content), content) s'.
Proof.
  intros Hfile Hino Hsz Hlen Hbs Hblock.
  set (len := Z.of_nat (length content)) in *.
  unfold tfs_read. rewrite Hfile. cbn [of_inumber of_offset].
  rewrite Hino, Hsz.
  assert (Hsub : size_sub len 0 = len).
  { unfold size_sub, SIZE_MODULUS. rewrite Z.sub_0_r.
    apply Z.mod_small. lia. }
  rewrite Hsub. destruct (Z.ltb_spec (state_block_size s) len); [lia|].
  rewrite to_ssize_t_small by lia.
  destruct (Z.ltb_spec 0 len) as [Hpos|Hzero].
  2:{ assert (content = []) as ->
        by (destruct content; [done|simpl in *; lia]).
      by exists s. }
  assert (Hne : content <> []) by (intros ->; simpl in *; lia).
  destruct (Hblock Hne) as (block & Hb & Htake). rewrite Hb.
  assert (Hbl : len <= Z.of_nat (length block)).
  { pose proof (f_equal length Htake) as Hl. rewrite length_take in Hl.
    unfold len. lia. }
  rewrite (arena_load_inside (fs_data s) _ 0 len block content Hb);
    [eauto|lia|].
  unfold block_load. rewrite Z.add_0_l. simpl.
  destruct (Z.leb_spec len (Z.of_nat (length block))); [|lia].
  simpl. unfold len. rewrite Nat2Z.id. change (Z.to_nat 0) with 0%nat.
  by rewrite drop_0, Htake.
Qed.

Lemma find_in_dir_agree (s s' : FsState) (d : Z) (name : string) :
  inode_get s' d = inode_get s d -> root_dir s' = root_dir s ->
  find_in_dir s' d name = find_in_dir s d name.
Proof.
  intros Hd Hr. unfold find_in_dir.
  by rewrite (is_directory_agree _ _ _ Hd), Hr.
Qed.

(** ** Symbolic links at tfs_open *)

(** C7 (amended): on a path that resolves to a SYMLINK inode, tfs_open
    returns -1 when the link's target is the path itself, and otherwise
    is the same call on the target, with the same mode.  tfs_sym_link of
    a path to itself always returns -1 and makes no such link; when the
    path was absent, tfs_open of it afterwards returns -1 for every mode
    without CREAT. *)
Theorem C7_tfs_open_sym_link (M fuel : nat) (s : FsState) (name : string)
    (mode : Z) :
  valid_pathname name = true ->
  is_Some (inode_get s ROOT_DIR_INUM) ->
  (forall (inum : Z) (inode : inode_t),
     tfs_lookup s name ROOT_DIR_INUM = inum -> 0 <= inum ->
     inode_get s inum = Some inode ->
     i_node_type inode = T_SYM_LINK ->
     (i_target_d_name inode = name ->
      tfs_open M (S fuel) name mode s = Done (-1) s) /\
     (i_target_d_name inode <> name ->
      tfs_open M (S fuel) name mode s
      = tfs_open M fuel (i_target_d_name inode) mode s)) /\
  (forall (v : Z) (s' : FsState),
     tfs_sym_link M name name s = Done v s' -> v = -1) /\
  (tfs_lookup s name ROOT_DIR_INUM = -1 ->
   tfs_sym_link M name name s = Done (-1) s /\
   (mode_has mode TFS_O_CREAT = false ->
    tfs_open M (S fuel) name mode s = Done (-1) s)).
Proof.
  intros Hv Hroot. split; [|split].
  - intros inum inode Hlook Hpos Hino Hty.
    by apply (tfs_open_sym_link M fuel s name mode inum inode).
  - intros v s'. apply tfs_sym_link_self.
  - intros Hlook. destruct Hroot as [root Hroot]. split.
    + unfold tfs_sym_link. by rewrite Hv, Hroot, Hlook.
    + intros Hmode. simpl. by rewrite Hv, Hroot, Hlook, Hmode.
Qed.

(** ** tfs_read *)

(** Inside the file, tfs_read returns [min(len, size - offset)] bytes of
    the block from the offset on, and moves the offset by that count. *)
Lemma tfs_read_within (s : FsState) (fhandle len : Z)
    (file : open_file_entry_t) (inode : inode_t) (block : list byte) :
  get_open_file_entry s fhandle = Some file ->
  inode_get s (of_inumber file) = Some inode ->
  0 <= of_offset file <= i_size inode ->
  i_size inode <= Z.of_nat (length block) ->
  i_size inode < 2 ^ 63 ->
  0 <= len ->
  data_block_get s (i_data_block inode) = Some block ->
  let k := Z.min len (i_size inode - of_offset file) in
  exists s' : FsState,
    tfs_read fhandle len s
    = Done (k, take (Z.to_nat k) (drop (Z.to_nat (of_offset file)) block))
           s' /\
    (0 < k ->
     get_open_file_entry s' fhandle
     = Some (mk_open_file (of_inumber file) (of_offset file + k))) /\
    (k = 0 -> s' = s).
Proof.
  intros Hfile Hino Hoff Hsz Hsz63 Hlen Hblock k.
  assert (Hk : k = Z.min len (i_size inode - of_offset file)) by done.
  clearbody k.
  unfold tfs_read. rewrite Hfile, Hino.
  assert (Hsub : size_sub (i_size inode) (of_offset file)
                 = i_size inode - of_offset file).
  { unfold size_sub, SIZE_MODULUS. apply Z.mod_small. lia. }
  rewrite Hsub.
  assert (Hsel : (if len <? i_size inode - of_offset file then len
                  else i_size inode - of_offset file) = k).
  { destruct (Z.ltb_spec len (i_size inode - of_offset file)); lia. }
  rewrite Hsel. rewrite to_ssize_t_small by lia.
  destruct (Z.ltb_spec 0 k) as [Hpos|Hzero].
  - rewrite Hblock.
    rewrite (arena_load_inside (fs_data s) _ (of_offset file) k block
               (take (Z.to_nat k) (drop (Z.to_nat (of_offset file)) block))
               Hblock); [|lia|].
    2:{ unfold block_load.
        destruct (Z.leb_spec 0 (of_offset file)); [|lia].
        by destruct (Z.leb_spec (of_offset file + k)
                       (Z.of_nat (length block))); [|lia]. }
    eexists. split; [reflexivity|]. split; [|lia].
    intros _. unfold get_open_file_entry, open_file_put. simpl.
    rewrite (pool_get_put_eq _ _ _ _ Hfile). do 2 f_equal.
    unfold size_add, SIZE_MODULUS. apply Z.mod_small. lia.
  - assert (k = 0) as -> by lia. exists s. by repeat split.
Qed.

(** C3 (code bug): handle 0 of [fs_past_end] is at offset 2 of a file of
    size 1.  tfs_read of one byte through it returns 1 and a byte from
    beyond the end of the file, and moves the offset to 3; the count
    [min(1, 1 - 2)] of the claim leaves nothing to read. *)
Theorem C3_tfs_read_past_size :
  reachable 40 fs_past_end /\
  get_open_file_entry fs_past_end 0 = Some (mk_open_file 1 2) /\
  (exists inode : inode_t,
     inode_get fs_past_end 1 = Some inode /\ i_size inode = 1) /\
  Z.min 1 (1 - 2) = -1 /\
  size_sub 1 2 = 2 ^ 64 - 1 /\
  exists (b : byte) (s' : FsState),
    tfs_read 0 1 fs_past_end = Done (1, [b]) s' /\
    get_open_file_entry s' 0 = Some (mk_open_file 1 3).
Proof.
  split; [|split; [|split; [|split; [|split]]]].
  - apply (scenario_reachable
             [DoOpen "/f" TFS_O_CREAT; DoWrite 0 ["a"; "b"]%byte 2;
              DoOpen "/f" TFS_O_TRUNC; DoWrite 1 ["c"]%byte 1]).
    vm_compute. reflexivity.
  - vm_compute. reflexivity.
  - eexists. split; vm_compute; reflexivity.
  - reflexivity.
  - reflexivity.
  - do 2 eexists. split; vm_compute; reflexivity.
Qed.

(** ** Open files and tfs_unlink *)

(** C4 (code bug): tfs_unlink of a file that is open deletes its inode
    and leaves the open-file entry: in the reachable state
    [fs_unlinked_open], handle 0 holds inumber 1, whose inode is gone, and
    the assertion of tfs_write on it fails. *)
Theorem C4_unlink_leaves_dangling_handle :
  reachable 40 fs_f_open /\
  open_files_live fs_f_open /\
  tfs_unlink "/f" fs_f_open = Done 0 fs_unlinked_open /\
  reachable 40 fs_unlinked_open /\
  get_open_file_entry fs_unlinked_open 0 = Some (mk_open_file 1 0) /\
  inode_get fs_unlinked_open 1 = None /\
  ~ open_files_live fs_unlinked_open /\
  tfs_write 0 ["x"%byte] 1 fs_unlinked_open
  = AssertFail "tfs_write: inode of open file deleted".
Proof.
  assert (Hopen : reachable 40 fs_f_open).
  { apply (scenario_reachable [DoOpen "/f" TFS_O_CREAT]).
    vm_compute. reflexivity. }
  assert (Hunl : reachable 40 fs_unlinked_open).
  { apply (scenario_reachable [DoOpen "/f" TFS_O_CREAT; DoUnlink "/f"]).
    vm_compute. reflexivity. }
  repeat split; try done.
  - intros fhandle file Hf. apply pool_get_Some in Hf as [H0 Hf].
    destruct (Z.to_nat fhandle) as [|[|?]]; simpl in Hf; simplify_eq.
    vm_compute. eauto.
  - intros Hlive.
    destruct (Hlive 0 (mk_open_file 1 0) eq_refl) as [ino Hino].
    vm_compute in Hino. discriminate.
Qed.

(** ** The invariant of the data blocks *)

Lemma pool_free_lookup {A : Type} (p : pool A) (b : Z) (k : nat)
    (st : allocation_state) (a : A) :
  Pool.free p b !! k = Some (st, a) ->
  exists st0 : allocation_state, p !! k = Some (st0, a).
Proof.
  unfold Pool.free. destruct (b <? 0); [eauto|].
  destruct (p !! Z.to_nat b) as [[st0 a0]|] eqn:E; [|eauto].
  destruct (decide (k = Z.to_nat b)) as [->|Hne].
  - rewrite list_lookup_insert_eq by (by eapply lookup_lt_Some).
    intros [= <- <-]. eauto.
  - rewrite list_lookup_insert_ne by done. eauto.
Qed.

Lemma pool_put_keeps {A : Type} (p : pool A) (b x : Z) (a : A) :
  is_Some (Pool.get p x) -> is_Some (Pool.get (Pool.put p b a) x).
Proof.
  intros [c Hc]. destruct (decide (b = x)) as [->|Hne].
  - rewrite (pool_get_put_eq _ _ _ _ Hc). eauto.
  - rewrite pool_get_put_ne by done. eauto.
Qed.

Lemma BInv_ext (bs : Z) (data : pool (list byte))
    (m m' : Z -> option (inode_type * Z * Z)) :
  (forall i : Z, m' i = m i) -> BInv bs data m -> BInv bs data m'.
Proof.
  intros Hext [Hsized Howned Hun Hdir]. split.
  - done.
  - intros i ty sz b. rewrite Hext. apply Howned.
  - intros i j ty ty' sz sz' b. rewrite !Hext. apply Hun.
  - intros i sz b. rewrite Hext. apply Hdir.
Qed.

(** An inode is freed, or left empty; its block stays as it is. *)
Lemma BInv_set_empty (bs : Z) (data : pool (list byte))
    (m : Z -> option (inode_type * Z * Z)) (i : Z)
    (x : option (inode_type * Z * Z)) :
  (forall (ty : inode_type) (sz b : Z),
     x = Some (ty, sz, b) ->
     sz = 0 /\ (ty = T_DIRECTORY -> i = ROOT_DIR_INUM)) ->
  BInv bs data m -> BInv bs data (bmeta_set m i x).
Proof.
  intros Hx [Hsized Howned Hun Hdir]. split.
  - done.
  - intros j ty sz b. unfold bmeta_set.
    destruct (Z.eqb_spec j i) as [->|]; [|apply Howned].
    intros E Hsz. by destruct (Hx _ _ _ E).
  - intros j1 j2 ty ty' sz sz' b. unfold bmeta_set.
    destruct (Z.eqb_spec j1 i) as [->|].
    { intros E _ Hsz. by destruct (Hx _ _ _ E). }
    destruct (Z.eqb_spec j2 i) as [->|]; [|apply Hun].
    intros _ E _ Hsz. by destruct (Hx _ _ _ E).
  - intros j sz b. unfold bmeta_set.
    destruct (Z.eqb_spec j i) as [->|]; [|apply Hdir].
    intros E. destruct (Hx _ _ _ E) as [_ H]. by apply H.
Qed.

(** The block of an inode is freed, and the inode freed or left empty. *)
Lemma BInv_free_block (bs : Z) (data : pool (list byte))
    (m : Z -> option (inode_type * Z * Z)) (i : Z) (ty : inode_type)
    (sz b : Z) (x : option (inode_type * Z * Z)) :
  m i = Some (ty, sz, b) -> sz <> 0 ->
  (forall (ty' : inode_type) (sz' b' : Z),
     x = Some (ty', sz', b') ->
     sz' = 0 /\ (ty' = T_DIRECTORY -> i = ROOT_DIR_INUM)) ->
  BInv bs data m -> BInv bs (Pool.free data b) (bmeta_set m i x).
Proof.
  intros Hi Hsz Hx [Hsized Howned Hun Hdir]. split.
  - intros k st bytes [st0 Hk]%pool_free_lookup. by eapply Hsized.
  - intros j ty' sz' b'. unfold bmeta_set.
    destruct (Z.eqb_spec j i) as [->|Hne].
    { intros E Hsz'. by destruct (Hx _ _ _ E). }
    intros Hj Hsz'. destruct (decide (b = b')) as [<-|Hb].
    + destruct Hne. by eapply (Hun j i).
    + rewrite pool_get_free_ne by done. by eapply Howned.
  - intros j1 j2 ty1 ty2 sz1 sz2 b'. unfold bmeta_set.
    destruct (Z.eqb_spec j1 i) as [->|].
    { intros E _ Hsz'. by destruct (Hx _ _ _ E). }
    destruct (Z.eqb_spec j2 i) as [->|]; [|apply Hun].
    intros _ E _ Hsz'. by destruct (Hx _ _ _ E).
  - intros j sz' b'. unfold bmeta_set.
    destruct (Z.eqb_spec j i) as [->|]; [|apply Hdir].
    intros E. destruct (Hx _ _ _ E) as [_ H]. by apply H.
Qed.

(** Link count or target of an inode change. *)
Lemma BInv_same (bs : Z) (data : pool (list byte))
    (m : Z -> option (inode_type * Z * Z)) (i : Z)
    (x : inode_type * Z * Z) :
  m i = Some x -> BInv bs data m -> BInv bs data (bmeta_set m i (Some x)).
Proof.
  intros Hi. apply BInv_ext. intros j. unfold bmeta_set.
  by destruct (Z.eqb_spec j i) as [->|].
Qed.

(** Bytes are stored in the block an inode has. *)
Lemma BInv_store (bs : Z) (data : pool (list byte))
    (m : Z -> option (inode_type * Z * Z)) (i : Z) (ty : inode_type)
    (sz sz' b : Z) (old new : list byte) :
  m i = Some (ty, sz, b) -> sz <> 0 ->
  Pool.get data b = Some old -> length new = length old ->
  BInv bs data m ->
  BInv bs (Pool.put data b new) (bmeta_set m i (Some (ty, sz', b))).
Proof.
  intros Hi Hsz Hold Hlen [Hsized Howned Hun Hdir].
  apply pool_get_Some in Hold as Hold'. destruct Hold' as [Hb Hold'].
  split.
  - intros k st bytes. unfold Pool.put. destruct (Z.ltb_spec b 0); [lia|].
    destruct (decide (k = Z.to_nat b)) as [->|Hne].
    + rewrite list_lookup_insert_eq by (by eapply lookup_lt_Some).
      intros [= <- <-]. rewrite Hlen. by eapply Hsized.
    + rewrite list_lookup_insert_ne by done. apply Hsized.
  - intros j ty' sz1 b'. unfold bmeta_set.
    destruct (Z.eqb_spec j i) as [->|].
    + intros [= <- <- <-] _. rewrite (pool_get_put_eq _ _ _ _ Hold). eauto.
    + intros Hj Hsz1. apply pool_put_keeps. by eapply Howned.
  - intros j1 j2 ty1 ty2 sz1 sz2 b'. unfold bmeta_set.
    destruct (Z.eqb_spec j1 i) as [->|], (Z.eqb_spec j2 i) as [->|];
      try done.
    + intros [= <- <- <-] Hj _ Hsz2. symmetry. by eapply (Hun j2 i).
    + intros Hj [= <- <- <-] Hsz1 _. by eapply (Hun j1 i).
    + apply Hun.
  - intros j sz1 b'. unfold bmeta_set.
    destruct (Z.eqb_spec j i) as [->|]; [|apply Hdir].
    intros [= -> <- <-]. by eapply Hdir.
Qed.

(** A free block is taken by an empty inode and bytes are stored in it. *)
Lemma BInv_alloc_store (bs : Z) (data : pool (list byte))
    (m : Z -> option (inode_type * Z * Z)) (i : Z) (ty : inode_type)
    (sz' b0 : Z) (n : nat) (old new : list byte) :
  m i = Some (ty, 0, b0) ->
  data !! n = Some (FREE, old) -> length new = length old ->
  BInv bs data m ->
  BInv bs (Pool.put (<[n := (TAKEN, old)]> data) (Z.of_nat n) new)
       (bmeta_set m i (Some (ty, sz', Z.of_nat n))).
Proof.
  intros Hi Hold Hlen [Hsized Howned Hun Hdir].
  pose proof (lookup_lt_Some _ _ _ Hold) as Hlt.
  assert (Hfree : Pool.get data (Z.of_nat n) = None).
  { unfold Pool.get. destruct (Z.ltb_spec (Z.of_nat n) 0); [done|].
    by rewrite Nat2Z.id, Hold. }
  assert (Hput : Pool.put (<[n := (TAKEN, old)]> data) (Z.of_nat n) new
                 = <[n := (TAKEN, new)]> data).
  { unfold Pool.put. destruct (Z.ltb_spec (Z.of_nat n) 0); [lia|].
    by rewrite Nat2Z.id, list_insert_insert_eq. }
  rewrite Hput. split.
  - intros k st bytes. destruct (decide (k = n)) as [->|Hne].
    + rewrite list_lookup_insert_eq by done.
      intros [= <- <-]. rewrite Hlen. by eapply Hsized.
    + rewrite list_lookup_insert_ne by done. apply Hsized.
  - intros j ty' sz1 b'. unfold bmeta_set.
    destruct (Z.eqb_spec j i) as [->|].
    + intros [= <- <- <-] _. rewrite pool_get_insert_eq by done. eauto.
    + intros Hj Hsz1. destruct (Howned _ _ _ _ Hj Hsz1) as [c Hc].
      rewrite pool_get_insert_ne; [eauto|]. congruence.
  - assert (Hfresh : forall (j : Z) (ty' : inode_type) (sz1 : Z),
              m j = Some (ty', sz1, Z.of_nat n) -> sz1 <> 0 -> False).
    { intros j ty' sz1 Hj Hsz1.
      destruct (Howned _ _ _ _ Hj Hsz1) as [c Hc]. congruence. }
    intros j1 j2 ty1 ty2 sz1 sz2 b'. unfold bmeta_set.
    destruct (Z.eqb_spec j1 i) as [->|], (Z.eqb_spec j2 i) as [->|];
      try done.
    + intros [= <- <- <-] Hj _ Hsz2. by destruct (Hfresh _ _ _ Hj Hsz2).
    + intros Hj [= <- <- <-] Hsz1 _. by destruct (Hfresh _ _ _ Hj Hsz1).
    + apply Hun.
  - intros j sz1 b'. unfold bmeta_set.
    destruct (Z.eqb_spec j i) as [->|]; [|apply Hdir].
    intros [= -> <- <-]. by eapply Hdir.
Qed.

Lemma block_inv_by (s' : FsState) (bs : Z) (data : pool (list byte))
    (m : Z -> option (inode_type * Z * Z)) :
  state_block_size s' = bs -> fs_data s' = data ->
  (forall j : Z, bmeta s' j = m j) ->
  BInv bs data m -> block_inv s'.
Proof. intros <- <- Hm HB. unfold block_inv. by eapply BInv_ext. Qed.

Lemma block_inv_frame (s s' : FsState) :
  fs_params s' = fs_params s -> fs_data s' = fs_data s ->
  inode_table s' = inode_table s ->
  block_inv s -> block_inv s'.
Proof.
  intros Hp Hd Ht HB. unfold block_inv, state_block_size in *.
  rewrite Hp, Hd. eapply BInv_ext; [|exact HB].
  intros i. unfold bmeta, inode_get. by rewrite Ht.
Qed.

Lemma bmeta_put (s0 s : FsState) (i j : Z) (ino ino' : inode_t) :
  inode_table s0 = inode_table s ->
  inode_get s i = Some ino ->
  bmeta (inode_put s0 i ino') j
  = bmeta_set (bmeta s) i
      (Some (i_node_type ino', i_size ino', i_data_block ino')) j.
Proof.
  intros Ht Hi. unfold bmeta, bmeta_set, inode_get, inode_put. simpl.
  rewrite Ht. destruct (Z.eqb_spec j i) as [->|Hne].
  - by rewrite (pool_get_put_eq _ _ _ _ Hi).
  - by rewrite pool_get_put_ne.
Qed.

Lemma bmeta_create (s : FsState) (n : nat) (ty : inode_type) (j : Z) :
  Pool.find_free (inode_table s) = Some n ->
  bmeta (with_inode_table s
           (<[n := (TAKEN, mk_inode ty 0 (-1) 1 EmptyString)]>
              (inode_table s))) j
  = bmeta_set (bmeta s) (Z.of_nat n) (Some (ty, 0, -1)) j.
Proof.
  intros Hn. unfold bmeta, bmeta_set, inode_get. simpl.
  destruct (Z.eqb_spec j (Z.of_nat n)) as [->|Hne].
  - rewrite pool_get_insert_eq; [done|]. by eapply find_free_lt.
  - by rewrite pool_get_insert_ne.
Qed.

Lemma bmeta_delete (s : FsState) (i j : Z) :
  bmeta (inode_delete s i) j = bmeta_set (bmeta s) i None j.
Proof.
  unfold inode_delete, bmeta, bmeta_set.
  destruct (inode_get s i) as [ino|] eqn:Hi.
  - unfold inode_get in *.
    replace (inode_table (if owns_block ino
                          then data_block_free s (i_data_block ino) else s))
      with (inode_table s) by (by destruct (owns_block ino)).
    simpl. destruct (Z.eqb_spec j i) as [->|].
    + by rewrite pool_get_free_eq.
    + by rewrite pool_get_free_ne.
  - destruct (Z.eqb_spec j i) as [->|]; [by rewrite Hi|done].
Qed.

Lemma bmeta_get (s : FsState) (i : Z) (ino : inode_t) :
  inode_get s i = Some ino ->
  bmeta s i = Some (i_node_type ino, i_size ino, i_data_block ino).
Proof. intros H. unfold bmeta. by rewrite H. Qed.

Lemma tfs_close_block_inv (s s' : FsState) (fhandle v : Z) :
  tfs_close fhandle s = Done v s' -> block_inv s -> block_inv s'.
Proof.
  unfold tfs_close. intros H.
  destruct (get_open_file_entry s fhandle); simplify_eq; [|done].
  by apply block_inv_frame.
Qed.

Lemma tfs_read_block_inv (s s' : FsState) (fhandle len : Z)
    (v : Z * list byte) :
  tfs_read fhandle len s = Done v s' -> block_inv s -> block_inv s'.
Proof.
  unfold tfs_read. intros H.
  repeat case_match; simplify_eq; try done; by apply block_inv_frame.
Qed.

Lemma block_inv_put (s0 s : FsState) (i : Z) (ino ino' : inode_t) :
  inode_table s0 = inode_table s -> fs_params s0 = fs_params s ->
  inode_get s i = Some ino ->
  BInv (state_block_size s) (fs_data s0)
       (bmeta_set (bmeta s) i
          (Some (i_node_type ino', i_size ino', i_data_block ino'))) ->
  block_inv (inode_put s0 i ino').
Proof.
  intros Ht Hp Hi HB.
  eapply block_inv_by; [|reflexivity|intros j; by eapply bmeta_put|].
  - unfold state_block_size. simpl. by rewrite Hp.
  - done.
Qed.

Lemma tfs_write_block_inv (s s' : FsState) (fhandle to_write v : Z)
    (buffer : list byte) :
  tfs_write fhandle buffer to_write s = Done v s' ->
  block_inv s -> block_inv s'.
Proof.
  unfold tfs_write. intros H HB.
  destruct (get_open_file_entry s fhandle) as [file|];
    [|by simplify_eq].
  destruct (inode_get s (of_inumber file)) as [inode|] eqn:Hino; [|done].
  pose proof (bmeta_get _ _ _ Hino) as Hm.
  set (tw := if state_block_size s <? size_add to_write (of_offset file)
             then size_sub (state_block_size s) (of_offset file)
             else to_write) in *.
  clearbody tw.
  destruct (Z.ltb_spec 0 tw) as [Hpos|]; [|by simplify_eq].
  destruct (Z.eqb_spec (i_size inode) 0) as [Hsz|Hsz].
  - destruct (Pool.find_free (fs_data s)) as [n|] eqn:Hn.
    2:{ rewrite (data_block_alloc_None _ Hn) in H. simpl in H.
        by simplify_eq. }
    destruct (data_block_alloc_Some _ _ Hn) as (old & Hold & Halloc).
    rewrite Halloc in H.
    destruct (Z.eqb_spec (Z.of_nat n) (-1)); [lia|].
    unfold data_block_get in H. simpl in H.
    rewrite pool_get_insert_eq in H by (by eapply lookup_lt_Some).
    destruct (block_store old _ buffer _) as [new|] eqn:Hst; [|done].
    eapply block_store_spec in Hst as (_ & Hlen & _); [|lia].
    injection H as <- <-.
    eapply (block_inv_put _ s); [done|done|exact Hino|]. simpl.
    rewrite Hsz in Hm.
    destruct (_ <? _); simpl; by eapply BInv_alloc_store.
  - destruct (data_block_get s (i_data_block inode)) as [old|] eqn:Hold;
      [|done].
    destruct (block_store old _ buffer _) as [new|] eqn:Hst; [|done].
    eapply block_store_spec in Hst as (_ & Hlen & _); [|lia].
    injection H as <- <-.
    eapply (block_inv_put _ s); [done|done|exact Hino|]. simpl.
    destruct (_ <? _); simpl; by eapply BInv_store.
Qed.

Lemma block_inv_created (s s' : FsState) (n : nat) (ty : inode_type)
    (x : option (inode_type * Z * Z)) :
  Pool.find_free (inode_table s) = Some n ->
  fs_params s' = fs_params s -> fs_data s' = fs_data s ->
  (forall j : Z, bmeta s' j = bmeta_set (bmeta s) (Z.of_nat n) x j) ->
  (forall (ty : inode_type) (sz b : Z),
     x = Some (ty, sz, b) -> sz = 0 /\ ty <> T_DIRECTORY) ->
  block_inv s -> block_inv s'.
Proof.
  intros Hn Hp Hd Hm Hx HB.
  eapply block_inv_by; [|exact Hd|exact Hm|].
  - unfold state_block_size. by rewrite Hp.
  - apply BInv_set_empty; [|done].
    intros ty' sz b E. destruct (Hx _ _ _ E) as [-> Hty]. by split.
Qed.

Lemma tfs_open_block_inv (M fuel : nat) (s s' : FsState) (name : string)
    (mode v : Z) :
  tfs_open M fuel name mode s = Done v s' -> block_inv s -> block_inv s'.
Proof.
  revert name. induction fuel as [|fuel IH]; intros name H HB; [done|].
  simpl in H.
  destruct (valid_pathname name); simpl in H; [|by simplify_eq].
  destruct (inode_get s ROOT_DIR_INUM) as [root|] eqn:Hroot; [|done].
  destruct (0 <=? tfs_lookup s name ROOT_DIR_INUM).
  - set (inum := tfs_lookup s name ROOT_DIR_INUM) in *. clearbody inum.
    destruct (inode_get s inum) as [inode|] eqn:Hino; [|done].
    destruct (is_sym_link inode).
    { destruct (String.eqb _ _); [by simplify_eq|]. by eapply IH. }
    set (truncate := mode_has mode TFS_O_TRUNC && (0 <? i_size inode)) in *.
    match type of H with
    | (let (_, _) := add_to_open_file_table ?s1 ?i ?o in _) = _ =>
        destruct (add_to_open_file_table s1 i o) as [h s2] eqn:Hadd
    end.
    injection H as <- <-.
    destruct (add_to_open_file_table_frame _ _ _ _ _ Hadd) as (Ht & _ & Hd).
    assert (Hp : fs_params s2 = fs_params
                   (if truncate
                    then inode_put (data_block_free s (i_data_block inode))
                           inum (if truncate then set_i_size inode 0
                                 else inode)
                    else s)).
    { unfold add_to_open_file_table in Hadd.
      repeat case_match; by simplify_eq. }
    eapply block_inv_frame; [exact Hp|exact Hd|exact Ht|].
    destruct truncate eqn:Htr; [|done].
    apply andb_true_iff in Htr as [_ Hpos%Z.ltb_lt].
    eapply (block_inv_put _ s); [done|done|exact Hino|]. simpl.
    eapply BInv_free_block; [by apply bmeta_get|lia| |done].
    intros ty' sz' b' [= <- <- <-]. split; [done|].
    intros Hty. eapply (BInv_one_dir _ _ _ HB inum).
    rewrite (bmeta_get _ _ _ Hino), Hty. reflexivity.
  - destruct (mode_has mode TFS_O_CREAT); [|by simplify_eq].
    destruct (Pool.find_free (inode_table s)) as [n|] eqn:Hn.
    2:{ rewrite (inode_create_full _ _ Hn) in H. simpl in H.
        by simplify_eq. }
    rewrite (inode_create_plain s T_FILE n) in H by done.
    destruct (Z.eqb_spec (Z.of_nat n) (-1)); [lia|].
    match type of H with
    | (let (_, _) := add_dir_entry _ ?s1 _ _ _ in _) = _ =>
        destruct (add_dir_entry M s1 ROOT_DIR_INUM (skip_first name)
                    (Z.of_nat n)) as [r s2] eqn:Hadd
    end.
    destruct (add_dir_entry_inode_table _ _ _ _ _ _ _ Hadd)
      as (Ht & Hd & _ & Hp).
    destruct (add_dir_entry_cases _ _ _ _ _ _ _ Hadd)
      as [[-> ->]|(-> & _)]; simpl in H.
    + injection H as <- <-.
      eapply (block_inv_created s _ n T_FILE None); try done.
      * unfold inode_delete, inode_get. simpl.
        by rewrite pool_get_insert_eq by (by eapply find_free_lt).
      * unfold inode_delete, inode_get. simpl.
        by rewrite pool_get_insert_eq by (by eapply find_free_lt).
      * intros j. rewrite bmeta_delete. unfold bmeta_set at 1 2.
        destruct (Z.eqb_spec j (Z.of_nat n)) as [|Hj]; [done|].
        rewrite (bmeta_create s n T_FILE) by done. unfold bmeta_set.
        by destruct (Z.eqb_spec j (Z.of_nat n)).
    + match type of H with
      | (let (_, _) := add_to_open_file_table ?s2 _ _ in _) = _ =>
          destruct (add_to_open_file_table s2 (Z.of_nat n) 0)
            as [h s3] eqn:Hopen
      end.
      injection H as <- <-.
      destruct (add_to_open_file_table_frame _ _ _ _ _ Hopen)
        as (Ht3 & _ & Hd3).
      assert (Hp3 : fs_params s3 = fs_params s2).
      { unfold add_to_open_file_table in Hopen.
        repeat case_match; by simplify_eq. }
      eapply (block_inv_created s _ n T_FILE (Some (T_FILE, 0, -1)));
        try done.
      * by rewrite Hp3, Hp.
      * by rewrite Hd3, Hd.
      * intros j. rewrite <- (bmeta_create s n T_FILE) by done.
        unfold bmeta, inode_get. by rewrite Ht3, Ht.
      * by intros ty sz b [= <- <- <-].
Qed.

Lemma tfs_sym_link_block_inv (M : nat) (s s' : FsState)
    (target link_name : string) (v : Z) :
  tfs_sym_link M target link_name s = Done v s' ->
  block_inv s -> block_inv s'.
Proof.
  unfold tfs_sym_link. intros H HB.
  destruct (negb (valid_pathname link_name) || negb (valid_pathname target));
    [by simplify_eq|].
  destruct (inode_get s ROOT_DIR_INUM) as [root|] eqn:Hroot; [|done].
  destruct (Z.eqb_spec (tfs_lookup s target ROOT_DIR_INUM) (-1)) as [|Hl];
    [by simplify_eq|].
  destruct (Pool.find_free (inode_table s)) as [n|] eqn:Hn.
  2:{ rewrite (inode_create_full _ _ Hn) in H. simpl in H.
      by simplify_eq. }
  rewrite (inode_create_plain s T_SYM_LINK n) in H by done.
  destruct (Z.eqb_spec (Z.of_nat n) (-1)) as [|Hn1]; [lia|].
  set (s1 := with_inode_table s
       (<[n := (TAKEN, mk_inode T_SYM_LINK 0 (-1) 1 EmptyString)]>
          (inode_table s))) in *.
  assert (H1 : inode_get s1 (Z.of_nat n)
               = Some (mk_inode T_SYM_LINK 0 (-1) 1 EmptyString)).
  { apply pool_get_insert_eq. by eapply find_free_lt. }
  rewrite H1 in H.
  set (s2 := inode_put s1 (Z.of_nat n)
               (set_i_target_d_name
                  (mk_inode T_SYM_LINK 0 (-1) 1 EmptyString) target)) in *.
  destruct (inode_get s2 ROOT_DIR_INUM); [|done].
  destruct (add_dir_entry M s2 ROOT_DIR_INUM (skip_first link_name)
              (Z.of_nat n)) as [r s3] eqn:Hadd.
  destruct (add_dir_entry_inode_table _ _ _ _ _ _ _ Hadd)
    as (Ht & Hd & _ & Hp).
  assert (s' = s3) as -> by (destruct (r =? -1); by simplify_eq).
  eapply (block_inv_created s _ n T_SYM_LINK (Some (T_SYM_LINK, 0, -1)));
    try done.
  - intros j. unfold bmeta at 1, inode_get. rewrite Ht.
    change (bmeta s2 j
            = bmeta_set (bmeta s) (Z.of_nat n) (Some (T_SYM_LINK, 0, -1)) j).
    unfold s2. rewrite (bmeta_put s1 s1 _ j _ _ eq_refl H1). simpl.
    unfold bmeta_set at 1. destruct (Z.eqb_spec j (Z.of_nat n)) as [->|Hj].
    + unfold bmeta_set. by rewrite Z.eqb_refl.
    + by apply bmeta_create.
  - by intros ty sz b [= <- <- <-].
Qed.

Lemma tfs_link_block_inv (M : nat) (s s' : FsState)
    (target link_name : string) (v : Z) :
  tfs_link M target link_name s = Done v s' -> block_inv s -> block_inv s'.
Proof.
  unfold tfs_link. intros H HB.
  destruct (negb (valid_pathname target) || negb (valid_pathname link_name));
    [by simplify_eq|].
  destruct (inode_get s ROOT_DIR_INUM) as [root|] eqn:Hroot; [|done].
  destruct (Z.eqb_spec (tfs_lookup s target ROOT_DIR_INUM) (-1)) as [|Hl];
    [by simplify_eq|].
  set (inum := tfs_lookup s target ROOT_DIR_INUM) in *. clearbody inum.
  destruct (inode_get s inum) as [itarget|] eqn:Hit; [|by simplify_eq].
  destruct (is_sym_link itarget); [by simplify_eq|].
  destruct (add_dir_entry M s ROOT_DIR_INUM (skip_first link_name) inum)
    as [r s1] eqn:Hadd.
  destruct (add_dir_entry_inode_table _ _ _ _ _ _ _ Hadd)
    as (Ht & Hd & _ & Hp).
  destruct (add_dir_entry_cases _ _ _ _ _ _ _ Hadd)
    as [[-> ->]|(-> & _)]; simpl in H; injection H as <- <-; [done|].
  eapply (block_inv_put _ s); [done|done|exact Hit|].
  rewrite Hd. simpl. apply BInv_same; [by apply bmeta_get|done].
Qed.

Lemma tfs_unlink_block_inv (s s' : FsState) (target : string) (v : Z) :
  tfs_unlink target s = Done v s' ->
  fs_inv s -> block_inv s -> block_inv s'.
Proof.
  intros H HI HB.
  destruct (decide (tfs_lookup s target ROOT_DIR_INUM = -1)) as [Hl|Hl].
  { unfold tfs_unlink in H. rewrite Hl in H. repeat case_match;
      by simplify_eq. }
  destruct (inode_get s (tfs_lookup s target ROOT_DIR_INUM))
    as [ino|] eqn:Hit.
  2:{ unfold tfs_unlink in H. rewrite Hit in H. repeat case_match;
        by simplify_eq. }
  destruct (tfs_unlink_run s target _ ino HI eq_refl Hl Hit)
    as (k & e & _ & Hir & Hrun).
  rewrite Hrun in H. injection H as <- <-.
  set (inum := tfs_lookup s target ROOT_DIR_INUM) in *. clearbody inum.
  pose proof (bmeta_get _ _ _ Hit) as Hm.
  destruct (i_links ino - 1 <=? 0).
  - eapply block_inv_by;
      [|reflexivity|intros j; apply (bmeta_delete s inum j)|].
    { unfold inode_delete. rewrite Hit. simpl.
      by destruct (owns_block ino). }
    simpl. unfold inode_delete. rewrite Hit. simpl.
    destruct (owns_block ino) eqn:Hown; simpl.
    + unfold owns_block in Hown.
      destruct (i_node_type ino) eqn:Hty; [| |done].
      * apply Z.ltb_lt in Hown.
        eapply BInv_free_block; [exact Hm|lia|done|done].
      * destruct Hir. eapply (BInv_one_dir _ _ _ HB). exact Hm.
    + by apply BInv_set_empty.
  - change (block_inv
              (with_root_dir
                 (inode_put s inum (set_i_links ino (i_links ino - 1)))
                 (<[k := free_dir_entry]> (root_dir s)))).
    eapply block_inv_frame;
      [| |
       |eapply (block_inv_put s s inum ino
                  (set_i_links ino (i_links ino - 1)));
        [done|done|exact Hit|]]; try done.
    simpl. by apply BInv_same.
Qed.

Lemma tfs_init_block_inv (params_ptr : option tfs_params) (s : FsState) :
  tfs_init params_ptr = Done 0 s -> block_inv s.
Proof.
  unfold tfs_init. intros H.
  set (params := match params_ptr with
                 | Some params => params
                 | None => tfs_default_params
                 end) in *.
  clearbody params. unfold inode_create in H.
  destruct (Pool.find_free (inode_table (state_init params)))
    as [n|] eqn:Hn; [|by simplify_eq].
  destruct (Pool.find_free (fs_data (state_init params)))
    as [m|] eqn:Hm.
  2:{ rewrite (data_block_alloc_None _ Hm) in H. by simplify_eq. }
  destruct (data_block_alloc_Some _ _ Hm) as (zeros & Hz & Halloc).
  rewrite Halloc in H.
  destruct (Z.of_nat m =? -1); [by simplify_eq|].
  destruct (Z.eqb_spec (Z.of_nat n) ROOT_DIR_INUM) as [Hn0|];
    [|by simplify_eq].
  injection H as <-.
  assert (n = 0%nat) as -> by (unfold ROOT_DIR_INUM in Hn0; lia).
  pose proof (find_free_lt _ _ Hn) as Hlt.
  eapply (block_inv_by _ _ _
            (fun j => if j =? ROOT_DIR_INUM
                      then Some (T_DIRECTORY, 0, Z.of_nat m) else None));
    [reflexivity|reflexivity| |].
  - intros j. unfold bmeta, inode_get. simpl.
    destruct (Z.eqb_spec j ROOT_DIR_INUM) as [->|Hj].
    + change ROOT_DIR_INUM with (Z.of_nat 0).
      by rewrite pool_get_insert_eq.
    + rewrite pool_get_insert_ne by (unfold ROOT_DIR_INUM in Hj; lia).
      by rewrite pool_get_replicate_free.
  - split.
    + intros k st bytes Hk. simpl in Hk.
      assert (Hrep : forall (st' : allocation_state) (bytes' : list byte),
                replicate (Z.to_nat (max_block_count params))
                  (FREE, replicate (Z.to_nat (block_size params)) x00%byte)
                !! k = Some (st', bytes') ->
                length bytes' = Z.to_nat (block_size params)).
      { intros st' bytes' [[= -> ->] _]%lookup_replicate.
        apply length_replicate. }
      destruct (decide (k = m)) as [->|Hne].
      * rewrite list_lookup_insert_eq in Hk by (by eapply lookup_lt_Some).
        injection Hk as <- <-. by eapply Hrep.
      * rewrite list_lookup_insert_ne in Hk by done. by eapply Hrep.
    + intros i ty sz b. destruct (i =? ROOT_DIR_INUM); [|done].
      by intros [= <- <- <-].
    + intros i j ty ty' sz sz' b. destruct (i =? ROOT_DIR_INUM); [|done].
      by intros [= <- <- <-].
    + intros i sz b. by destruct (Z.eqb_spec i ROOT_DIR_INUM).
Qed.

(** Every reachable state satisfies the invariant of the data blocks. *)
Lemma reachable_block_inv (M : nat) (s : FsState) :
  reachable M s -> block_inv s.
Proof.
  induction 1 as [params_ptr s Hinit|s s' fuel c v Hs IH Hrun].
  - by eapply tfs_init_block_inv.
  - destruct c; simpl in Hrun.
    + by eapply tfs_open_block_inv.
    + by eapply tfs_close_block_inv.
    + destruct (tfs_read fhandle len s) as [[n bytes] s1| | |] eqn:Hr;
        try done.
      injection Hrun as <- <-. by eapply tfs_read_block_inv.
    + by eapply tfs_write_block_inv.
    + by eapply tfs_link_block_inv.
    + by eapply tfs_sym_link_block_inv.
    + eapply tfs_unlink_block_inv; [done| |done]. by eapply reachable_inv.
Qed.

(** In a reachable state every block has [block_size] bytes, and a file
    that is not empty has its data block. *)
Lemma reachable_well_formed (M : nat) (s : FsState) :
  reachable M s ->
  blocks_sized s /\
  forall (i : Z) (ino : inode_t),
    inode_get s i = Some ino -> i_size ino <> 0 ->
    is_Some (data_block_get s (i_data_block ino)).
Proof.
  intros [Hsized Howned _ _]%reachable_block_inv. split.
  - exact Hsized.
  - intros i ino Hi Hsz. eapply Howned; [|done]. by apply bmeta_get.
Qed.

(** ** The round trip and the count of tfs_write *)

(** C1 (amended): starting from a reachable state with no entry for the
    path, where tfs_open with CREAT|TRUNC succeeds, and where a data block
    is free unless [B] is empty: writing [B] (at most a block long),
    closing, opening again and reading up to a block returns exactly the
    bytes of [B]. *)
Theorem C1_round_trip (M fuel : nat) (s s1 : FsState) (name : string)
    (h : Z) (B : list byte) :
  reachable M s ->
  tfs_lookup s name ROOT_DIR_INUM = -1 ->
  Z.of_nat (length B) <= state_block_size s ->
  state_block_size s < 2 ^ 63 ->
  tfs_open M fuel name (Z.lor TFS_O_CREAT TFS_O_TRUNC) s = Done h s1 ->
  0 <= h ->
  (B = [] \/ Pool.find_free (fs_data s) <> None) ->
  exists (s2 s3 s4 s5 : FsState) (h' : Z),
    tfs_write h B (Z.of_nat (length B)) s1
    = Done (Z.of_nat (length B)) s2 /\
    tfs_close h s2 = Done 0 s3 /\
    tfs_open M fuel name 0 s3 = Done h' s4 /\ 0 <= h' /\
    tfs_read h' (state_block_size s) s4
    = Done (Z.of_nat (length B), B) s5.
Proof.
  intros Hreach Hlook Hlen Hbs Hopen Hh Hfree.
  destruct (reachable_well_formed M s Hreach) as [Hsized _].
  destruct (tfs_open_created M fuel s s1 name _ h Hlook Hopen Hh)
    as (n & Hv & Hrn & Hfile & Hino & Hlook1 & Hroot1 & Hdata & Hpar).
  assert (Hbs1 : state_block_size s1 = state_block_size s)
    by (unfold state_block_size; by rewrite Hpar).
  destruct (tfs_write_fresh s1 h n _ B Hfile Hino eq_refl)
    as (s2 & ino2 & Hwrite & Hfile2 & Hino2 & Hty2 & Hsz2 & Hblock2
        & Hother2 & Hdir2 & Hpar2).
  { by rewrite Hbs1. }
  { by rewrite Hbs1. }
  { intros i st bytes. rewrite Hdata, Hbs1. apply Hsized. }
  { by rewrite Hdata. }
  exists s2, (remove_from_open_file_table s2 h).
  assert (Hclose : tfs_close h s2
                   = Done 0 (remove_from_open_file_table s2 h)).
  { unfold tfs_close. by destruct Hfile2 as [f ->]. }
  set (s3 := remove_from_open_file_table s2 h) in *.
  apply pool_get_Some in Hino as Hn0. destruct Hn0 as [Hn0 _].
  destruct fuel as [|fuel]; [done|].
  destruct (tfs_open_plain M fuel s3 name n ino2) as
    (h' & s4 & Hopen2 & Hh' & Hfile4 & Ht4 & Hd4 & Hp4); try done.
  { change (inode_get s3 ROOT_DIR_INUM) with (inode_get s2 ROOT_DIR_INUM).
    by rewrite Hother2. }
  { rewrite <- Hlook1. unfold tfs_lookup. rewrite Hv. simpl.
    apply find_in_dir_agree; [|done].
    change (inode_get s3 ROOT_DIR_INUM) with (inode_get s2 ROOT_DIR_INUM).
    by apply Hother2. }
  { by apply find_free_after_free. }
  assert (Hbs4 : state_block_size s4 = state_block_size s).
  { unfold state_block_size in *. rewrite Hp4. simpl. by rewrite Hpar2. }
  destruct (tfs_read_whole s4 h' n ino2 B) as [s5 Hread]; try done.
  { unfold inode_get. by rewrite Ht4. }
  { by rewrite Hbs4. }
  { by rewrite Hbs4. }
  { intros Hne. destruct (Hblock2 Hne) as (block & Hb & Htake).
    exists block. split; [|done]. unfold data_block_get. by rewrite Hd4. }
  exists s4, s5, h'. rewrite Hbs4 in Hread. done.
Qed.


(* ================================================================== *)
(** * Further properties of the facade *)

(** ** Sizes stay inside the block *)

Lemma pool_get_put_inv {A : Type} (p : pool A) (i j : Z) (a x : A) :
  Pool.get (Pool.put p i a) j = Some x -> x = a \/ Pool.get p j = Some x.
Proof.
  destruct (decide (i = j)) as [->|Hne].
  - unfold Pool.put, Pool.get. destruct (j <? 0); [done|].
    destruct (decide (Z.to_nat j < length p)%nat) as [Hlt|Hge].
    + rewrite list_lookup_insert_eq by done. intros [= ->]. by left.
    + rewrite list_insert_ge by lia. by right.
  - rewrite pool_get_put_ne by done. by right.
Qed.

Lemma pool_get_insert_inv {A : Type} (p : pool A) (n : nat) (j : Z)
    (st : allocation_state) (a x : A) :
  Pool.get (<[n := (st, a)]> p) j = Some x -> x = a \/ Pool.get p j = Some x.
Proof.
  destruct (decide (j = Z.of_nat n)) as [->|Hne].
  - unfold Pool.get. destruct (Z.of_nat n <? 0); [done|].
    rewrite Nat2Z.id.
    destruct (decide (n < length p)%nat) as [Hlt|Hge].
    + rewrite list_lookup_insert_eq by done. destruct st; [done|].
      intros [= ->]. by left.
    + rewrite list_insert_ge by lia. by right.
  - rewrite pool_get_insert_ne by done. by right.
Qed.

Lemma pool_get_free_inv {A : Type} (p : pool A) (i j : Z) (x : A) :
  Pool.get (Pool.free p i) j = Some x -> Pool.get p j = Some x.
Proof.
  destruct (decide (i = j)) as [->|Hne].
  - by rewrite pool_get_free_eq.
  - by rewrite pool_get_free_ne.
Qed.

Lemma size_add_bound (a b top : Z) :
  0 <= a -> 0 <= b -> a + b <= top -> 0 <= size_add a b <= top.
Proof.
  intros Ha Hb Hab. unfold size_add, SIZE_MODULUS.
  pose proof (Z.mod_pos_bound (a + b) (2 ^ 64) ltac:(lia)).
  pose proof (Z.mod_le (a + b) (2 ^ 64) ltac:(lia) ltac:(lia)). lia.
Qed.

Lemma tfs_close_bounded (s s' : FsState) (fhandle v : Z) :
  tfs_close fhandle s = Done v s' -> sizes_bounded s -> sizes_bounded s'.
Proof.
  unfold tfs_close. intros H [Hs Ho].
  destruct (get_open_file_entry s fhandle); simplify_eq; [|done].
  split; [exact Hs|].
  intros h file Hh. eapply Ho. eapply pool_get_free_inv. exact Hh.
Qed.

Lemma tfs_read_bounded (s s' : FsState) (fhandle len : Z)
    (v : Z * list byte) :
  tfs_read fhandle len s = Done v s' ->
  blocks_sized s -> sizes_bounded s -> sizes_bounded s'.
Proof.
  unfold tfs_read. intros H Hsized [Hs Ho].
  destruct (get_open_file_entry s fhandle) as [file|] eqn:Hfile;
    [|by simplify_eq].
  destruct (inode_get s (of_inumber file)) as [inode|]; [|done].
  set (to_read := if len <? size_sub (i_size inode) (of_offset file)
                  then len else size_sub (i_size inode) (of_offset file))
    in *.
  clearbody to_read.
  destruct (Z.ltb_spec 0 to_read) as [Hpos|]; [|by simplify_eq].
  destruct (data_block_get s (i_data_block inode)) as [block|] eqn:Hb;
    [|done].
  destruct (arena_load (fs_data s) (i_data_block inode) (of_offset file)
              to_read) as [bytes|]; [|done].
  injection H as <- <-. split; [exact Hs|].
  intros h f Hh. apply pool_get_put_inv in Hh as [->|Hh]; [|by eapply Ho].
  simpl. unfold size_add, SIZE_MODULUS. apply Z.mod_pos_bound. lia.
Qed.

Lemma tfs_write_bounded (s s' : FsState) (fhandle to_write v : Z)
    (buffer : list byte) :
  tfs_write fhandle buffer to_write s = Done v s' ->
  blocks_sized s -> sizes_bounded s -> sizes_bounded s'.
Proof.
  unfold tfs_write. intros H Hsized [Hs Ho].
  destruct (get_open_file_entry s fhandle) as [file|] eqn:Hfile;
    [|by simplify_eq].
  destruct (inode_get s (of_inumber file)) as [inode|] eqn:Hino; [|done].
  set (tw := if state_block_size s <? size_add to_write (of_offset file)
             then size_sub (state_block_size s) (of_offset file)
             else to_write) in *.
  clearbody tw.
  destruct (Z.ltb_spec 0 tw) as [Hpos|]; [|by simplify_eq].
  assert (Hstep : forall (s1 : FsState) (inode1 : inode_t) (block : list byte),
            fs_params s1 = fs_params s ->
            inode_table s1 = inode_table s ->
            open_file_table s1 = open_file_table s ->
            i_size inode1 = i_size inode ->
            length block = Z.to_nat (state_block_size s) ->
            match block_store block (of_offset file) buffer tw with
            | Some block1 =>
                Done (to_ssize_t tw)
                  (inode_put
                     (open_file_put
                        (with_fs_data s1
                           (Pool.put (fs_data s1) (i_data_block inode1)
                              block1))
                        fhandle
                        (mk_open_file (of_inumber file)
                           (size_add (of_offset file) tw)))
                     (of_inumber file)
                     (if i_size inode1 <? size_add (of_offset file) tw
                      then set_i_size inode1 (size_add (of_offset file) tw)
                      else inode1))
            | None => Undefined
            end = Done v s' ->
            sizes_bounded s').
  { intros s1 inode1 block Hp Ht Hot Hsz Hlen Hrun.
    unfold block_store in Hrun.
    destruct (Z.leb_spec 0 (of_offset file)); [|done].
    destruct (Z.leb_spec (of_offset file + tw) (Z.of_nat (length block)));
      [|done].
    destruct (tw <=? Z.of_nat (length buffer)); [|done].
    simpl in Hrun. injection Hrun as <- <-.
    assert (Hnew : 0 <= size_add (of_offset file) tw
                   <= Z.max 0 (state_block_size s))
      by (apply size_add_bound; lia).
    unfold sizes_bounded, state_block_size, inode_get, get_open_file_entry
      in *.
    simpl. rewrite Hp, Ht, Hot. split.
    - intros i ino Hi. apply pool_get_put_inv in Hi as [->|Hi];
        [|by eapply Hs].
      destruct (_ <? _); simpl; [done|]. rewrite Hsz. by eapply Hs.
    - intros h f Hh. apply pool_get_put_inv in Hh as [->|Hh];
        [simpl; lia|by eapply Ho]. }
  destruct (Z.eqb_spec (i_size inode) 0) as [Hsz|Hsz].
  - destruct (Pool.find_free (fs_data s)) as [n|] eqn:Hn.
    2:{ rewrite (data_block_alloc_None _ Hn) in H. simpl in H.
        by simplify_eq. }
    destruct (data_block_alloc_Some _ _ Hn) as (old & Hold & Halloc).
    rewrite Halloc in H.
    destruct (Z.eqb_spec (Z.of_nat n) (-1)); [lia|].
    unfold data_block_get in H. cbn [fs_data with_fs_data] in H.
    rewrite pool_get_insert_eq in H by (by eapply lookup_lt_Some).
    eapply (Hstep _ _ old); [..|exact H]; try done.
    by eapply Hsized.
  - destruct (data_block_get s (i_data_block inode)) as [old|] eqn:Hold;
      [|done].
    apply pool_get_Some in Hold as [_ Hold].
    eapply (Hstep s inode old); [..|exact H]; try done.
    by eapply Hsized.
Qed.

Lemma add_to_open_file_table_bounded (s s' : FsState) (inum offset h : Z) :
  add_to_open_file_table s inum offset = (h, s') ->
  0 <= offset <= Z.max 0 (state_block_size s) ->
  sizes_bounded s -> sizes_bounded s'.
Proof.
  unfold add_to_open_file_table. intros H Hoff [Hs Ho].
  destruct (Pool.find_free (open_file_table s)); simplify_eq; [|done].
  split; [exact Hs|].
  intros h f Hh. apply pool_get_insert_inv in Hh as [->|Hh];
    [simpl; lia|by eapply Ho].
Qed.

Lemma sizes_bounded_frame (s s' : FsState) :
  fs_params s' = fs_params s -> inode_table s' = inode_table s ->
  open_file_table s' = open_file_table s ->
  sizes_bounded s -> sizes_bounded s'.
Proof.
  intros Hp Ht Ho.
  unfold sizes_bounded, state_block_size, inode_get, get_open_file_entry.
  by rewrite Hp, Ht, Ho.
Qed.

(** Creating an inode that is not a directory. *)
Lemma sizes_bounded_create (s : FsState) (n : nat) (ty : inode_type) :
  sizes_bounded s ->
  sizes_bounded
    (with_inode_table s
       (<[n := (TAKEN, mk_inode ty 0 (-1) 1 EmptyString)]> (inode_table s))).
Proof.
  intros [Hs Ho]. split; [|exact Ho].
  intros i ino Hi. apply pool_get_insert_inv in Hi as [->|Hi];
    [simpl; lia|by eapply Hs].
Qed.

Lemma sizes_bounded_put (s : FsState) (i : Z) (ino : inode_t) :
  0 <= i_size ino <= Z.max 0 (state_block_size s) ->
  sizes_bounded s -> sizes_bounded (inode_put s i ino).
Proof.
  intros Hsz [Hs Ho]. split; [|exact Ho].
  intros j ino' Hj. apply pool_get_put_inv in Hj as [->|Hj];
    [done|by eapply Hs].
Qed.

Lemma sizes_bounded_delete (s : FsState) (i : Z) :
  sizes_bounded s -> sizes_bounded (inode_delete s i).
Proof.
  intros [Hs Ho]. unfold inode_delete.
  destruct (inode_get s i) as [ino|]; [|done].
  assert (Hs1 : forall s1 : FsState,
            s1 = (if owns_block ino
                  then data_block_free s (i_data_block ino) else s) ->
            inode_table s1 = inode_table s /\
            open_file_table s1 = open_file_table s /\
            fs_params s1 = fs_params s)
    by (intros s1 ->; by destruct (owns_block ino)).
  destruct (Hs1 _ eq_refl) as (Ht & Hot & Hp).
  unfold sizes_bounded, state_block_size, inode_get, get_open_file_entry
    in *.
  simpl. rewrite Ht, Hot, Hp. split; [|exact Ho].
  intros j ino' Hj. apply pool_get_free_inv in Hj. by eapply Hs.
Qed.

Lemma tfs_open_bounded (M fuel : nat) (s s' : FsState) (name : string)
    (mode v : Z) :
  tfs_open M fuel name mode s = Done v s' ->
  sizes_bounded s -> sizes_bounded s'.
Proof.
  revert name. induction fuel as [|fuel IH]; intros name H HB; [done|].
  simpl in H.
  destruct (valid_pathname name); simpl in H; [|by simplify_eq].
  destruct (inode_get s ROOT_DIR_INUM) as [root|] eqn:Hroot; [|done].
  destruct (0 <=? tfs_lookup s name ROOT_DIR_INUM).
  - set (inum := tfs_lookup s name ROOT_DIR_INUM) in *. clearbody inum.
    destruct (inode_get s inum) as [inode|] eqn:Hino; [|done].
    destruct (is_sym_link inode).
    { destruct (String.eqb _ _); [by simplify_eq|]. by eapply IH. }
    pose proof (proj1 HB _ _ Hino) as Hsz.
    match type of H with
    | (let (_, _) := add_to_open_file_table ?s1 ?i ?o in _) = _ =>
        destruct (add_to_open_file_table s1 i o) as [h s2] eqn:Hadd
    end.
    injection H as <- <-.
    eapply add_to_open_file_table_bounded; [exact Hadd| |].
    + destruct (mode_has mode TFS_O_TRUNC && (0 <? i_size inode));
        destruct (mode_has mode TFS_O_APPEND); simpl;
        unfold state_block_size in *; simpl; lia.
    + destruct (mode_has mode TFS_O_TRUNC && (0 <? i_size inode)); [|done].
      apply sizes_bounded_put; [simpl; lia|].
      by apply (sizes_bounded_frame s).
  - destruct (mode_has mode TFS_O_CREAT); [|by simplify_eq].
    destruct (Pool.find_free (inode_table s)) as [n|] eqn:Hn.
    2:{ rewrite (inode_create_full _ _ Hn) in H. simpl in H.
        by simplify_eq. }
    rewrite (inode_create_plain s T_FILE n) in H by done.
    destruct (Z.eqb_spec (Z.of_nat n) (-1)); [lia|].
    match type of H with
    | (let (_, _) := add_dir_entry _ ?s1 _ _ _ in _) = _ =>
        destruct (add_dir_entry M s1 ROOT_DIR_INUM (skip_first name)
                    (Z.of_nat n)) as [r s2] eqn:Hadd
    end.
    destruct (add_dir_entry_inode_table _ _ _ _ _ _ _ Hadd)
      as (Ht & Hd & Hot & Hp).
    assert (HB2 : sizes_bounded s2).
    { eapply sizes_bounded_frame; [exact Hp|exact Ht|exact Hot|].
      by apply sizes_bounded_create. }
    destruct (r =? -1).
    + injection H as <- <-. by apply sizes_bounded_delete.
    + destruct (add_to_open_file_table s2 (Z.of_nat n) 0)
        as [h s3] eqn:Hopen.
      injection H as <- <-.
      eapply add_to_open_file_table_bounded; [exact Hopen|lia|done].
Qed.

Lemma tfs_sym_link_bounded (M : nat) (s s' : FsState)
    (target link_name : string) (v : Z) :
  tfs_sym_link M target link_name s = Done v s' ->
  sizes_bounded s -> sizes_bounded s'.
Proof.
  unfold tfs_sym_link. intros H HB.
  destruct (negb (valid_pathname link_name) || negb (valid_pathname target));
    [by simplify_eq|].
  destruct (inode_get s ROOT_DIR_INUM) as [root|] eqn:Hroot; [|done].
  destruct (Z.eqb_spec (tfs_lookup s target ROOT_DIR_INUM) (-1)) as [|Hl];
    [by simplify_eq|].
  destruct (Pool.find_free (inode_table s)) as [n|] eqn:Hn.
  2:{ rewrite (inode_create_full _ _ Hn) in H. simpl in H.
      by simplify_eq. }
  rewrite (inode_create_plain s T_SYM_LINK n) in H by done.
  destruct (Z.eqb_spec (Z.of_nat n) (-1)) as [|Hn1]; [lia|].
  pose proof (sizes_bounded_create s n T_SYM_LINK HB) as HB1.
  set (s1 := with_inode_table s
       (<[n := (TAKEN, mk_inode T_SYM_LINK 0 (-1) 1 EmptyString)]>
          (inode_table s))) in *.
  destruct (inode_get s1 (Z.of_nat n)) as [i_link|] eqn:H1;
    [|by simplify_eq].
  pose proof (proj1 HB1 _ _ H1) as Hsz.
  set (s2 := inode_put s1 (Z.of_nat n) (set_i_target_d_name i_link target))
    in *.
  assert (HB2 : sizes_bounded s2) by (by apply sizes_bounded_put).
  destruct (inode_get s2 ROOT_DIR_INUM); [|done].
  destruct (add_dir_entry M s2 ROOT_DIR_INUM (skip_first link_name)
              (Z.of_nat n)) as [r s3] eqn:Hadd.
  destruct (add_dir_entry_inode_table _ _ _ _ _ _ _ Hadd)
    as (Ht & Hd & Hot & Hp).
  assert (s' = s3) as -> by (destruct (r =? -1); by simplify_eq).
  by eapply sizes_bounded_frame.
Qed.

Lemma tfs_link_bounded (M : nat) (s s' : FsState)
    (target link_name : string) (v : Z) :
  tfs_link M target link_name s = Done v s' ->
  sizes_bounded s -> sizes_bounded s'.
Proof.
  unfold tfs_link. intros H HB.
  destruct (negb (valid_pathname target) || negb (valid_pathname link_name));
    [by simplify_eq|].
  destruct (inode_get s ROOT_DIR_INUM) as [root|] eqn:Hroot; [|done].
  destruct (Z.eqb_spec (tfs_lookup s target ROOT_DIR_INUM) (-1)) as [|Hl];
    [by simplify_eq|].
  set (inum := tfs_lookup s target ROOT_DIR_INUM) in *. clearbody inum.
  destruct (inode_get s inum) as [itarget|] eqn:Hit; [|by simplify_eq].
  destruct (is_sym_link itarget); [by simplify_eq|].
  destruct (add_dir_entry M s ROOT_DIR_INUM (skip_first link_name) inum)
    as [r s1] eqn:Hadd.
  destruct (add_dir_entry_inode_table _ _ _ _ _ _ _ Hadd)
    as (Ht & Hd & Hot & Hp).
  assert (HB1 : sizes_bounded s1) by (by eapply sizes_bounded_frame).
  destruct (r =? -1); injection H as <- <-; [done|].
  apply sizes_bounded_put; [|done].
  unfold state_block_size. rewrite Hp. exact (proj1 HB _ _ Hit).
Qed.

Lemma clear_dir_entry_frame (s s' : FsState) (d r : Z) (name : string) :
  clear_dir_entry s d name = (r, s') ->
  inode_table s' = inode_table s /\ fs_data s' = fs_data s /\
  open_file_table s' = open_file_table s /\ fs_params s' = fs_params s.
Proof.
  unfold clear_dir_entry. intros H. repeat case_match; by simplify_eq.
Qed.

Lemma tfs_unlink_bounded (s s' : FsState) (target : string) (v : Z) :
  tfs_unlink target s = Done v s' -> sizes_bounded s -> sizes_bounded s'.
Proof.
  unfold tfs_unlink. intros H HB.
  destruct (negb (valid_pathname target)); [by simplify_eq|].
  destruct (inode_get s ROOT_DIR_INUM) as [root|] eqn:Hroot; [|done].
  destruct (Z.eqb_spec (tfs_lookup s target ROOT_DIR_INUM) (-1)) as [|Hl];
    [by simplify_eq|].
  set (inum := tfs_lookup s target ROOT_DIR_INUM) in *. clearbody inum.
  destruct (inode_get s inum) as [i_target|] eqn:Hit; [|by simplify_eq].
  match type of H with
  | match inode_get ?s1 _ with _ => _ end = _ =>
      assert (HB1 : sizes_bounded s1); [|destruct (inode_get s1 ROOT_DIR_INUM);
        [|done];
        destruct (clear_dir_entry s1 ROOT_DIR_INUM (skip_first target))
          as [r s2] eqn:Hclear]
  end.
  { destruct (_ <=? _); [by apply sizes_bounded_delete|].
    apply sizes_bounded_put; [|done]. exact (proj1 HB _ _ Hit). }
  injection H as <- <-.
  destruct (clear_dir_entry_frame _ _ _ _ _ Hclear) as (Ht & _ & Hot & Hp).
  by eapply sizes_bounded_frame.
Qed.

Lemma tfs_init_bounded (params_ptr : option tfs_params) (s : FsState) :
  tfs_init params_ptr = Done 0 s -> sizes_bounded s.
Proof.
  unfold tfs_init. intros H.
  set (params := match params_ptr with
                 | Some params => params
                 | None => tfs_default_params
                 end) in *.
  clearbody params. unfold inode_create in H.
  destruct (Pool.find_free (inode_table (state_init params)))
    as [n|] eqn:Hn; [|by simplify_eq].
  destruct (data_block_alloc (state_init params)) as [b s1] eqn:Halloc.
  destruct (data_block_alloc_frame _ _ _ Halloc) as (Ht & _ & Hot).
  destruct (b =? -1); [by simplify_eq|].
  destruct (Z.of_nat n =? ROOT_DIR_INUM); [|by simplify_eq].
  injection H as <-. split.
  - intros i ino Hi. unfold inode_get in Hi. simpl in Hi. rewrite Ht in Hi.
    apply pool_get_insert_inv in Hi as [->|Hi]; [simpl; lia|].
    simpl in Hi. by rewrite pool_get_replicate_free in Hi.
  - intros h f Hh. unfold get_open_file_entry in Hh. simpl in Hh.
    rewrite Hot in Hh. simpl in Hh.
    by rewrite pool_get_replicate_free in Hh.
Qed.

Lemma run_call_bounded (M fuel : nat) (c : call) (s s' : FsState) (v : Z) :
  run_call M fuel c s = Done v s' ->
  blocks_sized s -> sizes_bounded s -> sizes_bounded s'.
Proof.
  intros Hrun Hsized HB. destruct c; simpl in Hrun.
  - by eapply tfs_open_bounded.
  - by eapply tfs_close_bounded.
  - destruct (tfs_read fhandle len s) as [[n bytes] s1| | |] eqn:Hr;
      try done.
    injection Hrun as <- <-. by eapply tfs_read_bounded.
  - by eapply tfs_write_bounded.
  - by eapply tfs_link_bounded.
  - by eapply tfs_sym_link_bounded.
  - by eapply tfs_unlink_bounded.
Qed.

Lemma reachable_bounded (M : nat) (s : FsState) :
  reachable M s -> sizes_bounded s.
Proof.
  induction 1 as [params_ptr s Hinit|s s' fuel c v Hs IH Hrun].
  - by eapply tfs_init_bounded.
  - eapply run_call_bounded; [exact Hrun| |exact IH].
    by apply (reachable_well_formed M).
Qed.

(** A path that resolves, resolves to an inode that exists and is not the
    root. *)
Lemma tfs_lookup_live (s : FsState) (name : string) (inum : Z) :
  fs_inv s ->
  tfs_lookup s name ROOT_DIR_INUM = inum -> 0 <= inum ->
  inum <> ROOT_DIR_INUM /\ is_Some (inode_get s inum).
Proof.
  intros HI Hlook Hpos.
  destruct (tfs_lookup_entry s name inum Hlook ltac:(lia))
    as (_ & _ & k & e & Hfind & He).
  apply list_find_Some in Hfind as (Hk & _ & _).
  pose proof (refs_pos inum _ k e Hk He) as Hrefs.
  split.
  - intros ->. rewrite (Inv_no_root _ _ HI) in Hrefs. lia.
  - pose proof (Inv_refs _ _ HI inum Hpos) as Hle.
    unfold link_bound, meta in Hle.
    destruct (inode_get s inum); [by eexists|lia].
Qed.

Lemma fs_inv_root (s : FsState) :
  fs_inv s -> is_Some (inode_get s ROOT_DIR_INUM).
Proof.
  intros HI. destruct (Inv_root _ _ HI) as [l Hl]. unfold meta in Hl.
  destruct (inode_get s ROOT_DIR_INUM); [by eexists|done].
Qed.

(** ** Writing at the end of a file *)

(** A handle at the end of a file that holds [content]: tfs_write appends
    what fits in the block, [k] bytes, and leaves the handle at the new
    end. *)
Lemma tfs_write_end (s : FsState) (h n : Z) (ino : inode_t)
    (content chunk : list byte) :
  blocks_sized s ->
  get_open_file_entry s h
  = Some (mk_open_file n (Z.of_nat (length content))) ->
  inode_get s n = Some ino ->
  i_size ino = Z.of_nat (length content) ->
  Z.of_nat (length content) <= state_block_size s ->
  state_block_size s < 2 ^ 63 ->
  Z.of_nat (length chunk) < 2 ^ 63 ->
  (content <> [] ->
   exists block : list byte,
     data_block_get s (i_data_block ino) = Some block /\
     take (length content) block = content) ->
  (content = [] -> Pool.find_free (fs_data s) <> None) ->
  let k := Z.min (Z.of_nat (length chunk))
                 (state_block_size s - Z.of_nat (length content)) in
  let content' := content ++ take (Z.to_nat k) chunk in
  exists (s' : FsState) (ino' : inode_t),
    tfs_write h chunk (Z.of_nat (length chunk)) s = Done k s' /\
    get_open_file_entry s' h
    = Some (mk_open_file n (Z.of_nat (length content'))) /\
    inode_get s' n = Some ino' /\
    i_node_type ino' = i_node_type ino /\
    i_links ino' = i_links ino /\
    i_size ino' = Z.of_nat (length content') /\
    (content' <> [] ->
     exists block : list byte,
       data_block_get s' (i_data_block ino') = Some block /\
       take (length content') block = content') /\
    (k = 0 -> s' = s) /\
    (forall j : Z, j <> n -> inode_get s' j = inode_get s j) /\
    (forall h' : Z,
       h' <> h -> get_open_file_entry s' h' = get_open_file_entry s h') /\
    root_dir s' = root_dir s /\ fs_params s' = fs_params s.
Proof.
  intros Hsized Hfile Hino Hsz Hlen Hbs Hchunk Hblock Hfree k content'.
  set (o := Z.of_nat (length content)) in *.
  set (len := Z.of_nat (length chunk)) in *.
  assert (Hk : 0 <= k <= len /\ o + k <= state_block_size s)
    by (unfold k; lia).
  assert (Hlen' : Z.of_nat (length content') = o + k).
  { unfold content'. rewrite length_app, length_take. unfold o, len in *.
    lia. }
  unfold tfs_write. rewrite Hfile. cbn [of_inumber of_offset].
  rewrite Hino.
  rewrite (write_count (state_block_size s) o len) by (unfold o, len; lia).
  fold k. rewrite to_ssize_t_small by lia.
  destruct (Z.ltb_spec 0 k) as [Hpos|Hzero].
  2:{ assert (k = 0) as Hk0 by lia.
      assert (content' = content) as Hc.
      { unfold content'. rewrite Hk0. simpl. by rewrite app_nil_r. }
      exists s, ino. rewrite Hc. repeat split; try done. }
  assert (Hadd : size_add o k = o + k).
  { unfold size_add, SIZE_MODULUS. apply Z.mod_small. unfold o in *. lia. }
  assert (Hne' : content' <> []).
  { intros Hnil. rewrite Hnil in Hlen'. simpl in Hlen'. unfold o in *. lia. }
  rewrite Hsz. destruct (Z.eqb_spec o 0) as [Ho|Ho].
  - (* the file is empty: a block is allocated *)
    assert (content = []) as Hc
      by (destruct content; [done|unfold o in *; simpl in *; lia]).
    specialize (Hfree Hc).
    destruct (Pool.find_free (fs_data s)) as [m|] eqn:Hm; [|done].
    destruct (data_block_alloc_Some _ _ Hm) as (old & Hold & ->).
    destruct (Z.eqb_spec (Z.of_nat m) (-1)); [lia|].
    cbn [set_i_data_block i_data_block].
    unfold data_block_get. cbn [fs_data with_fs_data].
    pose proof (find_free_lt _ _ Hm) as Hmlt.
    rewrite pool_get_insert_eq by done.
    pose proof (Hsized _ _ _ Hold) as Hol.
    unfold block_store. rewrite Ho.
    destruct (Z.leb_spec 0 0); [|lia].
    destruct (Z.leb_spec (0 + k) (Z.of_nat (length old))); [|lia].
    destruct (Z.leb_spec k (Z.of_nat (length chunk))); [|unfold len in *; lia].
    cbn [andb]. rewrite Ho in Hadd. rewrite Hadd.
    change (i_size (set_i_data_block ino (Z.of_nat m))) with (i_size ino).
    rewrite Hsz, Ho.
    destruct (Z.ltb_spec 0 (0 + k)); [|lia].
    eexists _, (set_i_size (set_i_data_block ino (Z.of_nat m)) (0 + k)).
    split; [reflexivity|].
    rewrite Hlen', Ho.
    split; [|split; [|split; [done|split; [done|split; [done|split;
      [|split; [lia|split; [|split; [|done]]]]]]]]].
    + unfold get_open_file_entry, inode_put, open_file_put.
      cbn [open_file_table with_inode_table with_open_file_table
           with_fs_data].
      by rewrite (pool_get_put_eq _ _ _ _ Hfile).
    + by eapply inode_get_put_eq.
    + intros _. eexists. split.
      * unfold inode_put. cbn. eapply pool_get_put_eq.
        by apply pool_get_insert_eq.
      * unfold content'. rewrite Hc. change (Z.to_nat 0) with 0%nat.
        rewrite take_0. cbn [app]. by rewrite take_app_length.
    + intros j Hj. by rewrite inode_get_put_ne.
    + intros h' Hh'. unfold get_open_file_entry, inode_put, open_file_put.
      cbn [open_file_table with_inode_table with_open_file_table
           with_fs_data].
      by rewrite pool_get_put_ne.
  - (* the file has a block *)
    assert (Hne : content <> []) by (intros ->; unfold o in *; simpl in *; lia).
    destruct (Hblock Hne) as (block & Hb & Htake).
    rewrite Hb.
    apply pool_get_Some in Hb as Hb'. destruct Hb' as [Hb0 Hb1].
    pose proof (Hsized _ _ _ Hb1) as Hbl.
    unfold block_store.
    destruct (Z.leb_spec 0 o); [|unfold o in *; lia].
    destruct (Z.leb_spec (o + k) (Z.of_nat (length block))); [|lia].
    destruct (Z.leb_spec k (Z.of_nat (length chunk))); [|unfold len in *; lia].
    cbn [andb]. rewrite Hadd, Hsz.
    destruct (Z.ltb_spec o (o + k)); [|lia].
    eexists _, (set_i_size ino (o + k)).
    split; [reflexivity|].
    rewrite Hlen'.
    split; [|split; [|split; [done|split; [done|split; [done|split;
      [|split; [lia|split; [|split; [|done]]]]]]]]].
    + unfold get_open_file_entry, inode_put, open_file_put.
      cbn [open_file_table with_inode_table with_open_file_table
           with_fs_data].
      by rewrite (pool_get_put_eq _ _ _ _ Hfile).
    + by eapply inode_get_put_eq.
    + intros _. eexists. split.
      * unfold inode_put, data_block_get. cbn. by eapply pool_get_put_eq.
      * unfold o. rewrite Nat2Z.id, Htake. fold content'.
        rewrite app_assoc. fold content'. by rewrite take_app_length.
    + intros j Hj. by rewrite inode_get_put_ne.
    + intros h' Hh'. unfold get_open_file_entry, inode_put, open_file_put.
      cbn [open_file_table with_inode_table with_open_file_table
           with_fs_data].
      by rewrite pool_get_put_ne.
Qed.

(** ** The loop of tfs_copy_from_external_fs *)

(** The first [b] bytes of what is written, after one more chunk. *)
Lemma take_app_min (b : nat) (written chunk : list byte) :
  take b (written ++ chunk)
  = take b written
    ++ take (Z.to_nat (Z.min (Z.of_nat (length chunk))
                             (Z.of_nat b
                              - Z.of_nat (length (take b written)))))
            chunk.
Proof.
  rewrite take_app, length_take. f_equal.
  destruct (Nat.le_gt_cases b (length written)) as [Hle|Hgt].
  - replace (b - length written)%nat with 0%nat by lia.
    replace (Z.to_nat _) with 0%nat by lia. done.
  - destruct (Nat.le_gt_cases (length chunk) (b - length written)) as [Hc|Hc].
    + rewrite take_ge by done. rewrite take_ge by lia. done.
    + f_equal. lia.
Qed.

(** The loop ends, and has appended the bytes of the host file that fit in
    the block. *)
Lemma copy_loop_run (M EXT_BUFFER : nat) (h n : Z) (fuel : nat) :
  forall (s : FsState) (ino : inode_t) (written buffer source : list byte),
    reachable M s ->
    0 <= state_block_size s < 2 ^ 63 ->
    (0 < EXT_BUFFER)%nat -> Z.of_nat EXT_BUFFER < 2 ^ 63 ->
    (length buffer <= EXT_BUFFER)%nat ->
    (buffer = [] -> source = []) ->
    (length buffer + length source < fuel)%nat ->
    let b := Z.to_nat (state_block_size s) in
    at_end s h n ino (take b written) ->
    (take b written = [] -> Pool.find_free (fs_data s) <> None) ->
    exists (s' : FsState) (ino' : inode_t),
      copy_loop fuel EXT_BUFFER h buffer source s = Done tt s' /\
      reachable M s' /\
      at_end s' h n ino' (take b (written ++ buffer ++ source)) /\
      i_node_type ino' = i_node_type ino /\
      i_links ino' = i_links ino /\
      (forall j : Z, j <> n -> inode_get s' j = inode_get s j) /\
      (forall h' : Z,
         h' <> h -> get_open_file_entry s' h' = get_open_file_entry s h') /\
      root_dir s' = root_dir s /\ fs_params s' = fs_params s.
Proof.
  induction fuel as [|fuel IH];
    intros s ino written buffer source Hreach Hbs HE HE' Hbuf Heof Hfuel b
           Hend Hfree; [lia|].
  cbn [copy_loop].
  destruct (Z.ltb_spec 0 (Z.of_nat (length buffer))) as [Hpos|Hzero].
  2:{ assert (buffer = []) as ->
        by (destruct buffer; [done|simpl in *; lia]).
      rewrite (Heof eq_refl). simpl. rewrite app_nil_r.
      exists s, ino. repeat split; try done; apply Hend. }
  destruct Hend as (Hfile & Hino & Hsz & Hblock).
  destruct (reachable_well_formed M s Hreach) as [Hsized _].
  assert (Hcl : Z.of_nat (length (take b written)) <= state_block_size s)
    by (rewrite length_take; unfold b; lia).
  destruct (tfs_write_end s h n ino (take b written) buffer)
    as (s1 & ino1 & Hwrite & Hfile1 & Hino1 & Hty1 & Hli1 & Hsz1 & Hblock1
        & Hzero1 & Hother1 & Hhandles1 & Hdir1 & Hpar1); try done; [lia|lia|].
  rewrite Hwrite. cbn [and_then host_fread].
  assert (Hbs1 : state_block_size s1 = state_block_size s)
    by (unfold state_block_size; by rewrite Hpar1).
  assert (Hb : Z.of_nat b = state_block_size s) by (unfold b; lia).
  pose proof (take_app_min b written buffer) as Htake. rewrite Hb in Htake.
  rewrite <- Htake in Hfile1, Hsz1, Hblock1.
  destruct (IH s1 ino1 (written ++ buffer) (take EXT_BUFFER source)
              (drop EXT_BUFFER source))
    as (s' & ino' & Hloop & Hreach' & Hend' & Hty' & Hli' & Hother'
        & Hhandles' & Hdir' & Hpar'); try done.
  - eapply (reachable_call M s s1 0
              (DoWrite h buffer (Z.of_nat (length buffer)))); [done|].
    exact Hwrite.
  - by rewrite Hbs1.
  - rewrite length_take. lia.
  - intros Hnil. destruct source as [|x source]; [by rewrite drop_nil|].
    destruct EXT_BUFFER; [lia|done].
  - rewrite length_take, length_drop. lia.
  - by rewrite Hbs1.
  - rewrite Hbs1. fold b. intros Hnil.
    rewrite Htake in Hnil. apply app_eq_nil in Hnil as [Hnil0 Hnil].
    apply (f_equal length) in Hnil. rewrite length_take in Hnil.
    simpl in Hnil. rewrite Hzero1 by lia. by apply Hfree.
  - rewrite Hbs1 in Hend'. fold b in Hend'.
    rewrite <- app_assoc, take_drop in Hend'.
    exists s', ino'. split; [done|]. split; [done|]. split; [done|].
    split; [congruence|]. split; [congruence|].
    split; [intros j Hj; by rewrite Hother', Hother1|].
    split; [intros h' Hh'; by rewrite Hhandles', Hhandles1|].
    split; congruence.
Qed.

(** ** What a successful tfs_open leaves *)

Lemma add_to_open_file_table_cases (s s' : FsState) (inum offset h : Z) :
  add_to_open_file_table s inum offset = (h, s') ->
  (h = -1 /\ s' = s /\ Pool.find_free (open_file_table s) = None) \/
  (0 <= h /\
   Pool.find_free (open_file_table s) = Some (Z.to_nat h) /\
   get_open_file_entry s h = None /\
   get_open_file_entry s' h = Some (mk_open_file inum offset) /\
   (forall h' : Z,
      h' <> h -> get_open_file_entry s' h' = get_open_file_entry s h') /\
   inode_table s' = inode_table s /\ fs_data s' = fs_data s /\
   root_dir s' = root_dir s /\ fs_params s' = fs_params s).
Proof.
  unfold add_to_open_file_table. intros H.
  destruct (Pool.find_free (open_file_table s)) as [m|] eqn:Hm;
    simplify_eq; [right|by left].
  rewrite Nat2Z.id. split; [lia|]. split; [done|].
  split; [by apply find_free_get_None|].
  split; [apply pool_get_insert_eq; by eapply find_free_lt|].
  split; [|done].
  intros h' Hh'. by apply pool_get_insert_ne.
Qed.

(** The handle of a successful tfs_open was free, and is now at a regular
    file: at offset 0, or at the end of the file with APPEND; with TRUNC
    the file is empty. *)
Lemma tfs_open_result (M fuel : nat) (s s' : FsState) (name : string)
    (mode h : Z) :
  fs_inv s -> block_inv s -> sizes_bounded s ->
  tfs_open M fuel name mode s = Done h s' ->
  h = -1 \/
  (0 <= h /\ get_open_file_entry s h = None /\
   exists (n : Z) (ino : inode_t),
     get_open_file_entry s' h
     = Some (mk_open_file n
               (if mode_has mode TFS_O_APPEND then i_size ino else 0)) /\
     inode_get s' n = Some ino /\
     i_node_type ino = T_FILE /\
     n <> ROOT_DIR_INUM /\
     (mode_has mode TFS_O_TRUNC = true -> i_size ino = 0) /\
     (forall h' : Z,
        h' <> h -> get_open_file_entry s' h' = get_open_file_entry s h')).
Proof.
  intros HI HB HS. revert name.
  induction fuel as [|fuel IH]; intros name H; [done|].
  simpl in H.
  destruct (valid_pathname name); simpl in H; [|simplify_eq; by left].
  destruct (inode_get s ROOT_DIR_INUM) as [root|] eqn:Hroot; [|done].
  destruct (Z.leb_spec 0 (tfs_lookup s name ROOT_DIR_INUM)) as [Hpos|Hneg].
  - destruct (tfs_lookup_live s name _ HI eq_refl Hpos) as [Hnr _].
    set (inum := tfs_lookup s name ROOT_DIR_INUM) in *. clearbody inum.
    destruct (inode_get s inum) as [inode|] eqn:Hino; [|done].
    destruct (is_sym_link inode) eqn:Hsym.
    { destruct (String.eqb _ _); [simplify_eq; by left|]. by eapply IH. }
    assert (Hty : i_node_type inode = T_FILE).
    { unfold is_sym_link in Hsym.
      destruct (i_node_type inode) eqn:Hty; [done| |done].
      destruct Hnr. eapply (BInv_one_dir _ _ _ HB inum).
      rewrite (bmeta_get _ _ _ Hino), Hty. reflexivity. }
    pose proof (proj1 HS _ _ Hino) as Hsz.
    set (truncate := mode_has mode TFS_O_TRUNC && (0 <? i_size inode)) in *.
    set (inode1 := if truncate then set_i_size inode 0 else inode) in *.
    match type of H with
    | (let (_, _) := add_to_open_file_table ?s0 ?i ?o in _) = _ =>
        set (s1 := s0) in *;
        destruct (add_to_open_file_table s1 i o) as [h1 s2] eqn:Hadd
    end.
    injection H as <- <-.
    assert (Hs1 : inode_get s1 inum = Some inode1 /\
                  open_file_table s1 = open_file_table s).
    { unfold s1, inode1. destruct truncate; [|done]. split; [|done].
      by apply (inode_get_put_eq _ _ inode). }
    destruct Hs1 as [Hino1 Hot1].
    destruct (add_to_open_file_table_cases _ _ _ _ _ Hadd)
      as [(-> & _)|(Hh & _ & Hfree & Hentry & Hothers & Ht & _)];
      [by left|right].
    split; [done|]. unfold get_open_file_entry in *.
    rewrite Hot1 in Hfree, Hothers. split; [done|].
    exists inum, inode1. split; [done|].
    split; [unfold inode_get; by rewrite Ht|].
    split; [unfold inode1; by destruct truncate|].
    split; [done|]. split; [|done].
    intros Htr. unfold inode1, truncate. rewrite Htr. simpl.
    destruct (Z.ltb_spec 0 (i_size inode)); simpl; lia.
  - destruct (mode_has mode TFS_O_CREAT); [|simplify_eq; by left].
    destruct (Pool.find_free (inode_table s)) as [n|] eqn:Hn.
    2:{ rewrite (inode_create_full _ _ Hn) in H. simpl in H.
        simplify_eq; by left. }
    rewrite (inode_create_plain s T_FILE n) in H by done.
    destruct (Z.eqb_spec (Z.of_nat n) (-1)); [lia|].
    pose proof (fresh_ne _ _ ROOT_DIR_INUM Hn ltac:(eauto)) as Hrn.
    match type of H with
    | (let (_, _) := add_dir_entry _ ?s1 _ _ _ in _) = _ =>
        destruct (add_dir_entry M s1 ROOT_DIR_INUM (skip_first name)
                    (Z.of_nat n)) as [r s2] eqn:Hadd
    end.
    destruct (add_dir_entry_inode_table _ _ _ _ _ _ _ Hadd)
      as (Ht & Hd & Hot & Hp).
    destruct (r =? -1); [simplify_eq; by left|].
    destruct (add_to_open_file_table s2 (Z.of_nat n) 0)
      as [h1 s3] eqn:Hopen.
    injection H as <- <-.
    destruct (add_to_open_file_table_cases _ _ _ _ _ Hopen)
      as [(-> & _)|(Hh & _ & Hfree & Hentry & Hothers & Ht3 & _)];
      [by left|right].
    split; [done|]. unfold get_open_file_entry in *.
    rewrite Hot in Hfree, Hothers. simpl in Hfree, Hothers.
    split; [done|].
    exists (Z.of_nat n), (mk_inode T_FILE 0 (-1) 1 EmptyString).
    split; [by destruct (mode_has mode TFS_O_APPEND)|].
    split.
    { unfold inode_get. rewrite Ht3, Ht. simpl.
      apply pool_get_insert_eq. by eapply find_free_lt. }
    done.
Qed.

(** In a state that satisfies the invariant, tfs_open fails no
    assertion. *)
Lemma tfs_open_no_abort (M fuel : nat) (s : FsState) (name : string)
    (mode : Z) :
  fs_inv s ->
  (exists (h : Z) (s' : FsState), tfs_open M fuel name mode s = Done h s') \/
  tfs_open M fuel name mode s = OutOfFuel.
Proof.
  intros HI. revert name.
  induction fuel as [|fuel IH]; intros name; [by right|].
  simpl.
  destruct (valid_pathname name); simpl; [|left; by eexists _, _].
  destruct (fs_inv_root s HI) as [root ->].
  destruct (Z.leb_spec 0 (tfs_lookup s name ROOT_DIR_INUM)) as [Hpos|Hneg].
  - destruct (tfs_lookup_live s name _ HI eq_refl Hpos) as [_ [inode ->]].
    destruct (is_sym_link inode).
    { destruct (String.eqb _ _); [left; by eexists _, _|apply IH]. }
    destruct (add_to_open_file_table _ _ _). left; by eexists _, _.
  - destruct (mode_has mode TFS_O_CREAT); [|left; by eexists _, _].
    destruct (inode_create s T_FILE) as [inum1 s1].
    destruct (inum1 =? -1); [left; by eexists _, _|].
    destruct (add_dir_entry M s1 ROOT_DIR_INUM (skip_first name) inum1)
      as [r s2].
    destruct (r =? -1); [left; by eexists _, _|].
    destruct (add_to_open_file_table s2 inum1 0). left; by eexists _, _.
Qed.

(** A call of tfs_open that ends, ends in the same way with more fuel. *)
Lemma tfs_open_more_fuel (M fuel more : nat) (s : FsState) (name : string)
    (mode : Z) :
  tfs_open M fuel name mode s <> OutOfFuel ->
  tfs_open M (fuel + more) name mode s = tfs_open M fuel name mode s.
Proof.
  revert name. induction fuel as [|fuel IH]; intros name Hend; [done|].
  cbn [Nat.add]. simpl in *.
  destruct (negb (valid_pathname name)); [done|].
  destruct (inode_get s ROOT_DIR_INUM); [|done].
  destruct (0 <=? tfs_lookup s name ROOT_DIR_INUM); [|done].
  destruct (inode_get s (tfs_lookup s name ROOT_DIR_INUM)) as [inode|];
    [|done].
  destruct (is_sym_link inode); [|done].
  destruct (String.eqb (i_target_d_name inode) name); [done|].
  by apply IH.
Qed.

(** On a symbolic link to another path, tfs_open is tfs_open on the
    target. *)
Lemma tfs_open_sym_link_target (M fuel : nat) (s : FsState)
    (name target : string) (mode : Z) :
  sym_link_target s name = Some target ->
  tfs_open M (S fuel) name mode s = tfs_open M fuel target mode s.
Proof.
  unfold sym_link_target. intros H. simpl.
  destruct (negb (valid_pathname name)); [done|].
  destruct (inode_get s ROOT_DIR_INUM); [|done].
  destruct (0 <=? tfs_lookup s name ROOT_DIR_INUM); [|done].
  destruct (inode_get s (tfs_lookup s name ROOT_DIR_INUM)) as [inode|];
    [|done].
  destruct (is_sym_link inode); [|done].
  destruct (String.eqb (i_target_d_name inode) name); [done|].
  by injection H as <-.
Qed.

(** Where tfs_open does not call itself, it ends in its first call. *)
Lemma tfs_open_direct_ends (M fuel : nat) (s : FsState) (name : string)
    (mode : Z) :
  sym_link_target s name = None ->
  tfs_open M (S fuel) name mode s <> OutOfFuel.
Proof.
  unfold sym_link_target. intros H. simpl.
  destruct (negb (valid_pathname name)); [done|].
  destruct (inode_get s ROOT_DIR_INUM); [|done].
  destruct (0 <=? tfs_lookup s name ROOT_DIR_INUM).
  - destruct (inode_get s (tfs_lookup s name ROOT_DIR_INUM)) as [inode|];
      [|done].
    destruct (is_sym_link inode).
    + by destruct (String.eqb (i_target_d_name inode) name).
    + by destruct (add_to_open_file_table _ _ _).
  - destruct (mode_has mode TFS_O_CREAT); [|done].
    destruct (inode_create s T_FILE) as [inum1 s1].
    destruct (inum1 =? -1); [done|].
    destruct (add_dir_entry M s1 ROOT_DIR_INUM (skip_first name) inum1)
      as [r s2].
    destruct (r =? -1); [done|].
    by destruct (add_to_open_file_table s2 inum1 0).
Qed.

(** When the chain of symbolic links at [name] ends within [depth] links,
    tfs_open ends with any fuel above [depth], with one result. *)
Lemma tfs_open_chain_ends (M depth : nat) (s : FsState) (name : string)
    (mode : Z) :
  chain_ends depth s name = true ->
  tfs_open M (S depth) name mode s <> OutOfFuel /\
  forall fuel : nat,
    (depth < fuel)%nat ->
    tfs_open M fuel name mode s = tfs_open M (S depth) name mode s.
Proof.
  intros Hchain.
  assert (Hend : tfs_open M (S depth) name mode s <> OutOfFuel).
  { revert name Hchain. induction depth as [|depth IH]; intros name Hchain.
    - simpl in Hchain.
      destruct (sym_link_target s name) eqn:Ht; [done|].
      by apply tfs_open_direct_ends.
    - cbn [chain_ends] in Hchain.
      destruct (sym_link_target s name) as [target|] eqn:Ht.
      + rewrite (tfs_open_sym_link_target _ _ _ _ _ _ Ht). by apply IH.
      + by apply tfs_open_direct_ends. }
  split; [exact Hend|]. intros fuel Hfuel.
  replace fuel with (S depth + (fuel - S depth))%nat by lia.
  by apply tfs_open_more_fuel.
Qed.

(** In a state that satisfies the invariant, when the chain of symbolic
    links at [name] ends within [depth] links, tfs_open returns, the same
    with any fuel above [depth]. *)
Lemma tfs_open_returns (M depth : nat) (s : FsState) (name : string)
    (mode : Z) :
  fs_inv s -> chain_ends depth s name = true ->
  exists (h : Z) (s' : FsState),
    forall fuel : nat,
      (depth < fuel)%nat -> tfs_open M fuel name mode s = Done h s'.
Proof.
  intros HI Hchain.
  destruct (tfs_open_chain_ends M depth s name mode Hchain)
    as [Hend Hfuel].
  destruct (tfs_open_no_abort M (S depth) s name mode HI)
    as [(h & s' & Hopen)|Hout]; [|done].
  exists h, s'. intros fuel Hlt. by rewrite (Hfuel fuel Hlt).
Qed.

(** With no data block free, no write to an empty file changes
    anything. *)
Lemma tfs_write_no_block (s : FsState) (h n : Z) (ino : inode_t)
    (buffer : list byte) :
  get_open_file_entry s h = Some (mk_open_file n 0) ->
  inode_get s n = Some ino -> i_size ino = 0 ->
  Pool.find_free (fs_data s) = None ->
  0 <= state_block_size s < 2 ^ 63 ->
  Z.of_nat (length buffer) < 2 ^ 63 ->
  tfs_write h buffer (Z.of_nat (length buffer)) s
  = Done (if 0 <? Z.min (Z.of_nat (length buffer)) (state_block_size s)
          then -1 else 0) s.
Proof.
  intros Hfile Hino Hsz Hfull Hbs Hlen.
  unfold tfs_write. rewrite Hfile. cbn [of_inumber of_offset]. rewrite Hino.
  rewrite (write_count (state_block_size s) 0 (Z.of_nat (length buffer)))
    by lia.
  rewrite Z.sub_0_r.
  destruct (Z.ltb_spec 0 (Z.min (Z.of_nat (length buffer))
                                (state_block_size s))) as [Hpos|Hzero].
  - rewrite Hsz. simpl. by rewrite (data_block_alloc_None _ Hfull).
  - rewrite to_ssize_t_small by lia. f_equal. lia.
Qed.

Lemma copy_loop_no_block (EXT_BUFFER : nat) (s : FsState) (h n : Z)
    (ino : inode_t) (fuel : nat) :
  get_open_file_entry s h = Some (mk_open_file n 0) ->
  inode_get s n = Some ino -> i_size ino = 0 ->
  Pool.find_free (fs_data s) = None ->
  0 <= state_block_size s < 2 ^ 63 ->
  Z.of_nat EXT_BUFFER < 2 ^ 63 ->
  forall buffer source : list byte,
    (length buffer <= EXT_BUFFER)%nat ->
    (length buffer + length source < fuel)%nat ->
    copy_loop fuel EXT_BUFFER h buffer source s = Done tt s.
Proof.
  intros Hfile Hino Hsz Hfull Hbs HE.
  induction fuel as [|fuel IH]; intros buffer source Hbuf Hfuel; [lia|].
  cbn [copy_loop].
  destruct (Z.ltb_spec 0 (Z.of_nat (length buffer))) as [Hpos|]; [|done].
  rewrite (tfs_write_no_block s h n ino buffer) by (done || lia).
  cbn [and_then host_fread]. apply IH.
  - rewrite length_take. lia.
  - rewrite length_take, length_drop. lia.
Qed.

(** The mode of the copy has TRUNC and not APPEND. *)
Lemma copy_mode :
  mode_has (Z.lor TFS_O_CREAT TFS_O_TRUNC) TFS_O_TRUNC = true /\
  mode_has (Z.lor TFS_O_CREAT TFS_O_TRUNC) TFS_O_APPEND = false /\
  mode_has (Z.lor TFS_O_CREAT TFS_O_TRUNC) TFS_O_CREAT = true.
Proof. done. Qed.

(** After the tfs_open of the copy the handle is at the end of an empty
    file. *)
Lemma copy_open_at_end (M fuel : nat) (s s1 : FsState) (dest_path : string)
    (dest : Z) :
  reachable M s ->
  tfs_open M fuel dest_path (Z.lor TFS_O_CREAT TFS_O_TRUNC) s
  = Done dest s1 ->
  dest <> -1 ->
  reachable M s1 /\ 0 <= dest /\
  get_open_file_entry s dest = None /\
  (forall h' : Z,
     h' <> dest -> get_open_file_entry s1 h' = get_open_file_entry s h') /\
  exists (n : Z) (ino : inode_t),
    at_end s1 dest n ino [] /\ i_node_type ino = T_FILE /\
    n <> ROOT_DIR_INUM.
Proof.
  intros Hreach Hopen Hdest.
  destruct (tfs_open_result M fuel s s1 dest_path _ dest
              (reachable_inv M s Hreach) (reachable_block_inv M s Hreach)
              (reachable_bounded M s Hreach) Hopen)
    as [|(Hh & Hfree & n & ino & Hentry & Hino & Hty & Hnr & Hsz & Hothers)];
    [done|].
  split.
  { by apply (reachable_call M s s1 fuel
                (DoOpen dest_path (Z.lor TFS_O_CREAT TFS_O_TRUNC)) dest). }
  split; [done|]. split; [done|]. split; [done|].
  exists n, ino. split; [|done].
  destruct copy_mode as (Htr & Hap & _). rewrite Hap in Hentry.
  split; [done|]. split; [done|]. split; [by apply Hsz|done].
Qed.

(** Whatever the host file holds, the loop of the copy ends and leaves
    the handle open. *)
Lemma copy_loop_done (M EXT_BUFFER : nat) (s : FsState) (h n : Z)
    (ino : inode_t) (source : list byte) :
  reachable M s ->
  0 <= state_block_size s < 2 ^ 63 ->
  (0 < EXT_BUFFER)%nat -> Z.of_nat EXT_BUFFER < 2 ^ 63 ->
  at_end s h n ino [] ->
  exists (s' : FsState) (ino' : inode_t) (content : list byte),
    copy_loop (S (length source)) EXT_BUFFER h (take EXT_BUFFER source)
              (drop EXT_BUFFER source) s = Done tt s' /\
    reachable M s' /\
    at_end s' h n ino' content /\
    (Pool.find_free (fs_data s) <> None ->
     content = take (Z.to_nat (state_block_size s)) source) /\
    (Pool.find_free (fs_data s) = None -> s' = s) /\
    i_node_type ino' = i_node_type ino /\
    i_links ino' = i_links ino /\
    (forall j : Z, j <> n -> inode_get s' j = inode_get s j) /\
    (forall h' : Z,
       h' <> h -> get_open_file_entry s' h' = get_open_file_entry s h') /\
    root_dir s' = root_dir s /\ fs_params s' = fs_params s.
Proof.
  intros Hreach Hbs HE HE' Hend.
  assert (Hbuf : (length (take EXT_BUFFER source) <= EXT_BUFFER)%nat)
    by (rewrite length_take; lia).
  assert (Hfuel : (length (take EXT_BUFFER source)
                   + length (drop EXT_BUFFER source)
                   < S (length source))%nat)
    by (rewrite length_take, length_drop; lia).
  destruct (Pool.find_free (fs_data s)) as [m|] eqn:Hm.
  - destruct (copy_loop_run M EXT_BUFFER h n (S (length source)) s ino []
                (take EXT_BUFFER source) (drop EXT_BUFFER source))
      as (s' & ino' & Hloop & Hreach' & Hend' & Hrest); try done.
    { intros Hnil. destruct source as [|x source]; [by rewrite drop_nil|].
      destruct EXT_BUFFER; [lia|done]. }
    { by rewrite take_nil. }
    { rewrite Hm. done. }
    rewrite app_nil_l, take_drop in Hend'.
    exists s', ino', (take (Z.to_nat (state_block_size s)) source).
    split; [done|]. split; [done|]. split; [done|].
    split; [done|]. split; [done|]. exact Hrest.
  - destruct Hend as (Hfile & Hino & Hsz & Hblock).
    exists s, ino, []. split.
    { by apply (copy_loop_no_block EXT_BUFFER s h n ino). }
    done.
Qed.

(** ** tfs_copy_from_external_fs *)

Lemma tfs_open_params (M fuel : nat) (s s' : FsState) (name : string)
    (mode v : Z) :
  tfs_open M fuel name mode s = Done v s' -> fs_params s' = fs_params s.
Proof.
  revert name. induction fuel as [|fuel IH]; intros name H; [done|].
  simpl in H.
  destruct (valid_pathname name); simpl in H; [|by simplify_eq].
  destruct (inode_get s ROOT_DIR_INUM) as [root|]; [|done].
  destruct (0 <=? tfs_lookup s name ROOT_DIR_INUM).
  - destruct (inode_get s (tfs_lookup s name ROOT_DIR_INUM)) as [inode|];
      [|done].
    destruct (is_sym_link inode).
    { destruct (String.eqb _ _); [by simplify_eq|]. by eapply IH. }
    match type of H with
    | (let (_, _) := add_to_open_file_table ?s0 ?i ?o in _) = _ =>
        destruct (add_to_open_file_table s0 i o) as [h1 s2] eqn:Hadd
    end.
    injection H as <- <-.
    destruct (add_to_open_file_table_cases _ _ _ _ _ Hadd)
      as [(_ & -> & _)|(_ & _ & _ & _ & _ & _ & _ & _ & ->)];
      by destruct (_ && _).
  - destruct (mode_has mode TFS_O_CREAT); [|by simplify_eq].
    destruct (Pool.find_free (inode_table s)) as [n|] eqn:Hn.
    2:{ rewrite (inode_create_full _ _ Hn) in H. simpl in H.
        by simplify_eq. }
    rewrite (inode_create_plain s T_FILE n) in H by done.
    destruct (Z.of_nat n =? -1); [by simplify_eq|].
    match type of H with
    | (let (_, _) := add_dir_entry _ ?s1 _ _ _ in _) = _ =>
        destruct (add_dir_entry M s1 ROOT_DIR_INUM (skip_first name)
                    (Z.of_nat n)) as [r s2] eqn:Hadd
    end.
    destruct (add_dir_entry_inode_table _ _ _ _ _ _ _ Hadd)
      as (Ht & Hd & Hot & Hp).
    destruct (r =? -1).
    + injection H as <- <-. simpl in Hp. rewrite <- Hp.
      unfold inode_delete.
      destruct (inode_get s2 (Z.of_nat n)) as [ino|]; [|done].
      by destruct (owns_block ino).
    + destruct (add_to_open_file_table s2 (Z.of_nat n) 0)
        as [h1 s3] eqn:Hopen.
      injection H as <- <-.
      destruct (add_to_open_file_table_cases _ _ _ _ _ Hopen)
        as [(_ & -> & _)|(_ & _ & _ & _ & _ & _ & _ & _ & ->)]; done.
Qed.

(** tfs_open of a path that names an inode that is no symbolic link. *)
Lemma tfs_open_file_eq (M fuel : nat) (s : FsState) (name : string)
    (mode inum : Z) (inode : inode_t) :
  valid_pathname name = true ->
  is_Some (inode_get s ROOT_DIR_INUM) ->
  tfs_lookup s name ROOT_DIR_INUM = inum -> 0 <= inum ->
  inode_get s inum = Some inode ->
  is_sym_link inode = false ->
  tfs_open M (S fuel) name mode s
  = let truncate := mode_has mode TFS_O_TRUNC && (0 <? i_size inode) in
    let (h, s2) :=
      add_to_open_file_table
        (if truncate
         then inode_put (data_block_free s (i_data_block inode)) inum
                (set_i_size inode 0)
         else s)
        inum
        (if mode_has mode TFS_O_APPEND
         then if truncate then 0 else i_size inode
         else 0) in
    Done h s2.
Proof.
  intros Hv [root Hroot] Hlook Hpos Hino Hsym.
  simpl. rewrite Hv, Hroot, Hlook. simpl.
  destruct (Z.leb_spec 0 inum); [|lia]. rewrite Hino, Hsym.
  by destruct (mode_has mode TFS_O_TRUNC && (0 <? i_size inode)).
Qed.

(** The state after the truncation of tfs_open. *)
Lemma truncated_frame (s : FsState) (inum : Z) (inode : inode_t) :
  inode_get s inum = Some inode ->
  let s1 := inode_put (data_block_free s (i_data_block inode)) inum
              (set_i_size inode 0) in
  inode_get s1 inum = Some (set_i_size inode 0) /\
  (forall j : Z, j <> inum -> inode_get s1 j = inode_get s j) /\
  (forall (d : Z) (name : string),
     find_in_dir s1 d name = find_in_dir s d name) /\
  root_dir s1 = root_dir s /\
  open_file_table s1 = open_file_table s /\
  fs_params s1 = fs_params s /\
  fs_data s1 = Pool.free (fs_data s) (i_data_block inode).
Proof.
  intros Hino s1. split; [|split; [|split; [|done]]].
  - by apply (inode_get_put_eq _ _ inode).
  - intros j Hj. unfold s1. by rewrite inode_get_put_ne.
  - intros d name. unfold s1.
    by rewrite (find_in_dir_put _ inum d inode).
Qed.

(** A successful tfs_open of a path that is no symbolic link opens the
    inode that the path names from then on. *)
Lemma tfs_open_direct (M fuel : nat) (s s1 : FsState) (name : string)
    (mode h : Z) :
  fs_inv s ->
  (forall ino : inode_t,
     inode_get s (tfs_lookup s name ROOT_DIR_INUM) = Some ino ->
     i_node_type ino <> T_SYM_LINK) ->
  tfs_open M fuel name mode s = Done h s1 -> 0 <= h ->
  exists file : open_file_entry_t,
    get_open_file_entry s1 h = Some file /\
    tfs_lookup s1 name ROOT_DIR_INUM = of_inumber file /\
    0 <= of_inumber file /\
    valid_pathname name = true.
Proof.
  intros HI Hnot H Hh.
  destruct (Z.leb_spec 0 (tfs_lookup s name ROOT_DIR_INUM)) as [Hpos|Hneg].
  - destruct (tfs_lookup_live s name _ HI eq_refl Hpos)
      as [Hnr [inode Hino]].
    specialize (Hnot inode Hino).
    assert (Hsym : is_sym_link inode = false)
      by (unfold is_sym_link; by destruct (i_node_type inode)).
    destruct fuel as [|fuel]; [done|].
    assert (Hv : valid_pathname name = true).
    { simpl in H. destruct (valid_pathname name); [done|].
      simpl in H. simplify_eq. }
    rewrite (tfs_open_file_eq M fuel s name mode _ inode Hv
               (fs_inv_root s HI) eq_refl Hpos Hino Hsym) in H.
    cbv zeta in H.
    match type of H with
    | (let (_, _) := add_to_open_file_table ?s0 ?i ?o in _) = _ =>
        set (s0' := s0) in *;
        destruct (add_to_open_file_table s0' i o) as [h1 s2] eqn:Hadd
    end.
    injection H as <- <-.
    destruct (add_to_open_file_table_cases _ _ _ _ _ Hadd)
      as [(-> & _)|(_ & _ & _ & Hentry & _ & Ht & _ & Hd & _)]; [lia|].
    eexists. split; [exact Hentry|]. cbn [of_inumber].
    split; [|done].
    unfold tfs_lookup. rewrite Hv. simpl.
    transitivity (find_in_dir s0' ROOT_DIR_INUM (skip_first name)).
    { apply find_in_dir_agree; [|done]. unfold inode_get. by rewrite Ht. }
    unfold s0'. destruct (_ && _).
    + apply (truncated_frame s _ inode Hino).
    + done.
  - destruct (decide (tfs_lookup s name ROOT_DIR_INUM = -1)) as [Hl|Hl].
    + destruct (tfs_open_created M fuel s s1 name mode h Hl H Hh)
        as (n & Hv & Hrn & Hfile & Hino & Hlook1 & _).
      eexists. split; [exact Hfile|]. cbn [of_inumber].
      split; [done|]. split; [|done].
      apply pool_get_Some in Hino. lia.
    + (* the name is in the directory, with an inumber below -1: the
         entry cannot be added *)
      destruct (tfs_lookup_entry s name _ eq_refl Hl)
        as (Hv & _ & k & e & Hfind & _).
      destruct fuel as [|fuel]; [done|]. simpl in H.
      rewrite Hv in H. simpl in H.
      destruct (inode_get s ROOT_DIR_INUM) as [root|]; [|done].
      destruct (Z.leb_spec 0 (tfs_lookup s name ROOT_DIR_INUM)); [lia|].
      destruct (mode_has mode TFS_O_CREAT); [|simplify_eq; lia].
      destruct (Pool.find_free (inode_table s)) as [n|] eqn:Hn.
      2:{ rewrite (inode_create_full _ _ Hn) in H. simpl in H.
          simplify_eq; lia. }
      rewrite (inode_create_plain s T_FILE n) in H by done.
      destruct (Z.of_nat n =? -1); [simplify_eq; lia|].
      match type of H with
      | (let (_, _) := add_dir_entry _ ?s0 _ _ _ in _) = _ =>
          destruct (add_dir_entry M s0 ROOT_DIR_INUM (skip_first name)
                      (Z.of_nat n)) as [r s2] eqn:Hadd
      end.
      destruct (add_dir_entry_cases _ _ _ _ _ _ _ Hadd)
        as [[-> ->]|(_ & _ & _ & Hnone & _)].
      * simpl in H. simplify_eq.
      * simpl in Hnone. congruence.
Qed.

(** X15: in a reachable state tfs_copy_from_external_fs returns -1 with
    the state unchanged when the host file cannot be opened.  When it can
    and the chain of symbolic links at the destination ends, the copy
    returns and fails no assertion: its tfs_open returns, its loop ends,
    and it returns -1 when the tfs_open returned -1 and 0 otherwise,
    whatever the writes returned; the handle it used is closed again and
    no other handle changes. *)
Theorem X15_copy_returns (M fuel EXT_BUFFER : nat)
    (host : string -> option (list byte)) (source_path dest_path : string)
    (s : FsState) :
  reachable M s ->
  0 <= state_block_size s < 2 ^ 63 ->
  (0 < EXT_BUFFER)%nat -> Z.of_nat EXT_BUFFER < 2 ^ 63 ->
  (host source_path = None ->
   tfs_copy_from_external_fs M fuel EXT_BUFFER host source_path dest_path s
   = Done (-1) s) /\
  (forall (source : list byte) (depth : nat),
     host source_path = Some source ->
     chain_ends depth s dest_path = true ->
     (depth < fuel)%nat ->
     exists (dest : Z) (s1 s' : FsState),
       tfs_open M fuel dest_path (Z.lor TFS_O_CREAT TFS_O_TRUNC) s
       = Done dest s1 /\
       tfs_copy_from_external_fs M fuel EXT_BUFFER host source_path
                                 dest_path s
       = Done (if dest =? -1 then -1 else 0) s' /\
       reachable M s' /\
       (dest = -1 -> s' = s1) /\
       (dest <> -1 ->
        forall h : Z, get_open_file_entry s' h = get_open_file_entry s h)).
Proof.
  intros Hreach Hbs HE HE'. unfold tfs_copy_from_external_fs. split.
  { by intros ->. }
  intros source depth -> Hchain Hfuel.
  destruct (tfs_open_returns M depth s dest_path
              (Z.lor TFS_O_CREAT TFS_O_TRUNC) (reachable_inv M s Hreach)
              Hchain) as (dest & s1 & Hopens).
  pose proof (Hopens fuel Hfuel) as Hopen.
  exists dest, s1. rewrite Hopen. cbn [and_then].
  assert (Hreach1 : reachable M s1).
  { by apply (reachable_call M s s1 fuel
                (DoOpen dest_path (Z.lor TFS_O_CREAT TFS_O_TRUNC)) dest). }
  destruct (Z.eqb_spec dest (-1)) as [Hd|Hd]; [by exists s1|].
  destruct (copy_open_at_end M fuel s s1 dest_path dest Hreach Hopen Hd)
    as (_ & _ & Hfree & Hothers & n & ino & Hend & _).
  assert (Hbs1 : state_block_size s1 = state_block_size s).
  { unfold state_block_size. by rewrite (tfs_open_params _ _ _ _ _ _ _ Hopen). }
  destruct (copy_loop_done M EXT_BUFFER s1 dest n ino source Hreach1)
    as (s2 & ino2 & content & Hloop & Hreach2 & Hend2 & _ & _ & _ & _ & _
        & Hhandles & _); try done; [by rewrite Hbs1|].
  cbn [host_fread]. rewrite Hloop. cbn [and_then].
  destruct Hend2 as (Hfile2 & _). unfold tfs_close. rewrite Hfile2.
  cbn [and_then]. eexists. split; [reflexivity|]. split; [reflexivity|].
  split.
  { apply (reachable_call M s2 _ 0 (DoClose dest) 0 Hreach2).
    simpl. unfold tfs_close. by rewrite Hfile2. }
  split; [done|]. intros _ h.
  unfold remove_from_open_file_table, get_open_file_entry.
  cbn [open_file_table with_open_file_table].
  destruct (decide (h = dest)) as [->|Hne].
  - rewrite pool_get_free_eq. by rewrite <- Hfree.
  - rewrite pool_get_free_ne by done.
    transitivity (get_open_file_entry s1 h); [by apply Hhandles|].
    by apply Hothers.
Qed.

(** X16: in a reachable state, let the destination be no symbolic link
    and its tfs_open succeed.  After the copy, which returns 0, opening
    the destination and reading a block returns the first [block_size]
    bytes of the host file; or no byte at all, when no data block was
    free after the tfs_open: the copy drops the -1 of tfs_write and still
    returns 0. *)
Theorem X16_copy_read_back (M fuel EXT_BUFFER : nat)
    (host : string -> option (list byte)) (source_path dest_path : string)
    (s s1 : FsState) (source : list byte) (dest : Z) :
  reachable M s ->
  0 <= state_block_size s < 2 ^ 63 ->
  (0 < EXT_BUFFER)%nat -> Z.of_nat EXT_BUFFER < 2 ^ 63 ->
  host source_path = Some source ->
  (forall ino : inode_t,
     inode_get s (tfs_lookup s dest_path ROOT_DIR_INUM) = Some ino ->
     i_node_type ino <> T_SYM_LINK) ->
  tfs_open M fuel dest_path (Z.lor TFS_O_CREAT TFS_O_TRUNC) s
  = Done dest s1 ->
  dest <> -1 ->
  let content :=
    match Pool.find_free (fs_data s1) with
    | Some _ => take (Z.to_nat (state_block_size s)) source
    | None => []
    end in
  exists (s' s4 s5 : FsState) (h' : Z),
    tfs_copy_from_external_fs M fuel EXT_BUFFER host source_path dest_path s
    = Done 0 s' /\
    tfs_open M fuel dest_path 0 s' = Done h' s4 /\ 0 <= h' /\
    tfs_read h' (state_block_size s) s4
    = Done (Z.of_nat (length content), content) s5.
Proof.
  intros Hreach Hbs HE HE' Hsrc Hnot Hopen Hd content.
  destruct (copy_open_at_end M fuel s s1 dest_path dest Hreach Hopen Hd)
    as (Hreach1 & Hh & _ & _ & n & ino & Hend & Hty & Hnr).
  destruct (tfs_open_direct M fuel s s1 dest_path _ dest
              (reachable_inv M s Hreach) Hnot Hopen Hh)
    as (file & Hentry & Hlook1 & Hpos & Hv).
  assert (Hn : of_inumber file = n).
  { destruct Hend as (Hfile & _). rewrite Hfile in Hentry.
    by injection Hentry as <-. }
  rewrite Hn in Hlook1, Hpos. clear file Hentry Hn.
  assert (Hbs1 : state_block_size s1 = state_block_size s).
  { unfold state_block_size. by rewrite (tfs_open_params _ _ _ _ _ _ _ Hopen). }
  destruct (copy_loop_done M EXT_BUFFER s1 dest n ino source Hreach1)
    as (s2 & ino2 & content2 & Hloop & Hreach2 & Hend2 & Hsome & Hnone
        & Hty2 & _ & Hother2 & _ & Hdir2 & Hpar2); try done;
    [by rewrite Hbs1|].
  assert (Hc : content2 = content).
  { unfold content. destruct (Pool.find_free (fs_data s1)) as [m|].
    - rewrite <- Hbs1. by apply Hsome.
    - rewrite (Hnone eq_refl) in Hend2.
      destruct Hend as (_ & Hino & Hsz & _).
      destruct Hend2 as (_ & Hino2 & Hsz2 & _).
      rewrite Hino in Hino2. injection Hino2 as <-.
      rewrite Hsz in Hsz2. destruct content2; [done|simpl in Hsz2; lia]. }
  rewrite Hc in Hend2. clear content2 Hc Hsome Hnone.
  destruct Hend2 as (Hfile2 & Hino2 & Hsz2 & Hblock2).
  set (s3 := remove_from_open_file_table s2 dest).
  assert (Hcopy : tfs_copy_from_external_fs M fuel EXT_BUFFER host
                    source_path dest_path s = Done 0 s3).
  { unfold tfs_copy_from_external_fs. rewrite Hsrc, Hopen.
    cbn [and_then host_fread]. destruct (Z.eqb_spec dest (-1)); [done|].
    rewrite Hloop. cbn [and_then]. unfold tfs_close. by rewrite Hfile2. }
  assert (Hbs3 : state_block_size s3 = state_block_size s).
  { unfold state_block_size in *. simpl. by rewrite Hpar2. }
  assert (Hcl : Z.of_nat (length content) <= state_block_size s).
  { unfold content. destruct (Pool.find_free (fs_data s1));
      [rewrite length_take|simpl]; lia. }
  destruct fuel as [|fuel]; [done|].
  destruct (tfs_open_plain M fuel s3 dest_path n ino2) as
    (h' & s4 & Hopen2 & Hh' & Hfile4 & Ht4 & Hd4 & Hp4); try done.
  { change (inode_get s3 ROOT_DIR_INUM) with (inode_get s2 ROOT_DIR_INUM).
    rewrite Hother2 by done.
    by apply fs_inv_root, (reachable_inv M). }
  { rewrite <- Hlook1. unfold tfs_lookup. rewrite Hv. simpl.
    apply find_in_dir_agree; [|done].
    change (inode_get s3 ROOT_DIR_INUM) with (inode_get s2 ROOT_DIR_INUM).
    by apply Hother2. }
  { congruence. }
  { apply find_free_after_free. by eexists. }
  assert (Hbs4 : state_block_size s4 = state_block_size s).
  { unfold state_block_size in *. by rewrite Hp4. }
  destruct (tfs_read_whole s4 h' n ino2 content) as [s5 Hread]; try done.
  { unfold inode_get. by rewrite Ht4. }
  { by rewrite Hbs4. }
  { rewrite Hbs4. lia. }
  { intros Hne. destruct (Hblock2 Hne) as (block & Hb & Htake).
    exists block. split; [|done]. unfold data_block_get. by rewrite Hd4. }
  exists s3, s4, s5, h'. rewrite Hbs4 in Hread. done.
Qed.

(** ** Handles: tfs_close, tfs_read and tfs_write *)

(** X8: tfs_close returns -1 and changes nothing on a handle that is not
    open.  On an open handle it returns 0 and frees that handle only:
    inodes, data blocks, directory and the other handles are unchanged, a
    further tfs_close, tfs_read or tfs_write on the handle returns -1, and
    the open-file table has a free entry again. *)
Theorem X8_tfs_close (s : FsState) (fhandle : Z) :
  (get_open_file_entry s fhandle = None ->
   tfs_close fhandle s = Done (-1) s) /\
  (is_Some (get_open_file_entry s fhandle) ->
   exists s' : FsState,
     tfs_close fhandle s = Done 0 s' /\
     get_open_file_entry s' fhandle = None /\
     (forall h : Z,
        h <> fhandle ->
        get_open_file_entry s' h = get_open_file_entry s h) /\
     inode_table s' = inode_table s /\ fs_data s' = fs_data s /\
     root_dir s' = root_dir s /\ fs_params s' = fs_params s /\
     is_Some (Pool.find_free (open_file_table s')) /\
     tfs_close fhandle s' = Done (-1) s' /\
     (forall len : Z, tfs_read fhandle len s' = Done (-1, []) s') /\
     (forall (buffer : list byte) (to_write : Z),
        tfs_write fhandle buffer to_write s' = Done (-1) s')).
Proof.
  split.
  - intros Hnone. unfold tfs_close. by rewrite Hnone.
  - intros [file Hfile].
    exists (remove_from_open_file_table s fhandle).
    assert (Hgone : get_open_file_entry
                      (remove_from_open_file_table s fhandle) fhandle
                    = None) by apply pool_get_free_eq.
    split; [unfold tfs_close; by rewrite Hfile|].
    split; [done|]. split.
    { intros h Hh. by apply pool_get_free_ne. }
    do 4 (split; [done|]). split.
    { apply find_free_after_free. by exists file. }
    split; [unfold tfs_close; by rewrite Hgone|].
    split; [intros len; unfold tfs_read; by rewrite Hgone|].
    intros buffer to_write. unfold tfs_write. by rewrite Hgone.
Qed.

(** X9: tfs_read writes nothing but the offset of its handle: when it
    returns, the inodes, the data blocks, the directory and every other
    handle are as before, and its handle is at the same inode; on a
    handle that is not open it returns -1 and no byte. *)
Theorem X9_tfs_read_frame (s s' : FsState) (fhandle len v : Z)
    (bytes : list byte) :
  tfs_read fhandle len s = Done (v, bytes) s' ->
  inode_table s' = inode_table s /\ fs_data s' = fs_data s /\
  root_dir s' = root_dir s /\ fs_params s' = fs_params s /\
  (forall h : Z,
     h <> fhandle -> get_open_file_entry s' h = get_open_file_entry s h) /\
  (get_open_file_entry s fhandle = None ->
   v = -1 /\ bytes = [] /\ s' = s) /\
  (forall file : open_file_entry_t,
     get_open_file_entry s fhandle = Some file ->
     exists file' : open_file_entry_t,
       get_open_file_entry s' fhandle = Some file' /\
       of_inumber file' = of_inumber file /\
       (bytes = [] -> s' = s)).
Proof.
  unfold tfs_read. intros H.
  destruct (get_open_file_entry s fhandle) as [file|] eqn:Hfile.
  2:{ injection H as <- <- <-. by repeat split. }
  destruct (inode_get s (of_inumber file)) as [inode|]; [|done].
  set (to_read := if len <? size_sub (i_size inode) (of_offset file)
                  then len else size_sub (i_size inode) (of_offset file))
    in *.
  destruct (Z.ltb_spec 0 to_read) as [Hpos|].
  2:{ injection H as <- <- <-. repeat split; try done.
      intros f [= <-]. by exists file. }
  destruct (data_block_get s (i_data_block inode)) as [block|]; [|done].
  destruct (arena_load (fs_data s) (i_data_block inode) (of_offset file)
              to_read) as [loaded|] eqn:Hld; [|done].
  injection H as <- <- <-.
  apply arena_load_length in Hld as [_ Hlen]; [|lia].
  do 4 (split; [done|]). split.
  { intros h Hh. unfold get_open_file_entry, open_file_put.
    cbn [open_file_table with_open_file_table].
    by apply pool_get_put_ne. }
  split; [done|]. intros f [= <-]. eexists. split.
  { unfold get_open_file_entry, open_file_put.
    cbn [open_file_table with_open_file_table].
    by apply (pool_get_put_eq _ _ file). }
  split; [done|]. intros ->. simpl in Hlen. lia.
Qed.

(** X10: in a reachable state, on a handle that is not past the end of
    its file, tfs_read fails no assertion: it returns
    [min(len, size - offset)], that many bytes of the file's block from
    the offset on, and moves the handle by that count; at the end of the
    file it returns 0 and changes nothing. *)
Theorem X10_tfs_read_inside (M : nat) (s : FsState) (fhandle len : Z)
    (file : open_file_entry_t) (inode : inode_t) :
  reachable M s ->
  state_block_size s < 2 ^ 63 ->
  get_open_file_entry s fhandle = Some file ->
  inode_get s (of_inumber file) = Some inode ->
  of_offset file <= i_size inode ->
  0 <= len ->
  let k := Z.min len (i_size inode - of_offset file) in
  exists (s' : FsState) (bytes : list byte),
    tfs_read fhandle len s = Done (k, bytes) s' /\
    Z.of_nat (length bytes) = k /\
    get_open_file_entry s' fhandle
    = Some (mk_open_file (of_inumber file) (of_offset file + k)) /\
    (forall block : list byte,
       data_block_get s (i_data_block inode) = Some block ->
       bytes = take (Z.to_nat k) (drop (Z.to_nat (of_offset file)) block)) /\
    (k = 0 -> s' = s).
Proof.
  intros Hreach Hbs Hfile Hino Hoff Hlen k.
  destruct (reachable_bounded M s Hreach) as [Hsizes Hoffsets].
  destruct (reachable_well_formed M s Hreach) as [Hsized Howned].
  pose proof (Hsizes _ _ Hino) as Hsz.
  pose proof (Hoffsets _ _ Hfile) as Ho.
  destruct (decide (i_size inode = 0)) as [Hz|Hnz].
  - (* an empty file *)
    assert (Hk : k = 0) by (unfold k; lia).
    assert (Ho0 : of_offset file = 0) by lia.
    exists s, []. rewrite Hk.
    unfold tfs_read. rewrite Hfile, Hino, Hz, Ho0.
    change (size_sub 0 0) with 0.
    destruct (Z.ltb_spec len 0); [lia|]. simpl.
    split; [done|]. split; [done|]. split.
    { destruct file as [i o]. simpl in *. by rewrite Ho0. }
    split; [|done]. intros block _. by rewrite take_0.
  - destruct (Howned _ _ Hino Hnz) as [block Hb].
    apply pool_get_Some in Hb as Hb'. destruct Hb' as [_ Hb'].
    pose proof (Hsized _ _ _ Hb') as Hbl.
    destruct (tfs_read_within s fhandle len file inode block Hfile Hino)
      as (s' & Hread & Hmoved & Hsame); try done; try lia.
    fold k in Hread, Hmoved, Hsame.
    exists s', (take (Z.to_nat k) (drop (Z.to_nat (of_offset file)) block)).
    split; [done|]. split.
    { rewrite length_take, length_drop. unfold k. lia. }
    split.
    { destruct (decide (k = 0)) as [Hk|Hk].
      - rewrite (Hsame Hk), Hk, Hfile. destruct file as [i o]. simpl.
        by rewrite Z.add_0_r.
      - apply Hmoved. unfold k in *. lia. }
    split; [|done]. intros block' Hb2. rewrite Hb in Hb2.
    by injection Hb2 as <-.
Qed.

(** X11: in a reachable state a tfs_write through a handle touches the
    file of that handle only: the directory, every other inode, the block
    of every other file that is not empty and every other handle are
    unchanged; the file keeps its kind, link count and target, and does
    not shrink. *)
Theorem X11_tfs_write_isolated (M : nat) (s s' : FsState)
    (fhandle to_write v : Z) (buffer : list byte)
    (file : open_file_entry_t) :
  reachable M s ->
  get_open_file_entry s fhandle = Some file ->
  tfs_write fhandle buffer to_write s = Done v s' ->
  root_dir s' = root_dir s /\ fs_params s' = fs_params s /\
  (forall h : Z,
     h <> fhandle -> get_open_file_entry s' h = get_open_file_entry s h) /\
  (forall j : Z,
     j <> of_inumber file -> inode_get s' j = inode_get s j) /\
  (forall (j : Z) (ino : inode_t) (block : list byte),
     j <> of_inumber file ->
     inode_get s j = Some ino -> i_size ino <> 0 ->
     data_block_get s (i_data_block ino) = Some block ->
     data_block_get s' (i_data_block ino) = Some block) /\
  exists inode inode' : inode_t,
    inode_get s (of_inumber file) = Some inode /\
    inode_get s' (of_inumber file) = Some inode' /\
    i_node_type inode' = i_node_type inode /\
    i_links inode' = i_links inode /\
    i_target_d_name inode' = i_target_d_name inode /\
    i_size inode <= i_size inode'.
Proof.
  intros Hreach Hfile H.
  pose proof (reachable_block_inv M s Hreach) as HB.
  unfold tfs_write in H. rewrite Hfile in H.
  destruct (inode_get s (of_inumber file)) as [inode|] eqn:Hino; [|done].
  set (tw := if state_block_size s <? size_add to_write (of_offset file)
             then size_sub (state_block_size s) (of_offset file)
             else to_write) in *.
  clearbody tw.
  destruct (Z.ltb_spec 0 tw) as [Hpos|].
  { (* some bytes are written *)
    assert (Hstep :
      forall (s1 : FsState) (inode1 : inode_t) (block1 : list byte),
        inode_table s1 = inode_table s ->
        open_file_table s1 = open_file_table s ->
        root_dir s1 = root_dir s -> fs_params s1 = fs_params s ->
        i_node_type inode1 = i_node_type inode ->
        i_links inode1 = i_links inode ->
        i_target_d_name inode1 = i_target_d_name inode ->
        i_size inode1 = i_size inode ->
        (forall (j : Z) (ino : inode_t) (block : list byte),
           j <> of_inumber file ->
           inode_get s j = Some ino -> i_size ino <> 0 ->
           data_block_get s (i_data_block ino) = Some block ->
           i_data_block ino <> i_data_block inode1 /\
           data_block_get s1 (i_data_block ino) = Some block) ->
        Done (to_ssize_t tw)
          (inode_put
             (open_file_put
                (with_fs_data s1
                   (Pool.put (fs_data s1) (i_data_block inode1) block1))
                fhandle
                (mk_open_file (of_inumber file)
                   (size_add (of_offset file) tw)))
             (of_inumber file)
             (if i_size inode1 <? size_add (of_offset file) tw
              then set_i_size inode1 (size_add (of_offset file) tw)
              else inode1))
        = Done v s' ->
        root_dir s' = root_dir s /\ fs_params s' = fs_params s /\
        (forall h : Z,
           h <> fhandle ->
           get_open_file_entry s' h = get_open_file_entry s h) /\
        (forall j : Z,
           j <> of_inumber file -> inode_get s' j = inode_get s j) /\
        (forall (j : Z) (ino : inode_t) (block : list byte),
           j <> of_inumber file ->
           inode_get s j = Some ino -> i_size ino <> 0 ->
           data_block_get s (i_data_block ino) = Some block ->
           data_block_get s' (i_data_block ino) = Some block) /\
        exists inode0 inode' : inode_t,
          Some inode = Some inode0 /\
          inode_get s' (of_inumber file) = Some inode' /\
          i_node_type inode' = i_node_type inode0 /\
          i_links inode' = i_links inode0 /\
          i_target_d_name inode' = i_target_d_name inode0 /\
          i_size inode0 <= i_size inode').
    { intros s1 inode1 block1 Ht Hot Hd Hp Hty Hli Hta Hsz Hblocks Hrun.
      injection Hrun as <- <-.
      split; [done|]. split; [done|]. split.
      { intros h Hh. unfold get_open_file_entry, inode_put, open_file_put.
        cbn. rewrite Hot. by apply pool_get_put_ne. }
      split.
      { intros j Hj. rewrite inode_get_put_ne by done.
        unfold inode_get. cbn. by rewrite Ht. }
      split.
      { intros j ino block Hj Hi Hnz Hb.
        destruct (Hblocks j ino block Hj Hi Hnz Hb) as [Hne Hb1].
        unfold data_block_get, inode_put. cbn.
        rewrite pool_get_put_ne by done. exact Hb1. }
      eexists inode, _. split; [done|]. split.
      { eapply inode_get_put_eq. unfold inode_get. cbn. rewrite Ht.
        exact Hino. }
      destruct (Z.ltb_spec (i_size inode1) (size_add (of_offset file) tw));
        simpl; repeat split; try done; lia. }
    destruct (Z.eqb_spec (i_size inode) 0) as [Hsz|Hsz].
    - destruct (Pool.find_free (fs_data s)) as [n|] eqn:Hn.
      2:{ rewrite (data_block_alloc_None _ Hn) in H. simpl in H.
          injection H as <- <-. repeat split; try done.
          exists inode, inode. repeat split; try done. }
      destruct (data_block_alloc_Some _ _ Hn) as (old & Hold & Halloc).
      rewrite Halloc in H.
      destruct (Z.eqb_spec (Z.of_nat n) (-1)); [lia|].
      unfold data_block_get in H. cbn [fs_data with_fs_data] in H.
      rewrite pool_get_insert_eq in H by (by eapply lookup_lt_Some).
      destruct (block_store old _ buffer _) as [new|]; [|done].
      eapply Hstep; [..|exact H]; try done.
      intros j ino block Hj Hi Hnz Hb. cbn.
      assert (Hne : i_data_block ino <> Z.of_nat n).
      { intros Heq. rewrite Heq in Hb. unfold data_block_get in Hb.
        by rewrite (find_free_get_None _ _ Hn) in Hb. }
      split; [done|]. unfold data_block_get. cbn.
      by rewrite pool_get_insert_ne.
    - destruct (data_block_get s (i_data_block inode)) as [old|] eqn:Hold;
        [|done].
      destruct (block_store old _ buffer _) as [new|]; [|done].
      eapply Hstep; [..|exact H]; try done.
      intros j ino block Hj Hi Hnz Hb. split; [|done].
      intros Heq. apply Hj.
      eapply (BInv_unshared _ _ _ HB j (of_inumber file)
                (i_node_type ino) (i_node_type inode)
                (i_size ino) (i_size inode) (i_data_block ino));
        [| |done|done].
      + by apply bmeta_get.
      + rewrite (bmeta_get _ _ _ Hino), Heq. reflexivity. }
  injection H as <- <-. repeat split; try done.
  exists inode, inode. repeat split; try done.
Qed.

(** X12: in every reachable state no file is longer than a block: the
    size of every inode is in [0, block_size] and at most the length of
    its block.  The offset of a handle has no such bound, it is only
    never negative: tfs_read moves a handle that is past the end of its
    file by the count it was asked for, past [block_size] too. *)
Theorem X12_sizes_within_block (M : nat) (s : FsState) :
  reachable M s ->
  0 <= state_block_size s ->
  (forall (i : Z) (ino : inode_t),
     inode_get s i = Some ino ->
     0 <= i_size ino <= state_block_size s /\
     forall block : list byte,
       data_block_get s (i_data_block ino) = Some block ->
       i_size ino <= Z.of_nat (length block)) /\
  (forall (fhandle : Z) (file : open_file_entry_t),
     get_open_file_entry s fhandle = Some file -> 0 <= of_offset file).
Proof.
  intros Hreach Hbs.
  destruct (reachable_bounded M s Hreach) as [Hsizes Hoffsets].
  destruct (reachable_well_formed M s Hreach) as [Hsized _].
  split.
  - intros i ino Hi. pose proof (Hsizes _ _ Hi) as Hsz.
    split; [lia|]. intros block [_ Hb]%pool_get_Some.
    rewrite (Hsized _ _ _ Hb). lia.
  - intros h file Hh. by eapply Hoffsets.
Qed.

(** ** tfs_open *)

Lemma skip_first_inj (a b : string) :
  valid_pathname a = true -> valid_pathname b = true ->
  skip_first a = skip_first b -> a = b.
Proof.
  unfold valid_pathname. destruct a as [|c a], b as [|c' b]; simpl;
    try (intros; by simplify_eq).
  intros [_ Hc%Ascii.eqb_eq]%andb_true_iff
         [_ Hc'%Ascii.eqb_eq]%andb_true_iff ->.
  congruence.
Qed.

(** A successful tfs_open that creates the file takes the first free
    inode. *)
Lemma tfs_open_creates_at (M fuel : nat) (s s' : FsState) (name : string)
    (mode h : Z) (m : nat) :
  valid_pathname name = true ->
  is_Some (inode_get s ROOT_DIR_INUM) ->
  tfs_lookup s name ROOT_DIR_INUM = -1 ->
  mode_has mode TFS_O_CREAT = true ->
  Pool.find_free (inode_table s) = Some m ->
  tfs_open M (S fuel) name mode s = Done h s' -> 0 <= h ->
  inode_get s (Z.of_nat m) = None /\
  inode_get s' (Z.of_nat m)
  = Some (mk_inode T_FILE 0 (-1) 1 EmptyString) /\
  tfs_lookup s' name ROOT_DIR_INUM = Z.of_nat m /\
  get_open_file_entry s h = None /\
  get_open_file_entry s' h = Some (mk_open_file (Z.of_nat m) 0) /\
  (forall j : Z, j <> Z.of_nat m -> inode_get s' j = inode_get s j) /\
  (forall other : string,
     valid_pathname other = true -> other <> name ->
     tfs_lookup s' other ROOT_DIR_INUM
     = tfs_lookup s other ROOT_DIR_INUM) /\
  (forall h' : Z,
     h' <> h -> get_open_file_entry s' h' = get_open_file_entry s h') /\
  fs_data s' = fs_data s.
Proof.
  intros Hv [root Hroot] Hlook Hcreat Hn H Hh.
  simpl in H. rewrite Hv, Hroot, Hlook, Hcreat in H. simpl in H.
  rewrite (inode_create_plain s T_FILE m) in H by done.
  destruct (Z.eqb_spec (Z.of_nat m) (-1)); [lia|].
  pose proof (find_free_lt _ _ Hn) as Hlt.
  set (s0 := with_inode_table s
       (<[m := (TAKEN, mk_inode T_FILE 0 (-1) 1 EmptyString)]>
          (inode_table s))) in *.
  assert (Hother0 : forall j : Z,
            j <> Z.of_nat m -> inode_get s0 j = inode_get s j).
  { intros j Hj. by apply pool_get_insert_ne. }
  destruct (add_dir_entry M s0 ROOT_DIR_INUM (skip_first name) (Z.of_nat m))
    as [r s2] eqn:Hadd.
  destruct (add_dir_entry_inode_table _ _ _ _ _ _ _ Hadd)
    as (Ht & Hd & Ho & Hp).
  destruct (add_dir_entry_cases _ _ _ _ _ _ _ Hadd)
    as [[-> ->]|(-> & _)]; simpl in H; [injection H as <- <-; lia|].
  destruct (add_to_open_file_table s2 (Z.of_nat m) 0) as [h1 s3] eqn:Hopen.
  injection H as <- <-.
  destruct (add_to_open_file_table_cases _ _ _ _ _ Hopen)
    as [(-> & _)|(_ & _ & Hfree & Hentry & Hothers & Ht3 & Hd3 & Hr3 & _)];
    [lia|].
  assert (Hrn : ROOT_DIR_INUM <> Z.of_nat m)
    by (apply (fresh_ne s m); [done|by eexists]).
  assert (Hget3 : forall j : Z, inode_get s3 j = inode_get s0 j).
  { intros j. unfold inode_get. by rewrite Ht3, Ht. }
  split; [by apply find_free_get_None|].
  split; [rewrite Hget3; by apply pool_get_insert_eq|].
  split.
  { unfold tfs_lookup. rewrite Hv. simpl.
    rewrite <- (find_in_dir_added M s0 s2 ROOT_DIR_INUM (Z.of_nat m)
                  (skip_first name) Hadd).
    apply find_in_dir_agree; [|done]. unfold inode_get. by rewrite Ht3. }
  split; [unfold get_open_file_entry in *; by rewrite Ho in Hfree|].
  split; [done|]. split.
  { intros j Hj. rewrite Hget3. by apply Hother0. }
  split.
  { intros other Hvo Hne. unfold tfs_lookup. rewrite Hvo. simpl.
    transitivity (find_in_dir s2 ROOT_DIR_INUM (skip_first other)).
    { apply find_in_dir_agree; [|done]. unfold inode_get. by rewrite Ht3. }
    rewrite (find_in_dir_add_other M s0 s2 _ _ _ _ _ Hadd).
    - apply find_in_dir_agree; [|done]. by apply Hother0.
    - intros Heq. apply Hne. by apply skip_first_inj.
    - by apply valid_pathname_sub. }
  split.
  { intros h' Hh'. rewrite (Hothers h' Hh').
    unfold get_open_file_entry. by rewrite Ho. }
  by rewrite Hd3, Hd.
Qed.

(** X3: tfs_open with CREAT of a valid path that the directory does not
    hold returns -1 and changes nothing when no inode is free.  When it
    succeeds, a free inode has become an empty file with one link, the
    path resolves to it, the handle, which was free, is at its offset 0
    (also with APPEND), and the other inodes, names, handles and the data
    blocks are unchanged. *)
Theorem X3_tfs_open_creates (M fuel : nat) (s : FsState) (name : string)
    (mode : Z) :
  valid_pathname name = true ->
  is_Some (inode_get s ROOT_DIR_INUM) ->
  tfs_lookup s name ROOT_DIR_INUM = -1 ->
  mode_has mode TFS_O_CREAT = true ->
  (Pool.find_free (inode_table s) = None ->
   tfs_open M (S fuel) name mode s = Done (-1) s) /\
  (forall (h : Z) (s' : FsState),
     tfs_open M (S fuel) name mode s = Done h s' -> 0 <= h ->
     exists n : Z,
       inode_get s n = None /\
       inode_get s' n = Some (mk_inode T_FILE 0 (-1) 1 EmptyString) /\
       tfs_lookup s' name ROOT_DIR_INUM = n /\
       get_open_file_entry s h = None /\
       get_open_file_entry s' h = Some (mk_open_file n 0) /\
       (forall j : Z, j <> n -> inode_get s' j = inode_get s j) /\
       (forall other : string,
          valid_pathname other = true -> other <> name ->
          tfs_lookup s' other ROOT_DIR_INUM
          = tfs_lookup s other ROOT_DIR_INUM) /\
       (forall h' : Z,
          h' <> h ->
          get_open_file_entry s' h' = get_open_file_entry s h') /\
       fs_data s' = fs_data s).
Proof.
  intros Hv Hroot Hlook Hcreat.
  assert (Hfull : Pool.find_free (inode_table s) = None ->
                  tfs_open M (S fuel) name mode s = Done (-1) s).
  { intros Hnone. destruct Hroot as [root Hroot]. simpl.
    rewrite Hv, Hroot, Hlook, Hcreat. simpl.
    by rewrite (inode_create_full _ _ Hnone). }
  split; [exact Hfull|].
  intros h s' H Hh.
  destruct (Pool.find_free (inode_table s)) as [m|] eqn:Hm.
  - exists (Z.of_nat m).
    by apply (tfs_open_creates_at M fuel s s' name mode h m).
  - rewrite (Hfull eq_refl) in H. injection H as <- <-. lia.
Qed.

(** X4: tfs_open of a path that names a file, with an open-file entry
    free, returns the first free handle, whatever CREAT says.  With TRUNC
    a file that is not empty gets size 0 and its data block is freed,
    the other blocks staying as they are; without, inode and blocks are
    unchanged.  The handle is at the size left by this (APPEND) or at 0;
    directory, other inodes and other handles are unchanged. *)
Theorem X4_tfs_open_file (M fuel : nat) (s : FsState) (name : string)
    (mode inum : Z) (inode : inode_t) (m : nat) :
  valid_pathname name = true ->
  is_Some (inode_get s ROOT_DIR_INUM) ->
  tfs_lookup s name ROOT_DIR_INUM = inum -> 0 <= inum ->
  inode_get s inum = Some inode ->
  i_node_type inode <> T_SYM_LINK ->
  Pool.find_free (open_file_table s) = Some m ->
  let truncate := mode_has mode TFS_O_TRUNC && (0 <? i_size inode) in
  exists s' : FsState,
    tfs_open M (S fuel) name mode s = Done (Z.of_nat m) s' /\
    get_open_file_entry s (Z.of_nat m) = None /\
    get_open_file_entry s' (Z.of_nat m)
    = Some (mk_open_file inum
              (if mode_has mode TFS_O_APPEND
               then if truncate then 0 else i_size inode
               else 0)) /\
    inode_get s' inum
    = Some (if truncate then set_i_size inode 0 else inode) /\
    (if truncate
     then data_block_get s' (i_data_block inode) = None /\
          forall b : Z,
            b <> i_data_block inode ->
            data_block_get s' b = data_block_get s b
     else fs_data s' = fs_data s) /\
    (forall j : Z, j <> inum -> inode_get s' j = inode_get s j) /\
    (forall h : Z,
       h <> Z.of_nat m ->
       get_open_file_entry s' h = get_open_file_entry s h) /\
    root_dir s' = root_dir s.
Proof.
  intros Hv Hroot Hlook Hpos Hino Hty Hm truncate.
  assert (Hsym : is_sym_link inode = false)
    by (unfold is_sym_link; by destruct (i_node_type inode)).
  rewrite (tfs_open_file_eq M fuel s name mode inum inode) by done.
  cbv zeta. fold truncate.
  destruct (truncated_frame s inum inode Hino)
    as (Hnew & Hother & _ & Hdir & Hot & _ & Hdata).
  match goal with
  | |- context [add_to_open_file_table ?s0 ?i ?o] =>
      set (s1 := s0) in *;
      destruct (add_to_open_file_table s1 i o) as [h s2] eqn:Hadd
  end.
  assert (Hot1 : open_file_table s1 = open_file_table s)
    by (unfold s1; by destruct truncate).
  destruct (add_to_open_file_table_cases _ _ _ _ _ Hadd)
    as [(_ & _ & Hfull)|(Hh & Hfree1 & Hfree & Hentry & Hothers & Ht & Hd
                          & Hr & _)];
    [congruence|].
  rewrite Hot1, Hm in Hfree1. injection Hfree1 as Hmh.
  assert (h = Z.of_nat m) as -> by lia.
  exists s2. split; [done|].
  unfold get_open_file_entry in *. rewrite Hot1 in Hfree, Hothers.
  split; [done|]. split; [done|].
  unfold inode_get, data_block_get in *. rewrite Ht, Hd, Hr.
  unfold s1. destruct truncate.
  - split; [done|]. split.
    { rewrite Hdata. split; [apply pool_get_free_eq|].
      intros b Hb. by apply pool_get_free_ne. }
    done.
  - done.
Qed.

(** X5: with the open-file table full, tfs_open of a path that names a
    file returns -1; but with TRUNC a file that is not empty has been
    truncated before that: its size is 0 and its data block is freed.
    Without TRUNC, or on an empty file, nothing changes. *)
Theorem X5_tfs_open_full_table_truncates (M fuel : nat) (s : FsState)
    (name : string) (mode inum : Z) (inode : inode_t) :
  valid_pathname name = true ->
  is_Some (inode_get s ROOT_DIR_INUM) ->
  tfs_lookup s name ROOT_DIR_INUM = inum -> 0 <= inum ->
  inode_get s inum = Some inode ->
  i_node_type inode <> T_SYM_LINK ->
  Pool.find_free (open_file_table s) = None ->
  exists s' : FsState,
    tfs_open M (S fuel) name mode s = Done (-1) s' /\
    if mode_has mode TFS_O_TRUNC && (0 <? i_size inode)
    then inode_get s' inum = Some (set_i_size inode 0) /\
         data_block_get s' (i_data_block inode) = None /\
         tfs_lookup s' name ROOT_DIR_INUM = inum
    else s' = s.
Proof.
  intros Hv Hroot Hlook Hpos Hino Hty Hfull.
  assert (Hsym : is_sym_link inode = false)
    by (unfold is_sym_link; by destruct (i_node_type inode)).
  rewrite (tfs_open_file_eq M fuel s name mode inum inode) by done.
  cbv zeta.
  destruct (truncated_frame s inum inode Hino)
    as (Hnew & _ & Hfind & _ & Hot & _ & Hdata).
  destruct (mode_has mode TFS_O_TRUNC && (0 <? i_size inode)).
  - rewrite add_to_open_file_table_full by (by rewrite Hot).
    eexists. split; [reflexivity|]. split; [done|]. split.
    + unfold data_block_get. rewrite Hdata. apply pool_get_free_eq.
    + unfold tfs_lookup in *. rewrite Hv in *. simpl in *.
      by rewrite Hfind.
  - rewrite add_to_open_file_table_full by done. by exists s.
Qed.

(** X6: in a reachable state, when the chain of symbolic links at the
    path ends, tfs_open returns and fails none of its assertions: the
    calls on itself being at most [depth], every fuel above [depth] gives
    the one result.  The state it leaves is reachable; it returns -1 or a
    handle that was free and is now at a regular file, at offset 0, or at
    the size of the file with APPEND, the file being empty with TRUNC. *)
Theorem X6_tfs_open_reachable (M depth : nat) (s : FsState) (name : string)
    (mode : Z) :
  reachable M s ->
  chain_ends depth s name = true ->
  exists (h : Z) (s' : FsState),
    (forall fuel : nat,
       (depth < fuel)%nat -> tfs_open M fuel name mode s = Done h s') /\
    reachable M s' /\
    (h = -1 \/
     (0 <= h /\ get_open_file_entry s h = None /\
      exists (n : Z) (ino : inode_t),
        get_open_file_entry s' h
        = Some (mk_open_file n
                  (if mode_has mode TFS_O_APPEND then i_size ino else 0)) /\
        inode_get s' n = Some ino /\
        i_node_type ino = T_FILE /\
        (mode_has mode TFS_O_TRUNC = true -> i_size ino = 0))).
Proof.
  intros Hreach Hchain. pose proof (reachable_inv M s Hreach) as HI.
  destruct (tfs_open_returns M depth s name mode HI Hchain)
    as (h & s' & Hopens).
  pose proof (Hopens (S depth) ltac:(lia)) as Hopen.
  exists h, s'. split; [exact Hopens|]. split.
  { by apply (reachable_call M s s' (S depth) (DoOpen name mode) h). }
  destruct (tfs_open_result M (S depth) s s' name mode h HI
              (reachable_block_inv M s Hreach)
              (reachable_bounded M s Hreach) Hopen)
    as [|(Hh & Hfree & n & ino & Hentry & Hino & Hty & _ & Hsz & _)];
    [by left|right].
  split; [done|]. split; [done|]. by exists n, ino.
Qed.

(** X7: the test of tfs_open against infinite recursion stops a link to
    itself only.  Let [P] be a set of paths, each resolving to a symbolic
    link whose target is another path of [P] (a cycle of two or more
    links, say): on a path of [P] tfs_open calls itself for ever, the
    model runs out of fuel whatever the fuel. *)
Theorem X7_tfs_open_sym_link_cycle (M : nat) (s : FsState)
    (P : string -> Prop) (mode : Z) :
  is_Some (inode_get s ROOT_DIR_INUM) ->
  (forall name : string,
     P name ->
     valid_pathname name = true /\
     exists inode : inode_t,
       0 <= tfs_lookup s name ROOT_DIR_INUM /\
       inode_get s (tfs_lookup s name ROOT_DIR_INUM) = Some inode /\
       i_node_type inode = T_SYM_LINK /\
       i_target_d_name inode <> name /\
       P (i_target_d_name inode)) ->
  forall (fuel : nat) (name : string),
    P name -> tfs_open M fuel name mode s = OutOfFuel.
Proof.
  intros Hroot Hclosed fuel.
  induction fuel as [|fuel IH]; intros name HP; [done|].
  destruct (Hclosed name HP)
    as (Hv & inode & Hpos & Hino & Hty & Hne & HP').
  destruct (tfs_open_sym_link M fuel s name mode _ inode Hv Hroot eq_refl
              Hpos Hino Hty) as [_ Hstep].
  rewrite (Hstep Hne). by apply IH.
Qed.

(** ** Links *)

Lemma inode_delete_frame (s : FsState) (i : Z) :
  open_file_table (inode_delete s i) = open_file_table s /\
  root_dir (inode_delete s i) = root_dir s /\
  fs_params (inode_delete s i) = fs_params s.
Proof.
  unfold inode_delete. destruct (inode_get s i) as [ino|]; [|done].
  by destruct (owns_block ino).
Qed.

(** X13: in a reachable state tfs_link, tfs_sym_link and tfs_unlink fail
    no assertion and follow no NULL pointer: each returns 0 or -1.
    tfs_link and tfs_unlink change nothing when they return -1.  None of
    them touches the open-file table, and the two that make links leave
    the data blocks alone. *)
Theorem X13_links_return (M : nat) (s : FsState)
    (target link_name : string) :
  reachable M s ->
  (exists (v : Z) (s' : FsState),
     tfs_link M target link_name s = Done v s' /\
     (v = 0 \/ v = -1 /\ s' = s) /\
     open_file_table s' = open_file_table s /\ fs_data s' = fs_data s) /\
  (exists (v : Z) (s' : FsState),
     tfs_sym_link M target link_name s = Done v s' /\
     (v = 0 \/ v = -1) /\
     open_file_table s' = open_file_table s /\ fs_data s' = fs_data s) /\
  (exists (v : Z) (s' : FsState),
     tfs_unlink target s = Done v s' /\
     (v = 0 \/ v = -1 /\ s' = s) /\
     open_file_table s' = open_file_table s).
Proof.
  intros Hreach. pose proof (reachable_inv M s Hreach) as HI.
  destruct (fs_inv_root s HI) as [root Hroot].
  split; [|split].
  - unfold tfs_link.
    destruct (negb (valid_pathname target)
              || negb (valid_pathname link_name));
      [exists (-1), s; by auto|].
    rewrite Hroot.
    destruct (tfs_lookup s target ROOT_DIR_INUM =? -1);
      [exists (-1), s; by auto|].
    destruct (inode_get s (tfs_lookup s target ROOT_DIR_INUM))
      as [itarget|]; [|exists (-1), s; by auto].
    destruct (is_sym_link itarget); [exists (-1), s; by auto|].
    destruct (add_dir_entry M s ROOT_DIR_INUM (skip_first link_name)
                (tfs_lookup s target ROOT_DIR_INUM)) as [r s1] eqn:Hadd.
    destruct (add_dir_entry_inode_table _ _ _ _ _ _ _ Hadd)
      as (_ & Hd & Ho & _).
    destruct (add_dir_entry_cases _ _ _ _ _ _ _ Hadd)
      as [[-> ->]|(-> & _)]; simpl.
    + exists (-1), s. by auto.
    + eexists 0, _. split; [reflexivity|]. split; [by left|done].
  - unfold tfs_sym_link.
    destruct (negb (valid_pathname link_name)
              || negb (valid_pathname target));
      [exists (-1), s; by auto|].
    rewrite Hroot.
    destruct (tfs_lookup s target ROOT_DIR_INUM =? -1);
      [exists (-1), s; by auto|].
    destruct (Pool.find_free (inode_table s)) as [n|] eqn:Hn.
    2:{ rewrite (inode_create_full _ _ Hn). exists (-1), s. by auto. }
    rewrite (inode_create_plain s T_SYM_LINK n) by done.
    destruct (Z.eqb_spec (Z.of_nat n) (-1)) as [|Hn1]; [lia|].
    set (s1 := with_inode_table s
         (<[n := (TAKEN, mk_inode T_SYM_LINK 0 (-1) 1 EmptyString)]>
            (inode_table s))).
    assert (H1 : inode_get s1 (Z.of_nat n)
                 = Some (mk_inode T_SYM_LINK 0 (-1) 1 EmptyString)).
    { apply pool_get_insert_eq. by eapply find_free_lt. }
    rewrite H1.
    assert (Hrn : ROOT_DIR_INUM <> Z.of_nat n)
      by (apply (fresh_ne s n); [done|by eexists]).
    rewrite inode_get_put_ne by done.
    unfold inode_get at 1. cbn [inode_table s1 with_inode_table].
    rewrite pool_get_insert_ne by done.
    unfold inode_get in Hroot. rewrite Hroot.
    match goal with
    | |- context [add_dir_entry M ?s2 ?d ?n0 ?i] =>
        destruct (add_dir_entry M s2 d n0 i) as [r s3] eqn:Hadd
    end.
    destruct (add_dir_entry_inode_table _ _ _ _ _ _ _ Hadd)
      as (_ & Hd & Ho & _).
    exists (if r =? -1 then -1 else 0), s3.
    split; [by destruct (r =? -1)|].
    split; [destruct (r =? -1); by auto|done].
  - unfold tfs_unlink.
    destruct (valid_pathname target) eqn:Hv; simpl;
      [|exists (-1), s; by auto].
    rewrite Hroot.
    destruct (Z.eqb_spec (tfs_lookup s target ROOT_DIR_INUM) (-1))
      as [|Hl]; [exists (-1), s; by auto|].
    destruct (inode_get s (tfs_lookup s target ROOT_DIR_INUM))
      as [i_target|] eqn:Hit; [|exists (-1), s; by auto].
    destruct (tfs_unlink_run s target _ i_target HI eq_refl Hl Hit)
      as (k & e & _ & _ & Hrun).
    unfold tfs_unlink in Hrun. rewrite Hv, Hroot, Hit in Hrun.
    simpl in Hrun.
    destruct (Z.eqb_spec (tfs_lookup s target ROOT_DIR_INUM) (-1));
      [done|].
    rewrite Hrun. eexists 0, _. split; [reflexivity|].
    split; [by left|]. simpl.
    destruct (_ <=? _); [apply inode_delete_frame|done].
Qed.

(** X14: in a reachable state, when tfs_link has given a file a second
    name, both names resolve to the inode, whose link count is one more.
    tfs_unlink of the first name then returns 0, the first name is gone,
    the second still resolves to the inode, and every inode, that one
    included, is as before the link, as are the data blocks and the
    open-file table.  If the file had one link before, tfs_unlink of the
    second name then deletes the inode and frees its data block. *)
Theorem X14_link_then_unlink (M : nat) (s s1 : FsState)
    (target link_name : string) :
  reachable M s ->
  tfs_link M target link_name s = Done 0 s1 ->
  exists (inum : Z) (itarget : inode_t) (s2 : FsState),
    tfs_lookup s target ROOT_DIR_INUM = inum /\
    inode_get s inum = Some itarget /\
    inode_get s1 inum = Some (set_i_links itarget (i_links itarget + 1)) /\
    tfs_lookup s1 target ROOT_DIR_INUM = inum /\
    tfs_lookup s1 link_name ROOT_DIR_INUM = inum /\
    tfs_unlink target s1 = Done 0 s2 /\
    tfs_lookup s2 target ROOT_DIR_INUM = -1 /\
    tfs_lookup s2 link_name ROOT_DIR_INUM = inum /\
    (forall j : Z, inode_get s2 j = inode_get s j) /\
    fs_data s2 = fs_data s /\ open_file_table s2 = open_file_table s /\
    (i_links itarget = 1 ->
     exists s3 : FsState,
       tfs_unlink link_name s2 = Done 0 s3 /\
       tfs_lookup s3 link_name ROOT_DIR_INUM = -1 /\
       inode_get s3 inum = None /\
       (owns_block itarget = true ->
        data_block_get s3 (i_data_block itarget) = None)).
Proof.
  intros Hreach Hlink.
  pose proof (reachable_inv M s Hreach) as HI.
  assert (Hreach1 : reachable M s1)
    by (by apply (reachable_call M s s1 0 (DoLink target link_name) 0)).
  pose proof (reachable_inv M s1 Hreach1) as HI1.
  unfold tfs_link in Hlink.
  destruct (valid_pathname target) eqn:Hvt; [|done].
  destruct (valid_pathname link_name) eqn:Hvl; [|done].
  simpl in Hlink.
  destruct (inode_get s ROOT_DIR_INUM) as [root|] eqn:Hroot; [|done].
  destruct (Z.eqb_spec (tfs_lookup s target ROOT_DIR_INUM) (-1)) as [|Hl];
    [done|].
  set (inum := tfs_lookup s target ROOT_DIR_INUM) in *.
  destruct (inode_get s inum) as [itarget|] eqn:Hit; [|done].
  destruct (is_sym_link itarget); [done|].
  destruct (add_dir_entry M s ROOT_DIR_INUM (skip_first link_name) inum)
    as [r s0] eqn:Hadd.
  destruct (add_dir_entry_inode_table _ _ _ _ _ _ _ Hadd)
    as (Ht0 & Hd0 & Ho0 & _).
  destruct (add_dir_entry_cases _ _ _ _ _ _ _ Hadd)
    as [[-> ->]|(-> & _ & _ & Hnone & _)]; [done|].
  simpl in Hlink. injection Hlink as <-.
  set (ino1 := set_i_links itarget (i_links itarget + 1)) in *.
  destruct (tfs_lookup_entry s target inum eq_refl Hl)
    as (_ & _ & k & e & Hfind & He).
  assert (Hsubs : skip_first target <> skip_first link_name)
    by (intros Heq; rewrite Heq in Hfind; congruence).
  pose proof (valid_pathname_sub _ Hvt) as Hts.
  pose proof (valid_pathname_sub _ Hvl) as Hls.
  apply pool_get_Some in Hit as Hpos. destruct Hpos as [Hpos _].
  assert (Hit0 : inode_get s0 inum = Some itarget)
    by (unfold inode_get in *; by rewrite Ht0).
  assert (Hino1 : inode_get (inode_put s0 inum ino1) inum = Some ino1)
    by (by apply (inode_get_put_eq _ _ itarget)).
  assert (Hlook1 : tfs_lookup (inode_put s0 inum ino1) target ROOT_DIR_INUM
                   = inum).
  { unfold tfs_lookup. rewrite Hvt. simpl.
    rewrite (find_in_dir_put _ _ _ itarget) by done.
    rewrite (find_in_dir_add_other M s s0 _ _ _ _ _ Hadd) by done.
    unfold inum, tfs_lookup. by rewrite Hvt. }
  assert (Hlook1' : tfs_lookup (inode_put s0 inum ino1) link_name
                      ROOT_DIR_INUM = inum).
  { unfold tfs_lookup. rewrite Hvl. simpl.
    rewrite (find_in_dir_put _ _ _ itarget) by done.
    by apply (find_in_dir_added M s). }
  destruct (tfs_unlink_run _ target inum ino1 HI1 Hlook1 Hl Hino1)
    as (k' & e' & Hfind' & Hir & Hrun).
  assert (Hlinks : 1 <= i_links itarget).
  { apply list_find_Some in Hfind as (Hk & _ & _).
    pose proof (refs_pos inum _ k e Hk He) as Hrefs.
    pose proof (Inv_refs _ _ HI inum Hpos) as Hle.
    unfold link_bound, meta in Hle. rewrite Hit in Hle. lia. }
  change (i_links ino1) with (i_links itarget + 1) in Hrun.
  destruct (Z.leb_spec (i_links itarget + 1 - 1) 0); [lia|].
  assert (Hback : set_i_links ino1 (i_links itarget + 1 - 1) = itarget).
  { destruct itarget. unfold set_i_links. simpl. f_equal. lia. }
  rewrite Hback in Hrun.
  match type of Hrun with
  | _ = Done 0 ?x => set (s2 := x) in *
  end.
  apply list_find_Some in Hfind' as Hfind2.
  destruct Hfind2 as (Hk' & He' & _).
  assert (Hdir2 : is_directory s2 ROOT_DIR_INUM
                  = is_directory (inode_put s0 inum ino1) ROOT_DIR_INUM).
  { apply is_directory_agree.
    change (inode_get (inode_put (inode_put s0 inum ino1) inum itarget)
              ROOT_DIR_INUM
            = inode_get (inode_put s0 inum ino1) ROOT_DIR_INUM).
    by rewrite inode_get_put_ne. }
  assert (Hgone2 : tfs_lookup s2 target ROOT_DIR_INUM = -1).
  { unfold tfs_lookup, find_in_dir. rewrite Hvt. simpl.
    change (root_dir s0) with (root_dir (inode_put s0 inum ino1)).
    rewrite (list_find_cleared _ _ _ _ (Inv_unique _ _ HI1) Hfind' Hts).
    by case_match. }
  assert (Hkept2 : tfs_lookup s2 link_name ROOT_DIR_INUM = inum).
  { transitivity (tfs_lookup (inode_put s0 inum ino1) link_name
                    ROOT_DIR_INUM); [|exact Hlook1'].
    unfold tfs_lookup. rewrite Hvl. simpl.
    unfold find_in_dir. rewrite Hdir2. unfold s2.
    cbn [root_dir with_root_dir inode_put with_inode_table].
    cbn [root_dir with_root_dir inode_put with_inode_table] in Hk'.
    rewrite (list_find_insert_neither (entry_named (skip_first link_name))
               _ k' e'); try done.
    + unfold entry_named in *. congruence.
    + unfold entry_named. simpl. congruence. }
  assert (Hinodes2 : forall j : Z, inode_get s2 j = inode_get s j).
  { intros j.
    change (inode_get (inode_put (inode_put s0 inum ino1) inum itarget) j
            = inode_get s j).
    destruct (decide (j = inum)) as [->|Hj].
    + rewrite (inode_get_put_eq _ _ ino1) by done. by rewrite Hit.
    + rewrite !inode_get_put_ne by done. unfold inode_get. by rewrite Ht0. }
  exists inum, itarget, s2.
  do 5 (split; [done|]). split; [exact Hrun|].
  do 5 (split; [done|]).
  intros Hone.
  assert (HI2 : fs_inv s2).
  { apply (reachable_inv M).
    by apply (reachable_call M _ s2 0 (DoUnlink target) 0 Hreach1). }
  assert (Hit2 : inode_get s2 inum = Some itarget)
    by (by rewrite Hinodes2).
  destruct (tfs_unlink_run s2 link_name inum itarget HI2 Hkept2 Hl Hit2)
    as (k2 & e2 & Hfind2 & _ & Hrun2).
  rewrite Hone in Hrun2. change (1 - 1 <=? 0) with true in Hrun2.
  cbv iota in Hrun2.
  eexists. split; [exact Hrun2|]. split; [|split].
  - unfold tfs_lookup, find_in_dir. rewrite Hvl.
    cbn [negb root_dir with_root_dir].
    rewrite (list_find_cleared _ _ _ _ (Inv_unique _ _ HI2) Hfind2 Hls).
    by case_match.
  - unfold inode_delete. rewrite Hit2. unfold inode_get. simpl.
    apply pool_get_free_eq.
  - intros Hown. unfold inode_delete. rewrite Hit2, Hown.
    unfold data_block_get. simpl. apply pool_get_free_eq.
Qed.

(** ** tfs_init *)

Lemma find_free_replicate {A : Type} (n : nat) (a : A) :
  Pool.find_free (replicate n (FREE, a))
  = match n with O => None | S _ => Some 0%nat end.
Proof. by destruct n. Qed.

(** X1: tfs_init, on the parameters given or on the defaults for NULL,
    returns 0 exactly when there is at least one inode and one data
    block, and -1 otherwise.  The file system it leaves has these
    parameters, the root directory as its only inode, holding the only
    data block taken, no path that resolves and no open handle. *)
Theorem X1_tfs_init (params_ptr : option tfs_params) :
  let params :=
    match params_ptr with
    | Some params => params
    | None => tfs_default_params
    end in
  (0 < max_inode_count params /\ 0 < max_block_count params ->
   exists (s : FsState) (root : inode_t),
     tfs_init params_ptr = Done 0 s /\
     fs_params s = params /\
     inode_get s ROOT_DIR_INUM = Some root /\
     i_node_type root = T_DIRECTORY /\
     (forall i : Z, i <> ROOT_DIR_INUM -> inode_get s i = None) /\
     (forall b : Z,
        is_Some (data_block_get s b) <-> b = i_data_block root) /\
     (forall name : string, tfs_lookup s name ROOT_DIR_INUM = -1) /\
     (forall fhandle : Z, get_open_file_entry s fhandle = None)) /\
  (max_inode_count params <= 0 \/ max_block_count params <= 0 ->
   exists s : FsState, tfs_init params_ptr = Done (-1) s).
Proof.
  intros params. unfold tfs_init. fold params. clearbody params.
  pose proof (find_free_replicate (Z.to_nat (max_inode_count params))
                (mk_inode T_FILE 0 (-1) 0 EmptyString)) as Hn.
  pose proof (find_free_replicate (Z.to_nat (max_block_count params))
                (replicate (Z.to_nat (block_size params)) x00%byte)) as Hm.
  change (replicate (Z.to_nat (max_inode_count params)) _)
    with (inode_table (state_init params)) in Hn.
  change (replicate (Z.to_nat (max_block_count params)) _)
    with (fs_data (state_init params)) in Hm.
  unfold inode_create. split.
  - intros [Hi Hb].
    destruct (Z.to_nat (max_inode_count params)) as [|ni] eqn:Hni; [lia|].
    destruct (Z.to_nat (max_block_count params)) as [|nb] eqn:Hnb; [lia|].
    rewrite Hn.
    destruct (data_block_alloc_Some _ _ Hm) as (zeros & Hz & ->).
    pose proof (find_free_lt _ _ Hn) as Hlt.
    pose proof (find_free_lt _ _ Hm) as Hltb.
    change (Z.of_nat 0 =? -1) with false.
    change (Z.of_nat 0 =? ROOT_DIR_INUM) with true. cbv iota.
    eexists _, (mk_inode T_DIRECTORY 0 (Z.of_nat 0) 1 EmptyString).
    split; [reflexivity|]. split; [done|].
    split; [by apply (pool_get_insert_eq (inode_table (state_init params)))|].
    split; [done|]. split.
    { intros i Hne. unfold inode_get. cbn.
      rewrite pool_get_insert_ne by done.
      apply pool_get_replicate_free. }
    split.
    { intros b. unfold data_block_get. cbn. split.
      - intros Hsome. destruct (decide (b = Z.of_nat 0)) as [|Hne]; [done|].
        rewrite pool_get_insert_ne in Hsome by done.
        rewrite pool_get_replicate_free in Hsome. by destruct Hsome.
      - intros ->.
        rewrite (pool_get_insert_eq (fs_data (state_init params)))
          by done.
        by eexists. }
    split.
    { intros name. unfold tfs_lookup, find_in_dir.
      destruct (valid_pathname name) eqn:Hv; [|done]. simpl.
      apply valid_pathname_sub in Hv.
      destruct (list_find _ _) as [[k e]|] eqn:Hf; [|by case_match].
      apply list_find_Some in Hf as (Hk & He & _).
      apply lookup_replicate in Hk as [-> _]. by destruct Hv. }
    intros h. unfold get_open_file_entry. cbn.
    apply pool_get_replicate_free.
  - intros Hbad.
    destruct (Z.to_nat (max_inode_count params)) as [|ni] eqn:Hni.
    { rewrite Hn. by eexists. }
    destruct (Z.to_nat (max_block_count params)) as [|nb] eqn:Hnb; [|lia].
    rewrite Hn, (data_block_alloc_None _ Hm). by eexists.
Qed.

(** ** Paths in reachable states *)

(** X2: in a reachable state the directory does not dangle: a path that
    tfs_lookup resolves to an inumber that is not negative is a valid
    path, and the inumber is that of an inode that exists, is not the
    root and is no directory, with at least one link, and exactly one if
    it is a symbolic link. *)
Theorem X2_tfs_lookup_live (M : nat) (s : FsState) (name : string)
    (inum : Z) :
  reachable M s ->
  tfs_lookup s name ROOT_DIR_INUM = inum -> 0 <= inum ->
  valid_pathname name = true /\
  inum <> ROOT_DIR_INUM /\
  exists ino : inode_t,
    inode_get s inum = Some ino /\
    i_node_type ino <> T_DIRECTORY /\
    1 <= i_links ino /\
    (i_node_type ino = T_SYM_LINK -> i_links ino = 1).
Proof.
  intros Hreach Hlook Hpos.
  pose proof (reachable_inv M s Hreach) as HI.
  pose proof (reachable_block_inv M s Hreach) as HB.
  destruct (tfs_lookup_live s name inum HI Hlook Hpos) as [Hnr [ino Hino]].
  destruct (tfs_lookup_entry s name inum Hlook ltac:(lia))
    as (Hv & _ & k & e & Hfind & He).
  split; [done|]. split; [done|]. exists ino. split; [done|].
  split; [|split].
  - intros Hty. apply Hnr. eapply (BInv_one_dir _ _ _ HB inum).
    rewrite (bmeta_get _ _ _ Hino), Hty. reflexivity.
  - apply list_find_Some in Hfind as (Hk & _ & _).
    pose proof (refs_pos inum _ k e Hk He) as Hrefs.
    pose proof (Inv_refs _ _ HI inum Hpos) as Hle.
    unfold link_bound, meta in Hle. rewrite Hino in Hle. lia.
  - intros Hty. eapply (Inv_sym _ _ HI inum).
    unfold meta. by rewrite Hino, Hty.
Qed.

(** ** Two handles on one file *)

(** X17: offsets belong to handles, the content to the file.  In a
    reachable state let two handles be open on the same inode, one at the
    end of the file and one at its start, through which a read of a block
    would return [content].  After a tfs_write of [chunk] through the
    first, which appends the [k] bytes that fit in the block, the read
    through the second returns [content] followed by these bytes. *)
Theorem X17_write_seen_by_other_handle (M : nat) (s s0 : FsState)
    (h1 h2 n : Z) (ino : inode_t) (content chunk : list byte) :
  reachable M s ->
  0 <= state_block_size s < 2 ^ 63 ->
  Z.of_nat (length chunk) < 2 ^ 63 ->
  h1 <> h2 ->
  get_open_file_entry s h1 = Some (mk_open_file n (i_size ino)) ->
  get_open_file_entry s h2 = Some (mk_open_file n 0) ->
  inode_get s n = Some ino ->
  tfs_read h2 (state_block_size s) s
  = Done (Z.of_nat (length content), content) s0 ->
  (i_size ino = 0 -> Pool.find_free (fs_data s) <> None) ->
  let k := Z.min (Z.of_nat (length chunk))
                 (state_block_size s - Z.of_nat (length content)) in
  exists s1 s2 : FsState,
    tfs_write h1 chunk (Z.of_nat (length chunk)) s = Done k s1 /\
    tfs_read h2 (state_block_size s) s1
    = Done (Z.of_nat (length content) + k,
            content ++ take (Z.to_nat k) chunk) s2.
Proof.
  intros Hreach Hbs Hchunk Hne Hfile1 Hfile2 Hino Hread Hfree k.
  destruct (reachable_bounded M s Hreach) as [Hsizes _].
  destruct (reachable_well_formed M s Hreach) as [Hsized Howned].
  pose proof (Hsizes _ _ Hino) as Hsz.
  (* what the read through [h2] says of the file *)
  assert (Hcontent :
            i_size ino = Z.of_nat (length content) /\
            (content <> [] ->
             exists block : list byte,
               data_block_get s (i_data_block ino) = Some block /\
               take (length content) block = content)).
  { unfold tfs_read in Hread. rewrite Hfile2 in Hread.
    cbn [of_inumber of_offset] in Hread. rewrite Hino in Hread.
    assert (Hsub : size_sub (i_size ino) 0 = i_size ino).
    { unfold size_sub, SIZE_MODULUS. rewrite Z.sub_0_r.
      apply Z.mod_small. lia. }
    rewrite Hsub in Hread.
    destruct (Z.ltb_spec (state_block_size s) (i_size ino)); [lia|].
    rewrite to_ssize_t_small in Hread by lia.
    destruct (Z.ltb_spec 0 (i_size ino)) as [Hpos|Hzero].
    - destruct (data_block_get s (i_data_block ino)) as [block|] eqn:Hb;
        [|done].
      pose proof Hb as [_ Hin]%pool_get_Some. apply Hsized in Hin.
      rewrite (arena_load_inside (fs_data s) _ 0 (i_size ino) block
                 (take (Z.to_nat (i_size ino)) block) Hb) in Hread;
        [|lia|].
      2:{ unfold block_load. rewrite Z.add_0_l.
          destruct (Z.leb_spec (i_size ino) (Z.of_nat (length block)));
            [|lia].
          change (Z.to_nat 0) with 0%nat. by rewrite drop_0. }
      injection Hread as Hlen Hbytes _.
      split; [done|]. intros _. exists block. split; [done|].
      rewrite <- Hbytes at 2. f_equal. lia.
    - injection Hread as Hlen <- _. split; [done|]. done. }
  destruct Hcontent as [Hsize Hblock].
  rewrite Hsize in Hfile1, Hfree.
  destruct (tfs_write_end s h1 n ino content chunk)
    as (s1 & ino1 & Hwrite & _ & Hino1 & _ & _ & Hsz1 & Hblock1 & _ & _
        & Hhandles & _ & Hpar); try done; try lia.
  { intros ->. by apply Hfree. }
  fold k in Hwrite, Hsz1, Hblock1.
  assert (Hbs1 : state_block_size s1 = state_block_size s)
    by (unfold state_block_size; by rewrite Hpar).
  assert (Hk : 0 <= k <= state_block_size s - Z.of_nat (length content))
    by (unfold k; lia).
  assert (Hlen1 : Z.of_nat (length (content ++ take (Z.to_nat k) chunk))
                  = Z.of_nat (length content) + k).
  { rewrite length_app, length_take. unfold k in *. lia. }
  destruct (tfs_read_whole s1 h2 n ino1
              (content ++ take (Z.to_nat k) chunk)) as [s2 Hread2];
    try done.
  { rewrite (Hhandles h2) by done. exact Hfile2. }
  { rewrite Hbs1. lia. }
  { rewrite Hbs1. lia. }
  exists s1, s2. split; [done|].
  rewrite Hbs1, Hlen1 in Hread2. exact Hread2.
Qed.

(** ** Symbolic links, followed and left dangling *)

(** What tfs_unlink leaves of the names and of the other inodes. *)
Lemma tfs_unlink_effect (s s' : FsState) (target : string) :
  fs_inv s ->
  tfs_unlink target s = Done 0 s' ->
  exists (inum : Z) (ino : inode_t),
    valid_pathname target = true /\
    tfs_lookup s target ROOT_DIR_INUM = inum /\ 0 <= inum /\
    inode_get s inum = Some ino /\
    tfs_lookup s' target ROOT_DIR_INUM = -1 /\
    (forall other : string,
       valid_pathname other = true -> other <> target ->
       tfs_lookup s' other ROOT_DIR_INUM
       = tfs_lookup s other ROOT_DIR_INUM) /\
    (forall j : Z, j <> inum -> inode_get s' j = inode_get s j).
Proof.
  intros HI H.
  assert (Hv : valid_pathname target = true).
  { unfold tfs_unlink in H. by destruct (valid_pathname target). }
  assert (Hl : tfs_lookup s target ROOT_DIR_INUM <> -1).
  { intros Hl. unfold tfs_unlink in H. rewrite Hv, Hl in H. simpl in H.
    by destruct (inode_get s ROOT_DIR_INUM). }
  destruct (inode_get s (tfs_lookup s target ROOT_DIR_INUM))
    as [ino|] eqn:Hit.
  2:{ unfold tfs_unlink in H. rewrite Hv, Hit in H. simpl in H.
      destruct (inode_get s ROOT_DIR_INUM); [|done].
      by destruct (_ =? _). }
  set (inum := tfs_lookup s target ROOT_DIR_INUM) in *.
  destruct (tfs_unlink_run s target inum ino HI eq_refl Hl Hit)
    as (k & e & Hfind & Hir & Hrun).
  rewrite Hrun in H. injection H as <-.
  set (s1 := if i_links ino - 1 <=? 0 then inode_delete s inum
             else inode_put s inum (set_i_links ino (i_links ino - 1))).
  assert (Hsame : forall j : Z, j <> inum ->
            inode_get s1 j = inode_get s j).
  { intros j Hj. unfold s1. destruct (_ <=? _).
    - unfold inode_delete. rewrite Hit. unfold inode_get. simpl.
      rewrite pool_get_free_ne by done. by destruct (owns_block ino).
    - by rewrite inode_get_put_ne. }
  assert (Hd1 : root_dir s1 = root_dir s).
  { unfold s1. destruct (_ <=? _); [apply root_dir_delete|done]. }
  pose proof (valid_pathname_sub _ Hv) as Hsub.
  exists inum, ino. split; [done|]. split; [done|].
  split; [apply pool_get_Some in Hit; lia|]. split; [done|].
  split; [|split].
  - unfold tfs_lookup, find_in_dir. rewrite Hv. simpl.
    rewrite (list_find_cleared _ _ _ _ (Inv_unique _ _ HI) Hfind Hsub).
    by destruct (is_directory _ _).
  - intros other Hvo Hne. unfold tfs_lookup. rewrite Hvo. simpl.
    unfold find_in_dir.
    change (is_directory (with_root_dir s1 _) ROOT_DIR_INUM)
      with (is_directory s1 ROOT_DIR_INUM).
    rewrite (is_directory_agree s s1) by (by apply Hsame).
    simpl. apply list_find_Some in Hfind as (Hk & He & _).
    rewrite (list_find_insert_neither (entry_named (skip_first other))
               _ k e); try done.
    + unfold entry_named in *. intros E. apply Hne.
      apply skip_first_inj; congruence.
    + unfold entry_named. simpl. apply valid_pathname_sub in Hvo.
      congruence.
  - intros j Hj. by apply Hsame.
Qed.

(** X18: in a reachable state, after tfs_sym_link has made [link_name] a
    symbolic link to [target], tfs_open of the link is tfs_open of the
    target, with the same mode.  Once the target is unlinked the link
    dangles: the target no longer resolves, tfs_open of the link is still
    tfs_open of the target, and so returns -1 for the modes without
    CREAT. *)
Theorem X18_sym_link_followed (M : nat) (s s1 : FsState)
    (target link_name : string) :
  reachable M s ->
  tfs_sym_link M target link_name s = Done 0 s1 ->
  (forall (fuel : nat) (mode : Z),
     tfs_open M (S fuel) link_name mode s1
     = tfs_open M fuel target mode s1) /\
  (forall s2 : FsState,
     tfs_unlink target s1 = Done 0 s2 ->
     tfs_lookup s2 target ROOT_DIR_INUM = -1 /\
     (forall (fuel : nat) (mode : Z),
        tfs_open M (S fuel) link_name mode s2
        = tfs_open M fuel target mode s2) /\
     (forall (fuel : nat) (mode : Z),
        mode_has mode TFS_O_CREAT = false ->
        tfs_open M (S (S fuel)) link_name mode s2 = Done (-1) s2)).
Proof.
  intros Hreach Hsym.
  pose proof (reachable_inv M s Hreach) as HI.
  assert (Hreach1 : reachable M s1)
    by (by apply (reachable_call M s s1 0
                    (DoSymLink target link_name) 0)).
  pose proof (reachable_inv M s1 Hreach1) as HI1.
  assert (Hne : target <> link_name).
  { intros ->. by apply tfs_sym_link_self in Hsym. }
  (* the link that was made *)
  assert (Hmade : exists n : Z,
            valid_pathname target = true /\
            valid_pathname link_name = true /\
            0 <= n /\ inode_get s n = None /\
            inode_get s1 n = Some (mk_inode T_SYM_LINK 0 (-1) 1 target) /\
            tfs_lookup s1 link_name ROOT_DIR_INUM = n /\
            tfs_lookup s1 target ROOT_DIR_INUM
            = tfs_lookup s target ROOT_DIR_INUM).
  { assert (Hvl : valid_pathname link_name = true).
    { unfold tfs_sym_link in Hsym.
      by destruct (valid_pathname link_name). }
    assert (Hvt : valid_pathname target = true).
    { unfold tfs_sym_link in Hsym. rewrite Hvl in Hsym.
      by destruct (valid_pathname target). }
    assert (Hl : tfs_lookup s target ROOT_DIR_INUM <> -1).
    { intros Hl. unfold tfs_sym_link in Hsym.
      rewrite Hvl, Hvt, Hl in Hsym. simpl in Hsym.
      by destruct (inode_get s ROOT_DIR_INUM). }
    destruct (Pool.find_free (inode_table s)) as [n|] eqn:Hn.
    2:{ unfold tfs_sym_link in Hsym.
        rewrite Hvl, Hvt, (inode_create_full _ _ Hn) in Hsym.
        simpl in Hsym. destruct (inode_get s ROOT_DIR_INUM); [|done].
        by destruct (_ =? _). }
    destruct (tfs_sym_link_run M s target link_name n Hvt Hvl
                (fs_inv_root s HI) Hl Hn)
      as (s0 & Hnew & Hother & Hdir & Hrun).
    rewrite Hrun in Hsym.
    destruct (add_dir_entry M s0 ROOT_DIR_INUM (skip_first link_name)
                (Z.of_nat n)) as [r s3] eqn:Hadd.
    destruct (add_dir_entry_cases _ _ _ _ _ _ _ Hadd)
      as [[-> ->]|(-> & _)]; [done|].
    simpl in Hsym. injection Hsym as <-.
    exists (Z.of_nat n). split; [done|]. split; [done|].
    split; [lia|]. split; [by apply find_free_get_None|].
    split; [|split].
    - by rewrite (add_dir_entry_inode_get _ _ _ _ _ _ _ _ Hadd).
    - unfold tfs_lookup. rewrite Hvl. simpl.
      by apply (find_in_dir_added M s0).
    - unfold tfs_lookup. rewrite Hvt. simpl.
      rewrite (find_in_dir_add_other M s0 s3 _ _ _ _ _ Hadd).
      + apply find_in_dir_agree; [|done]. apply Hother.
        apply (fresh_ne s n); [done|]. by apply fs_inv_root.
      + intros Heq. apply Hne. by apply skip_first_inj.
      + by apply valid_pathname_sub. }
  destruct Hmade
    as (n & Hvt & Hvl & Hpos & Hfree & Hino1 & Hlook1 & Hlookt).
  split.
  { intros fuel mode.
    by apply (tfs_open_sym_link M fuel s1 link_name mode n
                (mk_inode T_SYM_LINK 0 (-1) 1 target) Hvl
                (fs_inv_root s1 HI1) Hlook1 Hpos Hino1 eq_refl). }
  intros s2 Hunlink.
  assert (Hreach2 : reachable M s2)
    by (by apply (reachable_call M s1 s2 0 (DoUnlink target) 0)).
  pose proof (reachable_inv M s2 Hreach2) as HI2.
  destruct (tfs_unlink_effect s1 s2 target HI1 Hunlink)
    as (m & ino & _ & Hlookm & Hm & Hinom & Hgone & Hnames & Hinodes).
  assert (Hmn : n <> m).
  { intros <-. rewrite Hlookt in Hlookm.
    destruct (tfs_lookup_live s target n HI Hlookm Hpos) as [_ [x Hx]].
    congruence. }
  assert (Hlook2 : tfs_lookup s2 link_name ROOT_DIR_INUM = n).
  { rewrite Hnames by done. exact Hlook1. }
  assert (Hino2 : inode_get s2 n
                  = Some (mk_inode T_SYM_LINK 0 (-1) 1 target))
    by (by rewrite Hinodes).
  assert (Hfollow : forall (fuel : nat) (mode : Z),
            tfs_open M (S fuel) link_name mode s2
            = tfs_open M fuel target mode s2).
  { intros fuel mode.
    by apply (tfs_open_sym_link M fuel s2 link_name mode n
                (mk_inode T_SYM_LINK 0 (-1) 1 target) Hvl
                (fs_inv_root s2 HI2) Hlook2 Hpos Hino2 eq_refl). }
  split; [done|]. split; [done|].
  intros fuel mode Hmode. rewrite Hfollow. simpl.
  destruct (fs_inv_root s2 HI2) as [root Hroot].
  by rewrite Hvt, Hroot, Hgone, Hmode.
Qed.

(** ** A handle whose inode was deleted *)

(** X20: tfs_unlink leaves the handles of the file it deletes open.
    In a reachable state where the inode of such a handle is the first
    free one, the next file that tfs_open creates takes that inode: the
    new path resolves to the inumber the old handle holds, and the old
    handle and the new one are two handles on the new, empty file. *)
Theorem X20_stale_handle_reattached (M fuel : nat) (s s' : FsState)
    (name : string) (mode h h' : Z) (file : open_file_entry_t) :
  reachable M s ->
  get_open_file_entry s h = Some file ->
  Pool.find_free (inode_table s) = Some (Z.to_nat (of_inumber file)) ->
  valid_pathname name = true ->
  tfs_lookup s name ROOT_DIR_INUM = -1 ->
  mode_has mode TFS_O_CREAT = true ->
  tfs_open M (S fuel) name mode s = Done h' s' -> 0 <= h' ->
  inode_get s (of_inumber file) = None /\
  h' <> h /\
  tfs_lookup s' name ROOT_DIR_INUM = of_inumber file /\
  inode_get s' (of_inumber file)
  = Some (mk_inode T_FILE 0 (-1) 1 EmptyString) /\
  get_open_file_entry s' h = Some file /\
  get_open_file_entry s' h' = Some (mk_open_file (of_inumber file) 0).
Proof.
  intros Hreach Hfile Hfree Hv Hlook Hcreat Hopen Hh'.
  pose proof (fs_inv_root s (reachable_inv M s Hreach)) as Hroot.
  assert (Hpos : 0 <= of_inumber file).
  { destruct (Z.le_gt_cases 0 (of_inumber file)) as [|Hneg]; [done|].
    replace (Z.to_nat (of_inumber file)) with 0%nat in Hfree by lia.
    apply find_free_get_None in Hfree. destruct Hroot as [root Hroot].
    change (inode_get s ROOT_DIR_INUM = None) in Hfree. congruence. }
  destruct (tfs_open_creates_at M fuel s s' name mode h' _ Hv Hroot Hlook
              Hcreat Hfree Hopen Hh')
    as (Hnone & Hino & Hlook' & Hfree' & Hentry & _ & _ & Hothers & _).
  rewrite Z2Nat.id in Hnone, Hino, Hlook', Hentry by done.
  assert (Hne : h' <> h) by (intros ->; congruence).
  split; [done|]. split; [done|]. split; [done|]. split; [done|].
  split; [|done]. by rewrite Hothers.
Qed.

(* ================================================================== *)
(** * The properties on the scenarios *)

Lemma fs_fresh_reachable : reachable 40 fs_fresh.
Proof. apply (scenario_reachable []). vm_compute. reflexivity. Qed.

Lemma fs_f_open_reachable : reachable 40 fs_f_open.
Proof.
  apply (scenario_reachable [DoOpen "/f" TFS_O_CREAT]).
  vm_compute. reflexivity.
Qed.

Lemma fs_a_reachable : reachable 40 fs_a.
Proof.
  apply (scenario_reachable [DoOpen "/a" TFS_O_CREAT; DoClose 0]).
  vm_compute. reflexivity.
Qed.

Lemma fs_links_reachable : reachable 40 fs_links.
Proof.
  apply (scenario_reachable
           [DoOpen "/a" TFS_O_CREAT; DoClose 0; DoLink "/a" "/b";
            DoSymLink "/a" "/s"]).
  vm_compute. reflexivity.
Qed.

(** With the only data block taken by the root, the write of the round
    trip returns -1 and the read returns no byte: C1 as stated fails. *)
Lemma C1_counterexample :
  exists s0 s1 s2 s3 s4 s5 : FsState,
    tfs_init (Some one_block_params) = Done 0 s0 /\
    tfs_lookup s0 "/f" ROOT_DIR_INUM = -1 /\
    tfs_open 40 1 "/f" (Z.lor TFS_O_CREAT TFS_O_TRUNC) s0 = Done 0 s1 /\
    tfs_write 0 ["x"%byte] 1 s1 = Done (-1) s2 /\
    tfs_close 0 s2 = Done 0 s3 /\
    tfs_open 40 1 "/f" 0 s3 = Done 0 s4 /\
    tfs_read 0 8 s4 = Done (0, []) s5.
Proof.
  do 6 eexists.
  split; [reflexivity|]. split; [reflexivity|]. split; [reflexivity|].
  split; [reflexivity|]. split; [reflexivity|]. split; reflexivity.
Qed.

Lemma C1_witness :
  exists (s2 s3 s4 s5 : FsState) (h' : Z),
    tfs_write 0 ["h"; "i"]%byte 2 fs_f_open = Done 2 s2 /\
    tfs_close 0 s2 = Done 0 s3 /\
    tfs_open 40 8 "/f" 0 s3 = Done h' s4 /\ 0 <= h' /\
    tfs_read h' 8 s4 = Done (2, ["h"; "i"]%byte) s5.
Proof.
  apply (C1_round_trip 40 8 fs_fresh fs_f_open "/f" 0 ["h"; "i"]%byte).
  - exact fs_fresh_reachable.
  - reflexivity.
  - vm_compute. discriminate.
  - reflexivity.
  - reflexivity.
  - lia.
  - right. vm_compute. discriminate.
Defined.



Lemma C5_witness :
  (exists s' : FsState,
     tfs_unlink "/s" fs_links = Done 0 s' /\ inode_get s' 2 = None) /\
  (exists s' : FsState,
     tfs_unlink "/a" fs_links = Done 0 s' /\
     inode_get s' 1 = Some (mk_inode T_FILE 0 (-1) 1 EmptyString)) /\
  tfs_unlink "/x" fs_links = Done (-1) fs_links.
Proof.
  destruct (C5_tfs_unlink 40 fs_links "/s" fs_links_reachable)
    as [_ Hsym].
  destruct (C5_tfs_unlink 40 fs_links "/a" fs_links_reachable)
    as [_ Hfile].
  destruct (C5_tfs_unlink 40 fs_links "/x" fs_links_reachable)
    as [Habsent _].
  split; [|split].
  - destruct (Hsym 2 (mk_inode T_SYM_LINK 0 (-1) 1 "/a"))
      as (s' & Hrun & _ & _ & _ & Hdel & _); try reflexivity.
    { discriminate. }
    exists s'. split; [exact Hrun|]. apply Hdel. by right.
  - destruct (Hfile 1 (mk_inode T_FILE 0 (-1) 2 EmptyString))
      as (s' & Hrun & _ & _ & _ & _ & Hdec); try reflexivity.
    { discriminate. }
    exists s'. split; [exact Hrun|]. apply Hdec. reflexivity.
  - apply Habsent. by right.
Defined.

Lemma C6_witness :
  (exists s' : FsState,
     tfs_open 40 1 long_name TFS_O_CREAT fs_fresh = Done (-1) s' /\
     forall i : Z, inode_get s' i = inode_get fs_fresh i) /\
  (exists s' : FsState,
     tfs_open 40 1 "/c" TFS_O_CREAT fs_two_open = Done (-1) s' /\
     tfs_lookup s' "/c" ROOT_DIR_INUM = 3).
Proof.
  split.
  - destruct (C6_tfs_open_create_failures 40 0 fs_fresh long_name
                TFS_O_CREAT 1) as [Hfail _]; try reflexivity.
    { by eexists. }
    destruct Hfail as (s' & Hrun & Hsame & _); [reflexivity|].
    exists s'. by split.
  - destruct (C6_tfs_open_create_failures 40 0 fs_two_open "/c"
                TFS_O_CREAT 3) as [_ Hfull]; try reflexivity.
    { by eexists. }
    destruct Hfull as (s' & Hrun & Hlook & _); try reflexivity.
    exists s'. by split.
Defined.

(** After tfs_sym_link("/s", "/s") on the fresh file system, which
    returns -1, tfs_open("/s", CREAT) returns handle 0, not -1: C7 as
    stated fails for the modes with CREAT. *)
Lemma C7_counterexample :
  tfs_sym_link 40 "/s" "/s" fs_fresh = Done (-1) fs_fresh /\
  exists s' : FsState,
    tfs_open 40 1 "/s" TFS_O_CREAT fs_fresh = Done 0 s'.
Proof. split; [reflexivity|]. eexists. reflexivity. Qed.

Lemma C7_witness :
  tfs_open 40 2 "/s" 0 fs_sym = tfs_open 40 1 "/t" 0 fs_sym /\
  tfs_sym_link 40 "/x" "/x" fs_sym = Done (-1) fs_sym /\
  tfs_open 40 1 "/x" TFS_O_TRUNC fs_sym = Done (-1) fs_sym /\
  tfs_open 40 1 "/s" TFS_O_CREAT fs_self_loop = Done (-1) fs_self_loop.
Proof.
  destruct (C7_tfs_open_sym_link 40 0 fs_self_loop "/s" TFS_O_CREAT)
    as (Hself & _ & _).
  { reflexivity. }
  { by eexists. }
  destruct (C7_tfs_open_sym_link 40 1 fs_sym "/s" 0) as (Hlink & _ & _).
  { reflexivity. }
  { by eexists. }
  destruct (C7_tfs_open_sym_link 40 0 fs_sym "/x" TFS_O_TRUNC)
    as (_ & _ & Habsent).
  { reflexivity. }
  { by eexists. }
  split; [|split; [|split]].
  - apply (Hlink 2 (mk_inode T_SYM_LINK 0 (-1) 1 "/t")); try reflexivity.
    + discriminate.
    + discriminate.
  - by apply Habsent.
  - by apply Habsent.
  - apply (Hself 2 (mk_inode T_SYM_LINK 0 (-1) 1 "/s")); try reflexivity.
    discriminate.
Defined.

Lemma C8_witness :
  exists (v : Z) (s' : FsState),
    tfs_link 40 "/a" "/b" fs_a = Done v s' /\
    v = 0 /\
    tfs_lookup s' "/b" ROOT_DIR_INUM = 1 /\
    inode_get s' 1 = Some (mk_inode T_FILE 0 (-1) 2 EmptyString).
Proof.
  destruct (C8_tfs_link 40 fs_a "/a" "/b" 1)
    as (v & s' & Hrun & _ & _ & _ & Hok); try reflexivity.
  { by eexists. }
  { discriminate. }
  destruct (Hok (mk_inode T_FILE 0 (-1) 1 EmptyString))
    as (Hv & Hlook & Hino & _); try reflexivity.
  { discriminate. }
  by exists v, s'.
Defined.

Lemma C9_witness :
  tfs_sym_link 40 "/x" "/s" fs_a = Done (-1) fs_a /\
  exists s' : FsState, tfs_sym_link 40 "/a" "/s" fs_a = Done 0 s'.
Proof.
  destruct (C9_tfs_sym_link 40 fs_a "/x" "/s") as (Habsent & _ & _);
    try reflexivity.
  { by eexists. }
  destruct (C9_tfs_sym_link 40 fs_a "/a" "/s") as (_ & _ & Hok);
    try reflexivity.
  { by eexists. }
  split.
  - by apply Habsent.
  - apply (Hok 2%nat); try reflexivity. discriminate.
Defined.

Lemma C10_witness :
  exists s' : FsState,
    tfs_sym_link 40 "/a" "/a" fs_a = Done (-1) s' /\
    inode_get fs_a 2 = None /\
    inode_get s' 2 = Some (mk_inode T_SYM_LINK 0 (-1) 1 "/a") /\
    forall name : string, tfs_lookup s' name ROOT_DIR_INUM <> 2.
Proof.
  destruct (C10_tfs_sym_link_leaks_inode 40 fs_a "/a" "/a" 2
              fs_a_reachable)
    as (s' & Hrun & Hfree & Hino & _ & _ & Hlook); try reflexivity.
  { discriminate. }
  by exists s'.
Defined.

(** ** The further properties on the scenarios *)

Lemma fs_shared_reachable : reachable 40 fs_shared.
Proof.
  apply (scenario_reachable
           [DoOpen "/f" TFS_O_CREAT; DoWrite 0 ["a"; "b"]%byte 2;
            DoOpen "/f" 0]).
  vm_compute. reflexivity.
Qed.

Lemma fs_f_closed_reachable : reachable 40 fs_f_closed.
Proof.
  apply (scenario_reachable
           [DoOpen "/f" TFS_O_CREAT; DoWrite 0 ["a"; "b"]%byte 2;
            DoClose 0]).
  vm_compute. reflexivity.
Qed.

Lemma fs_cycle_reachable : reachable 40 fs_cycle.
Proof. apply (scenario_reachable cycle_calls). vm_compute. reflexivity. Qed.

Lemma X1_witness :
  exists s : FsState,
    tfs_init None = Done 0 s /\
    fs_params s = tfs_default_params /\
    forall name : string, tfs_lookup s name ROOT_DIR_INUM = -1.
Proof.
  destruct (X1_tfs_init None) as [Hok _].
  destruct Hok as (s & root & Hinit & Hpar & _ & _ & _ & _ & Hlook & _).
  - split; reflexivity.
  - exists s. split; [exact Hinit|]. split; [exact Hpar|exact Hlook].
Defined.

Lemma X2_witness :
  valid_pathname "/b" = true /\
  1 <> ROOT_DIR_INUM /\
  exists ino : inode_t,
    inode_get fs_links 1 = Some ino /\
    i_node_type ino <> T_DIRECTORY /\
    1 <= i_links ino /\
    (i_node_type ino = T_SYM_LINK -> i_links ino = 1).
Proof.
  apply (X2_tfs_lookup_live 40 fs_links "/b" 1 fs_links_reachable).
  - reflexivity.
  - lia.
Defined.

Lemma X3_witness :
  exists n : Z,
    inode_get fs_fresh n = None /\
    inode_get fs_f_open n = Some (mk_inode T_FILE 0 (-1) 1 EmptyString) /\
    tfs_lookup fs_f_open "/f" ROOT_DIR_INUM = n /\
    get_open_file_entry fs_f_open 0 = Some (mk_open_file n 0).
Proof.
  destruct (X3_tfs_open_creates 40 0 fs_fresh "/f" TFS_O_CREAT)
    as [_ Hok].
  - reflexivity.
  - by eexists.
  - reflexivity.
  - reflexivity.
  - destruct (Hok 0 fs_f_open) as (n & Hfree & Hino & Hlook & _ & Hfile & _).
    + reflexivity.
    + lia.
    + exists n. split; [exact Hfree|]. split; [exact Hino|].
      split; [exact Hlook|exact Hfile].
Defined.

Lemma X4_witness :
  exists s' : FsState,
    tfs_open 40 1 "/f" (Z.lor TFS_O_TRUNC TFS_O_APPEND) fs_f_closed
    = Done 0 s' /\
    get_open_file_entry s' 0 = Some (mk_open_file 1 0) /\
    inode_get s' 1 = Some (mk_inode T_FILE 0 1 1 EmptyString) /\
    data_block_get s' 1 = None.
Proof.
  destruct (X4_tfs_open_file 40 0 fs_f_closed "/f"
              (Z.lor TFS_O_TRUNC TFS_O_APPEND) 1
              (mk_inode T_FILE 2 1 1 EmptyString) 0)
    as (s' & Hopen & _ & Hfile & Hino & Hdata & _).
  - reflexivity.
  - by eexists.
  - reflexivity.
  - lia.
  - reflexivity.
  - discriminate.
  - reflexivity.
  - exists s'. split; [exact Hopen|]. split; [exact Hfile|].
    split; [exact Hino|]. exact (proj1 Hdata).
Defined.

Lemma X5_witness :
  exists s' : FsState,
    tfs_open 40 1 "/f" TFS_O_TRUNC fs_past_end = Done (-1) s' /\
    inode_get fs_past_end 1 = Some (mk_inode T_FILE 1 1 1 EmptyString) /\
    inode_get s' 1 = Some (mk_inode T_FILE 0 1 1 EmptyString) /\
    data_block_get s' 1 = None.
Proof.
  destruct (X5_tfs_open_full_table_truncates 40 0 fs_past_end "/f"
              TFS_O_TRUNC 1 (mk_inode T_FILE 1 1 1 EmptyString))
    as (s' & Hopen & Hino & Hdata & _).
  - reflexivity.
  - by eexists.
  - reflexivity.
  - lia.
  - reflexivity.
  - discriminate.
  - reflexivity.
  - exists s'. split; [exact Hopen|]. split; [reflexivity|].
    split; [exact Hino|exact Hdata].
Defined.

Lemma fs_a_s_reachable : reachable 40 fs_a_s.
Proof.
  apply (scenario_reachable
           [DoOpen "/a" TFS_O_CREAT; DoClose 0; DoSymLink "/a" "/s"]).
  vm_compute. reflexivity.
Qed.

Lemma X6_witness :
  exists (h : Z) (s' : FsState),
    (forall fuel : nat,
       (1 < fuel)%nat -> tfs_open 40 fuel "/s" 0 fs_a_s = Done h s') /\
    reachable 40 s' /\
    (h = -1 \/
     (0 <= h /\ get_open_file_entry fs_a_s h = None /\
      exists (n : Z) (ino : inode_t),
        get_open_file_entry s' h
        = Some (mk_open_file n
                  (if mode_has 0 TFS_O_APPEND then i_size ino else 0)) /\
        inode_get s' n = Some ino /\
        i_node_type ino = T_FILE /\
        (mode_has 0 TFS_O_TRUNC = true -> i_size ino = 0))).
Proof.
  apply (X6_tfs_open_reachable 40 1 fs_a_s "/s" 0).
  - exact fs_a_s_reachable.
  - reflexivity.
Defined.

Lemma X7_witness :
  reachable 40 fs_cycle /\
  forall fuel : nat, tfs_open 40 fuel "/a" 0 fs_cycle = OutOfFuel.
Proof.
  split; [exact fs_cycle_reachable|]. intros fuel.
  apply (X7_tfs_open_sym_link_cycle 40 fs_cycle
           (fun name => name = "/a" \/ name = "/b") 0).
  - by eexists.
  - intros name [-> | ->].
    + split; [reflexivity|].
      exists (mk_inode T_SYM_LINK 0 (-1) 1 "/b").
      split; [vm_compute; discriminate|]. split; [reflexivity|].
      split; [reflexivity|]. split; [discriminate|]. right. reflexivity.
    + split; [reflexivity|].
      exists (mk_inode T_SYM_LINK 0 (-1) 1 "/a").
      split; [vm_compute; discriminate|]. split; [reflexivity|].
      split; [reflexivity|]. split; [discriminate|]. left. reflexivity.
  - left. reflexivity.
Defined.

Lemma X8_witness :
  tfs_close 1 fs_f_open = Done (-1) fs_f_open /\
  exists s' : FsState,
    tfs_close 0 fs_f_open = Done 0 s' /\
    tfs_close 0 s' = Done (-1) s' /\
    inode_table s' = inode_table fs_f_open.
Proof.
  destruct (X8_tfs_close fs_f_open 1) as [Hnone _].
  destruct (X8_tfs_close fs_f_open 0) as [_ Hsome].
  split.
  - apply Hnone. reflexivity.
  - destruct Hsome as (s' & Hclose & _ & _ & Ht & _ & _ & _ & _ & Hagain & _).
    + by eexists.
    + exists s'. split; [exact Hclose|]. split; [exact Hagain|exact Ht].
Defined.

Lemma X9_witness :
  inode_table fs_shared_read = inode_table fs_shared /\
  fs_data fs_shared_read = fs_data fs_shared /\
  get_open_file_entry fs_shared_read 0 = get_open_file_entry fs_shared 0.
Proof.
  destruct (X9_tfs_read_frame fs_shared fs_shared_read 1 8 2
              ["a"; "b"]%byte)
    as (Ht & Hd & _ & _ & Hothers & _).
  - reflexivity.
  - split; [exact Ht|]. split; [exact Hd|]. apply Hothers. lia.
Defined.

Lemma X10_witness :
  exists (s' : FsState) (bytes : list byte),
    tfs_read 1 8 fs_shared = Done (2, bytes) s' /\
    Z.of_nat (length bytes) = 2 /\
    get_open_file_entry s' 1 = Some (mk_open_file 1 2).
Proof.
  destruct (X10_tfs_read_inside 40 fs_shared 1 8 (mk_open_file 1 0)
              (mk_inode T_FILE 2 1 1 EmptyString) fs_shared_reachable)
    as (s' & bytes & Hread & Hlen & Hfile & _).
  - reflexivity.
  - reflexivity.
  - reflexivity.
  - simpl. lia.
  - lia.
  - exists s', bytes. split; [exact Hread|]. split; [exact Hlen|exact Hfile].
Defined.

Lemma X11_witness :
  root_dir fs_f_written = root_dir fs_f_open /\
  (forall j : Z, j <> 1 -> inode_get fs_f_written j = inode_get fs_f_open j).
Proof.
  destruct (X11_tfs_write_isolated 40 fs_f_open fs_f_written 0 2 2
              ["a"; "b"]%byte (mk_open_file 1 0) fs_f_open_reachable)
    as (Hdir & _ & _ & Hothers & _).
  - reflexivity.
  - reflexivity.
  - split; [exact Hdir|exact Hothers].
Defined.

Lemma fs_past_block_reachable : reachable 40 fs_past_block.
Proof.
  apply (scenario_reachable past_block_calls). vm_compute. reflexivity.
Qed.

Lemma X12_witness :
  state_block_size fs_past_block = 8 /\
  get_open_file_entry fs_past_block 0 = Some (mk_open_file 1 9) /\
  (forall (i : Z) (ino : inode_t),
     inode_get fs_past_block i = Some ino ->
     0 <= i_size ino <= state_block_size fs_past_block /\
     forall block : list byte,
       data_block_get fs_past_block (i_data_block ino) = Some block ->
       i_size ino <= Z.of_nat (length block)) /\
  (forall (fhandle : Z) (file : open_file_entry_t),
     get_open_file_entry fs_past_block fhandle = Some file ->
     0 <= of_offset file).
Proof.
  split; [reflexivity|]. split; [reflexivity|].
  apply (X12_sizes_within_block 40 fs_past_block fs_past_block_reachable).
  vm_compute. discriminate.
Defined.

Lemma X13_witness :
  (exists (v : Z) (s' : FsState),
     tfs_link 40 "/a" "/b" fs_a = Done v s' /\
     (v = 0 \/ v = -1 /\ s' = fs_a) /\
     open_file_table s' = open_file_table fs_a /\
     fs_data s' = fs_data fs_a) /\
  (exists (v : Z) (s' : FsState),
     tfs_sym_link 40 "/a" "/b" fs_a = Done v s' /\
     (v = 0 \/ v = -1) /\
     open_file_table s' = open_file_table fs_a /\
     fs_data s' = fs_data fs_a) /\
  (exists (v : Z) (s' : FsState),
     tfs_unlink "/a" fs_a = Done v s' /\
     (v = 0 \/ v = -1 /\ s' = fs_a) /\
     open_file_table s' = open_file_table fs_a).
Proof. exact (X13_links_return 40 fs_a "/a" "/b" fs_a_reachable). Defined.

Lemma X14_witness :
  exists s2 s3 : FsState,
    tfs_unlink "/a" fs_a_b = Done 0 s2 /\
    tfs_lookup s2 "/a" ROOT_DIR_INUM = -1 /\
    tfs_lookup s2 "/b" ROOT_DIR_INUM = 1 /\
    inode_get s2 1 = inode_get fs_a 1 /\
    tfs_unlink "/b" s2 = Done 0 s3 /\
    inode_get s3 1 = None.
Proof.
  destruct (X14_link_then_unlink 40 fs_a fs_a_b "/a" "/b" fs_a_reachable)
    as (inum & itarget & s2 & Hlook & Hino & _ & _ & _ & Hunlink & Hgone
        & Hkept & Hinodes & _ & _ & Hsecond).
  - reflexivity.
  - vm_compute in Hlook. subst inum.
    vm_compute in Hino. injection Hino as <-.
    destruct Hsecond as (s3 & Hunlink3 & _ & Hdeleted & _).
    + reflexivity.
    + exists s2, s3. split; [exact Hunlink|]. split; [exact Hgone|].
      split; [exact Hkept|]. split; [apply Hinodes|].
      split; [exact Hunlink3|exact Hdeleted].
Defined.

Lemma X15_witness :
  tfs_copy_from_external_fs 40 8 3 host_notes "none" "/f" fs_fresh
  = Done (-1) fs_fresh /\
  exists (dest : Z) (s1 s' : FsState),
    tfs_open 40 8 "/f" (Z.lor TFS_O_CREAT TFS_O_TRUNC) fs_fresh
    = Done dest s1 /\
    tfs_copy_from_external_fs 40 8 3 host_notes "notes" "/f" fs_fresh
    = Done (if dest =? -1 then -1 else 0) s' /\
    reachable 40 s'.
Proof.
  destruct (X15_copy_returns 40 8 3 host_notes "none" "/f" fs_fresh
              fs_fresh_reachable) as [Hnone _].
  { vm_compute. split; [discriminate|reflexivity]. }
  { lia. }
  { reflexivity. }
  destruct (X15_copy_returns 40 8 3 host_notes "notes" "/f" fs_fresh
              fs_fresh_reachable) as [_ Hsome].
  { vm_compute. split; [discriminate|reflexivity]. }
  { lia. }
  { reflexivity. }
  split.
  - apply Hnone. reflexivity.
  - destruct (Hsome ["0"; "1"; "2"; "3"; "4"; "5"; "6"; "7"; "8"; "9"]%byte
                0%nat) as (dest & s1 & s' & Hopen & Hcopy & Hreach & _).
    + reflexivity.
    + reflexivity.
    + lia.
    + exists dest, s1, s'.
      split; [exact Hopen|]. split; [exact Hcopy|exact Hreach].
Defined.

Lemma X16_witness :
  exists (s' s4 s5 : FsState) (h' : Z),
    tfs_copy_from_external_fs 40 8 3 host_notes "notes" "/f" fs_f_closed
    = Done 0 s' /\
    tfs_open 40 8 "/f" 0 s' = Done h' s4 /\ 0 <= h' /\
    tfs_read h' 8 s4
    = Done (8, ["0"; "1"; "2"; "3"; "4"; "5"; "6"; "7"]%byte) s5.
Proof.
  apply (X16_copy_read_back 40 8 3 host_notes "notes" "/f" fs_f_closed
           (state_after [DoOpen "/f" TFS_O_CREAT;
                         DoWrite 0 ["a"; "b"]%byte 2; DoClose 0;
                         DoOpen "/f" (Z.lor TFS_O_CREAT TFS_O_TRUNC)])
           ["0"; "1"; "2"; "3"; "4"; "5"; "6"; "7"; "8"; "9"]%byte 0
           fs_f_closed_reachable).
  - vm_compute. split; [discriminate|reflexivity].
  - lia.
  - reflexivity.
  - reflexivity.
  - intros ino Hino. vm_compute in Hino. injection Hino as <-. discriminate.
  - reflexivity.
  - discriminate.
Defined.

Lemma X17_witness :
  exists s1 s2 : FsState,
    tfs_write 0 ["c"; "d"]%byte 2 fs_shared = Done 2 s1 /\
    tfs_read 1 8 s1 = Done (4, ["a"; "b"; "c"; "d"]%byte) s2.
Proof.
  apply (X17_write_seen_by_other_handle 40 fs_shared fs_shared_read 0 1 1
           (mk_inode T_FILE 2 1 1 EmptyString) ["a"; "b"]%byte
           ["c"; "d"]%byte fs_shared_reachable).
  - vm_compute. split; [discriminate|reflexivity].
  - reflexivity.
  - lia.
  - reflexivity.
  - reflexivity.
  - reflexivity.
  - reflexivity.
  - simpl. discriminate.
Defined.

Lemma X18_witness :
  tfs_open 40 2 "/s" 0 fs_a_s = tfs_open 40 1 "/a" 0 fs_a_s /\
  tfs_lookup fs_dangling "/a" ROOT_DIR_INUM = -1 /\
  tfs_open 40 2 "/s" TFS_O_TRUNC fs_dangling = Done (-1) fs_dangling.
Proof.
  destruct (X18_sym_link_followed 40 fs_a fs_a_s "/a" "/s" fs_a_reachable)
    as [Hfollow Hdangling].
  - reflexivity.
  - destruct (Hdangling fs_dangling) as (Hgone & _ & Hfail).
    + reflexivity.
    + split; [apply Hfollow|]. split; [exact Hgone|].
      apply Hfail. reflexivity.
Defined.

Lemma fs_unlinked_open_reachable : reachable 40 fs_unlinked_open.
Proof.
  apply (scenario_reachable [DoOpen "/f" TFS_O_CREAT; DoUnlink "/f"]).
  vm_compute. reflexivity.
Qed.

Lemma X20_witness :
  inode_get fs_unlinked_open 1 = None /\
  1 <> 0 /\
  tfs_lookup fs_stale "/g" ROOT_DIR_INUM = 1 /\
  inode_get fs_stale 1 = Some (mk_inode T_FILE 0 (-1) 1 EmptyString) /\
  get_open_file_entry fs_stale 0 = Some (mk_open_file 1 0) /\
  get_open_file_entry fs_stale 1 = Some (mk_open_file 1 0).
Proof.
  apply (X20_stale_handle_reattached 40 0 fs_unlinked_open fs_stale "/g"
           TFS_O_CREAT 0 1 (mk_open_file 1 0) fs_unlinked_open_reachable).
  - reflexivity.
  - reflexivity.
  - reflexivity.
  - reflexivity.
  - reflexivity.
  - reflexivity.
  - lia.
Defined.
